(** * Serverless Service KRM function: expansion of a Service document

    A shallow embedding of [kubed/kustomize/service.py] (the generators
    [generate_package], [generate_function], [generate_http_trigger], the
    merger [merge_function_config] and the orchestrator [transform]) and of
    the validation test, the file selection of [pack] and the document
    update of [publish] of [kubed/kubectl/fn.py], together with the
    properties the design document states about them and further
    properties read off the code. *)

From Stdlib Require Import Ascii.
From stdpp Require Import base strings gmap list pretty.

#[local] Set Warnings "-register-all".
#[local] Open Scope string_scope.
#[local] Open Scope Z_scope.

(** ** YAML documents as Python values

    A loaded YAML document is a tree of [None], booleans, integers,
    strings, lists and mappings with string keys.  Floating-point scalars do
    not occur in the fields the program inspects and are left out.  A
    mapping is a finite map: Python compares mappings without regard to the
    order of their keys. *)

Inductive value : Type :=
| VNone
| VBool (b : bool)
| VInt (n : Z)
| VStr (s : string)
| VList (l : list value)
| VDict (d : gmap string value).

(** A mapping literal [{k1: v1, ..., kn: vn}] with distinct keys. *)
Definition dict (l : list (string * value)) : value := VDict (list_to_map l).

(** ** Exceptions

    [PluginFail] is the failure signal of the plugin, the next four are the
    Python exceptions of the operations below, and [Unsupported] marks the
    few operations on documents the embedding does not cover (see [py_eq]
    and [py_format]). *)

Inductive error : Type :=
| PluginFail (msg : string)
| KeyError (key : string)
| TypeError
| AttributeError
| FileNotFoundError (path : string)
| Unsupported.

Inductive outcome (A : Type) : Type :=
| Ok (a : A)
| Raise (e : error).
Arguments Ok {A} a.
Arguments Raise {A} e.

#[global] Instance outcome_ret : MRet outcome := fun A a => Ok a.
#[global] Instance outcome_bind : MBind outcome := fun A B f m =>
  match m with
  | Ok a => f a
  | Raise e => Raise e
  end.

Definition is_ok {A} (m : outcome A) : bool :=
  match m with Ok _ => true | Raise _ => false end.

(** Modelled from the spec: [kubed.krm.errors.plugin_fail] is imported by
    service.py but its module is not among the sources.  Section 7 of the
    design document says a validation failure is raised as a single
    descriptive failure signal at the point of detection and aborts the
    whole expansion; the embedding raises [PluginFail] with the message. *)
Definition plugin_fail {A} (msg : string) : outcome A := Raise (PluginFail msg).

(** ** The Python operations the program applies to documents *)

(** Truth value of an object, as tested by [if x:] and [not x]. *)
Definition py_truthy (v : value) : bool :=
  match v with
  | VNone => false
  | VBool b => b
  | VInt n => negb (n =? 0)
  | VStr s => negb (bool_decide (s = ""))
  | VList l => match l with [] => false | _ => true end
  | VDict d => negb (bool_decide (d = ∅))
  end.

(** [v[k]] for a string key [k]. *)
Definition py_getitem (v : value) (k : string) : outcome value :=
  match v with
  | VDict d => match d !! k with Some x => Ok x | None => Raise (KeyError k) end
  | _ => Raise TypeError
  end.

(** [v.get(k, dflt)]: only mappings have the method. *)
Definition py_get (v : value) (k : string) (dflt : value) : outcome value :=
  match v with
  | VDict d => Ok (default dflt (d !! k))
  | _ => Raise AttributeError
  end.

(** [k in s] on strings is the substring test. *)
Fixpoint is_substring (k s : string) : bool :=
  String.prefix k s ||
  match s with
  | EmptyString => false
  | String _ s' => is_substring k s'
  end.

Definition is_str (k : string) (v : value) : bool :=
  match v with VStr s => bool_decide (s = k) | _ => false end.

(** [k in v] for a string [k]: key test on a mapping, membership in a list
    (a string equals only a string), substring test on a string. *)
Definition py_contains (k : string) (v : value) : outcome bool :=
  match v with
  | VDict d => Ok (bool_decide (is_Some (d !! k)))
  | VList l => Ok (existsb (is_str k) l)
  | VStr s => Ok (is_substring k s)
  | _ => Raise TypeError
  end.

(** [v[k] = x] for a string key [k]. *)
Definition py_setitem (v : value) (k : string) (x : value) : outcome value :=
  match v with
  | VDict d => Ok (VDict (<[k := x]> d))
  | _ => Raise TypeError
  end.

(** The elements a [for] loop visits.  Iterating a mapping yields its keys;
    the program only ever indexes or calls [.get] on what it iterates, which
    fails on every key alike, so the order of the keys is immaterial. *)
Definition py_iter (v : value) : outcome (list value) :=
  match v with
  | VList l => Ok l
  | VDict d => Ok ((λ kv, VStr kv.1) <$> map_to_list d)
  | VStr s => Ok ((λ c, VStr (String c EmptyString)) <$> String.list_ascii_of_string s)
  | _ => Raise TypeError
  end.

(** [len(v)]. *)
Definition py_len (v : value) : outcome nat :=
  match v with
  | VList l => Ok (length l)
  | VDict d => Ok (size d)
  | VStr s => Ok (String.length s)
  | _ => Raise TypeError
  end.

Definition py_num (v : value) : Z :=
  match v with
  | VBool b => Z.b2z b
  | VInt n => n
  | _ => 0
  end.

(** [a == b].  A string equals only an equal string, a container never
    equals a scalar, booleans compare as the integers 0 and 1.  Equality of
    two lists or of two mappings is element-wise [==] and is not needed for
    names; the embedding does not cover it. *)
Definition py_eq (a b : value) : outcome bool :=
  match a, b with
  | VStr s, VStr t => Ok (bool_decide (s = t))
  | VStr _, _ | _, VStr _ => Ok false
  | VList _, VList _ | VDict _, VDict _ => Raise Unsupported
  | VList _, _ | _, VList _ | VDict _, _ | _, VDict _ => Ok false
  | VNone, VNone => Ok true
  | VNone, _ | _, VNone => Ok false
  | _, _ => Ok (py_num a =? py_num b)
  end.

(** [str(v)], as used by f-string interpolation.  The [repr] of a container
    depends on key order and quoting and is not covered. *)
Definition py_format (v : value) : outcome string :=
  match v with
  | VStr s => Ok s
  | VInt n => Ok (pretty n)
  | VBool b => Ok (if b then "True" else "False")
  | VNone => Ok "None"
  | _ => Raise Unsupported
  end.

Definition isinstance_dict (v : value) : bool :=
  match v with VDict _ => true | _ => false end.

(** [l.append(x)]: only lists have the method. *)
Definition py_append (l x : value) : outcome value :=
  match l with
  | VList xs => Ok (VList (xs ++ [x]))
  | _ => Raise AttributeError
  end.

(** Running a loop body over a list, stopping at the first exception. *)
Fixpoint for_each {A B} (f : A → outcome B) (l : list A) : outcome (list B) :=
  match l with
  | [] => Ok []
  | x :: l' => y ← f x; ys ← for_each f l'; Ok (y :: ys)
  end.

(** A loop that updates an accumulator, stopping at the first exception. *)
Fixpoint fold_each {A S} (f : S → A → outcome S) (s : S) (l : list A) : outcome S :=
  match l with
  | [] => Ok s
  | x :: l' => s' ← f s x; fold_each f s' l'
  end.

(** ** The standard library behind the literal packaging step

    [generate_package] writes the literal code to a file of a fresh
    temporary directory, archives that file with [zipfile], and feeds the
    bytes of the archive to [base64] and [hashlib].  What the archive
    records about a member, besides its name and data, comes from the file
    system: [ZipInfo.from_file] takes the modification time and the mode of
    the file. *)

(** (year, month, day, hour, minute, second) as [time.localtime] gives it
    for the modification time, the second on the two-second grid of the
    archive format. *)
Definition date_time : Type := N * N * N * N * N * N.

Record ZipInfo : Type := mkZipInfo {
  filename : string;
  zi_date_time : date_time;
  external_attr : N
}.

(** The interface of the three library modules, with the contracts their
    documentation gives: an archive written with one member reads back as
    that member, name, recorded time, attributes and data, and base64
    decoding inverts encoding.  Nothing is assumed of the digest. *)
Class PyLib : Type := {
  (** bytes of [ZipFile(p, 'w', ZIP_DEFLATED)] after one [write] and close *)
  zip_write : ZipInfo → string → string;
  (** [infolist()] of an archive with the data of each member *)
  zip_read : string → option (list (ZipInfo * string));
  zip_read_write : ∀ i data, zip_read (zip_write i data) = Some [(i, data)];
  b64encode : string → string;
  b64decode : string → option string;
  b64decode_encode : ∀ b, b64decode (b64encode b) = Some b;
  sha256_hexdigest : string → string
}.

(** What one run of the packaging step takes from its surroundings: the
    name [tempfile] picks for the directory, and the modification time and
    mode the file system gives a file written during the run. *)
Record run_env : Type := mkEnv {
  tmpdir : string;
  st_mtime : date_time;
  st_mode : N
}.

Record file : Type := mkFile {
  f_mtime : date_time;
  f_mode : N;
  f_data : string
}.

(** [Path(dir) / name] *)
Definition path_join (dir name : string) : string := dir +:+ "/" +:+ name.

(** [Path.write_text] and [Path.read_bytes] on the files of the run. *)
Definition write_file (e : run_env) (p data : string) (fs : gmap string file) : gmap string file :=
  <[p := mkFile (st_mtime e) (st_mode e) data]> fs.

Definition read_file (p : string) (fs : gmap string file) : outcome string :=
  match fs !! p with
  | Some f => Ok (f_data f)
  | None => Raise (FileNotFoundError p)
  end.

(** [ZipInfo.from_file(path, arcname)] *)
Definition ZipInfo_from_file (f : file) (arcname : string) : ZipInfo :=
  mkZipInfo arcname (f_mtime f) (N.shiftl (N.land (f_mode f) 65535) 16).

Section Service.
Context `{PyLib}.

(** [with ZipFile(zip_path, 'w', ZIP_DEFLATED) as zipf: zipf.write(src, arcname)] *)
Definition zip_file (e : run_env) (zip_path src arcname : string)
    (fs : gmap string file) : outcome (gmap string file) :=
  match fs !! src with
  | Some f => Ok (write_file e zip_path (zip_write (ZipInfo_from_file f arcname) (f_data f)) fs)
  | None => Raise (FileNotFoundError src)
  end.

(** ** merge_function_config (service.py, lines 16-35) *)

Definition mergeable_keys : list string :=
  ["invokeStrategy"; "requestsPerPod"; "retainPods"; "concurrency";
   "functionTimeout"; "idletimeout"; "onceOnly"; "resources"; "podspec"].

(** Lines 32-33: the body of the loop over the mergeable keys. *)
Definition override_key (overrides config : value) (key : string) : outcome value :=
  c ← py_contains key overrides;
  if c : bool then
    v ← py_getitem overrides key;
    py_setitem config key v
  else Ok config.

Definition merge_function_config (defaults overrides : value) : outcome value :=
  let config := defaults (* copy.deepcopy(defaults) *) in
  fold_each (override_key overrides) config mergeable_keys.

(** ** generate_package (service.py, lines 186-292) *)

(** Lines 231-237: the source type, explicit or inferred from the keys. *)
Definition inferred_type (source_spec : value) : outcome value :=
  has_type ← py_contains "type" source_spec;
  if has_type : bool then py_getitem source_spec "type"
  else
    has_literal ← py_contains "literal" source_spec;
    if has_literal : bool then Ok (VStr "literal")
    else
      has_url ← py_contains "url" source_spec;
      if has_url : bool then Ok (VStr "url") else Ok VNone.

(** Lines 244-255: the archive of the literal code, through the files of a
    temporary directory. *)
Definition literal_zip_bytes (e : run_env) (literal_code : value) : outcome string :=
  match literal_code with
  | VStr code =>
      let main_py := path_join (tmpdir e) "main.py" in
      let fs := write_file e main_py code ∅ in
      let zip_path := path_join (tmpdir e) "package.zip" in
      fs ← zip_file e zip_path main_py "main.py" fs;
      read_file zip_path fs
  | _ => Raise TypeError
  end.

(** Lines 241-271: the source block of an embedded literal. *)
Definition literal_source (e : run_env) (source_spec : value) : outcome value :=
  literal_code ← py_getitem source_spec "literal";
  zip_bytes ← literal_zip_bytes e literal_code;
  let encoded := b64encode zip_bytes in
  let sha256_hash := sha256_hexdigest zip_bytes in
  Ok (dict [("type", VStr "literal");
            ("literal", VStr encoded);
            ("checksum", dict [("type", VStr "sha256");
                               ("sum", VStr sha256_hash)])]).

(** Lines 274-286: any other source block, copied and normalised. *)
Definition copied_source (source_spec inferred : value) : outcome value :=
  let source_copy := source_spec (* copy.deepcopy(source_spec) *) in
  has_type ← py_contains "type" source_copy;
  source_copy ←
    (if has_type : bool then Ok source_copy
     else py_setitem source_copy "type"
            (if py_truthy inferred then inferred else VStr "url"));
  has_checksum ← py_contains "checksum" source_copy;
  if has_checksum : bool then
    checksum ← py_getitem source_copy "checksum";
    if isinstance_dict checksum then
      checksum_has_type ← py_contains "type" checksum;
      if checksum_has_type : bool then Ok source_copy
      else
        checksum ← py_setitem checksum "type" (VStr "sha256");
        py_setitem source_copy "checksum" checksum
    else Ok source_copy
  else Ok source_copy.

(** Lines 224-286: the source block of the package, if the package
    specification has one. *)
Definition package_source (e : run_env) (package_spec : value) : outcome (option value) :=
  has_source ← py_contains "source" package_spec;
  if has_source : bool then
    source_spec ← py_getitem package_spec "source";
    inferred ← inferred_type source_spec;
    is_literal ← py_eq inferred (VStr "literal");
    use_literal ← (if is_literal : bool then py_contains "literal" source_spec else Ok false);
    source ← (if use_literal : bool then literal_source e source_spec
              else copied_source source_spec inferred);
    Ok (Some source)
  else Ok None.

Definition generate_package (e : run_env)
    (name namespace labels package_spec env_name env_namespace buildcmd : value)
    : outcome value :=
  let metadata : gmap string value :=
    list_to_map [("name", name); ("namespace", namespace)] in
  let spec : gmap string value :=
    list_to_map [("environment", dict [("name", env_name); ("namespace", env_namespace)])] in
  let metadata :=
    if py_truthy labels then <["labels" := labels]> metadata else metadata in
  source ← package_source e package_spec;
  let spec := match source with Some s => <["source" := s]> spec | None => spec end in
  let spec := if py_truthy buildcmd then <["buildcmd" := buildcmd]> spec else spec in
  Ok (dict [("apiVersion", VStr "fission.io/v1");
            ("kind", VStr "Package");
            ("metadata", VDict metadata);
            ("spec", VDict spec);
            ("status", dict [("buildstatus", VStr "pending")])]).

(** ** generate_function (service.py, lines 295-385) *)

Definition default_invoke_strategy : value :=
  dict [("StrategyType", VStr "execution");
        ("ExecutionStrategy", dict [("ExecutorType", VStr "poolmgr")])].

Definition optional_fields : list string :=
  ["requestsPerPod"; "retainPods"; "concurrency"; "functionTimeout";
   "idletimeout"; "onceOnly"; "resources"; "podspec"].

(** Lines 382-383: the body of the loop over the optional fields. *)
Definition copy_field (func_config : value) (spec : gmap string value) (field : string)
    : outcome (gmap string value) :=
  c ← py_contains field func_config;
  if c : bool then
    v ← py_getitem func_config field;
    Ok (<[field := v]> spec)
  else Ok spec.

Definition generate_function
    (name namespace labels description function_name package_name
     package_namespace env_name env_namespace secrets configmaps func_config : value)
    : outcome value :=
  let metadata : gmap string value :=
    list_to_map [("name", name); ("namespace", namespace)] in
  let spec : gmap string value :=
    list_to_map
      [("environment", dict [("name", env_name); ("namespace", env_namespace)]);
       ("package", dict [("packageref", dict [("name", package_name);
                                              ("namespace", package_namespace)]);
                         ("functionName", function_name)])] in
  let metadata :=
    if py_truthy labels then <["labels" := labels]> metadata else metadata in
  let metadata :=
    if py_truthy description
    then <["annotations" := dict [("kubernetes.io/description", description)]]> metadata
    else metadata in
  let spec := if py_truthy secrets then <["secrets" := secrets]> spec else spec in
  let spec := if py_truthy configmaps then <["configmaps" := configmaps]> spec else spec in
  has_strategy ← py_contains "invokeStrategy" func_config;
  strategy ← (if has_strategy : bool then py_getitem func_config "invokeStrategy"
              else Ok default_invoke_strategy);
  let spec := <["InvokeStrategy" := strategy]> spec in
  spec ← fold_each (copy_field func_config) spec optional_fields;
  Ok (dict [("apiVersion", VStr "fission.io/v1");
            ("kind", VStr "Function");
            ("metadata", VDict metadata);
            ("spec", VDict spec)]).

(** ** generate_http_trigger (service.py, lines 388-439) *)

(** Lines 407-412: the route path, explicit or inferred from the names. *)
Definition trigger_path (service_name short_function_name trigger_spec : value)
    : outcome value :=
  has_path ← py_contains "path" trigger_spec;
  if has_path : bool then py_getitem trigger_spec "path"
  else
    same ← py_eq short_function_name service_name;
    if same : bool then
      s ← py_format service_name;
      Ok (VStr ("/" +:+ s))
    else
      s ← py_format service_name;
      f ← py_format short_function_name;
      Ok (VStr ("/" +:+ s +:+ "/" +:+ f)).

Definition generate_http_trigger
    (name namespace labels function_name service_name short_function_name
     trigger_spec : value) : outcome value :=
  path ← trigger_path service_name short_function_name trigger_spec;
  method ← py_get trigger_spec "method" (VStr "GET");
  host ← py_get trigger_spec "host" (VStr "");
  let metadata : gmap string value :=
    list_to_map [("name", name); ("namespace", namespace)] in
  let metadata :=
    if py_truthy labels then <["labels" := labels]> metadata else metadata in
  Ok (dict [("apiVersion", VStr "fission.io/v1");
            ("kind", VStr "HTTPTrigger");
            ("metadata", VDict metadata);
            ("spec", dict [("host", host);
                           ("method", method);
                           ("relativeurl", path);
                           ("functionref", dict [("type", VStr "name");
                                                 ("name", function_name)])])]).

(** ** transform (service.py, lines 38-183)

    [transform] appends to the list object [krm["items"]] in place, so the
    document it was given is a store the computation updates; an exception
    leaves the store as the appends made so far have it. *)

Definition M (A : Type) : Type := value → outcome A * value.

#[global] Instance M_ret : MRet M := λ A a krm, (Ok a, krm).
#[global] Instance M_bind : MBind M := λ A B f m krm,
  match m krm with
  | (Ok a, krm') => f a krm'
  | (Raise e, krm') => (Raise e, krm')
  end.

(** A computation that does not touch the store. *)
Definition pure {A} (m : outcome A) : M A := λ krm, (m, krm).

(** The object [krm] names. *)
Definition the_krm : M value := λ krm, (Ok krm, krm).

(** [krm["items"].append(x)] *)
Definition items_append (x : value) : M unit := λ krm,
  match (items ← py_getitem krm "items";
         items ← py_append items x;
         py_setitem krm "items" items) with
  | Ok krm' => (Ok (), krm')
  | Raise e => (Raise e, krm)
  end.

Fixpoint for_each_M {A} (f : A → M unit) (l : list A) : M unit :=
  match l with
  | [] => mret ()
  | x :: l' => _ ← f x; for_each_M f l'
  end.

(** Lines 110-116, 126-132, 159-168, each written out as in the source:
    the per-function value if the function declares the field, else the
    template's if it declares it, else the empty list. *)
Definition func_secrets (func_def function_defaults : value) : outcome value :=
  declared ← py_contains "secrets" func_def;
  if declared : bool then py_getitem func_def "secrets"
  else
    defaulted ← py_contains "secrets" function_defaults;
    if defaulted : bool then py_getitem function_defaults "secrets"
    else Ok (VList []).

Definition func_configmaps (func_def function_defaults : value) : outcome value :=
  declared ← py_contains "configmaps" func_def;
  if declared : bool then py_getitem func_def "configmaps"
  else
    defaulted ← py_contains "configmaps" function_defaults;
    if defaulted : bool then py_getitem function_defaults "configmaps"
    else Ok (VList []).

Definition func_triggers (func_def function_defaults : value) : outcome value :=
  declared ← py_contains "triggers" func_def;
  if declared : bool then py_getitem func_def "triggers"
  else
    defaulted ← py_contains "triggers" function_defaults;
    if defaulted : bool then py_getitem function_defaults "triggers"
    else Ok (VList []).

(** Lines 119-124 and 135-140: references completed with the namespace. *)
Definition normalize_refs (refs namespace : value) : outcome value :=
  refs ← py_iter refs;
  out ← for_each (λ ref,
           name ← py_getitem ref "name";
           ns ← py_get ref "namespace" namespace;
           Ok (dict [("name", name); ("namespace", ns)])) refs;
  Ok (VList out).

(** Lines 98-105: the short name and the resource name of a function. *)
Definition short_name (func_def service_name : value) : outcome value :=
  py_get func_def "name" service_name.

Definition func_name (func_def service_name short_name : value) : outcome value :=
  same ← py_eq short_name service_name;
  unnamed ← (if same : bool then
               named ← py_contains "name" func_def;
               Ok (negb named)
             else Ok false);
  if unnamed : bool then Ok service_name
  else
    s ← py_format service_name;
    f ← py_format short_name;
    Ok (VStr (s +:+ "-" +:+ f)).

(** The values lines 52-71 compute once for the whole Service. *)
Record context : Type := mkContext {
  service_name : value;
  namespace : value;
  labels : value;
  package_spec : value;
  package_name : value;
  env_name : value;
  env_namespace : value;
  function_defaults : value
}.

Definition shared_context (service : value) : outcome (value * context) :=
  metadata ← py_getitem service "metadata";
  spec ← py_getitem service "spec";
  service_name ← py_getitem metadata "name";
  namespace ← py_get metadata "namespace" (VStr "default");
  labels ← py_get metadata "labels" (dict []);
  package_spec ← py_get spec "package" (dict []);
  package_name ← py_get package_spec "name" service_name;
  env_spec ← py_getitem spec "environment";
  env_name ← py_getitem env_spec "name";
  env_namespace ← py_get env_spec "namespace" namespace;
  function_defaults ← py_get spec "functionTemplate" (dict []);
  Ok (spec, mkContext service_name namespace labels package_spec package_name
                      env_name env_namespace function_defaults).

(** Lines 171-181: one HTTPTrigger of a function. *)
Definition trigger_resource (c : context) (func_name short_name trigger : value)
    : outcome value :=
  trigger_spec ← py_get trigger "http" (dict []);
  generate_http_trigger func_name (namespace c) (labels c) func_name
    (service_name c) short_name trigger_spec.

(** Lines 97-156: the Function resource of one function definition, with
    the names the trigger loop uses. *)
Definition function_resource (c : context) (func_def : value)
    : outcome (value * value * value) :=
  short_name ← short_name func_def (service_name c);
  func_name ← func_name func_def (service_name c) short_name;
  func_config ← merge_function_config (function_defaults c) func_def;
  func_secrets ← func_secrets func_def (function_defaults c);
  secrets ← normalize_refs func_secrets (namespace c);
  func_configmaps ← func_configmaps func_def (function_defaults c);
  configmaps ← normalize_refs func_configmaps (namespace c);
  description ← py_get func_def "description" VNone;
  function_name ← py_getitem func_def "functionName";
  function ← generate_function func_name (namespace c) (labels c) description
                function_name (package_name c) (namespace c) (env_name c)
                (env_namespace c) secrets configmaps func_config;
  Ok (function, func_name, short_name).

(** Lines 96-181: the body of the loop over the function definitions. *)
Definition expand_function (c : context) (func_def : value) : M unit :=
  '(function, func_name, short_name) ← pure (function_resource c func_def);
  _ ← items_append function;
  triggers ← pure (func_triggers func_def (function_defaults c));
  triggers ← pure (py_iter triggers);
  for_each_M (λ trigger,
    http_trigger ← pure (trigger_resource c func_name short_name trigger);
    items_append http_trigger) triggers.

(** Lines 86-93: the two checks on the list of functions. *)
Definition validate_functions (spec : value) : outcome unit :=
  functions_list ← py_get spec "functions" (VList []);
  if negb (py_truthy functions_list) then
    plugin_fail "Error: spec.functions must contain at least one function"
  else
    fs ← py_iter functions_list;
    named ← for_each (py_contains "name") fs;
    let unnamed_count := length (filter (λ b, negb b) named) in
    many ← (if bool_decide (0 < unnamed_count)%nat then
              n ← py_len functions_list;
              Ok (bool_decide (1 < n)%nat)
            else Ok false);
    if many : bool then
      plugin_fail "Error: 'name' is required for each function when there are multiple functions"
    else Ok ().

Definition transform (e : run_env) : M value :=
  krm ← the_krm;
  service ← pure (py_getitem krm "functionConfig");
  '(spec, c) ← pure (shared_context service);
  buildcmd ← pure (py_get (package_spec c) "buildcmd" VNone);
  package ← pure (generate_package e (package_name c) (namespace c) (labels c)
                    (package_spec c) (env_name c) (env_namespace c) buildcmd);
  _ ← items_append package;
  _ ← pure (validate_functions spec);
  functions ← pure (py_getitem spec "functions");
  functions ← pure (py_iter functions);
  _ ← for_each_M (expand_function c) functions;
  the_krm.

End Service.

(** ** The Service test of pack and publish (fn.py, lines 44 and 157)

    [service.get('kind') != 'Service' or
     not service.get('apiVersion', '').startswith('serverless.krm.kubed.io')]:
    when it holds, both commands print a diagnostic and exit with status 1. *)
Definition api_group : string := "serverless.krm.kubed.io".

Definition not_a_service (service : value) : outcome bool :=
  kind ← py_get service "kind" VNone;
  is_service ← py_eq kind (VStr "Service");
  if negb is_service then Ok true
  else
    api_version ← py_get service "apiVersion" (VStr "");
    match api_version with
    | VStr s => Ok (negb (String.prefix api_group s))
    | _ => Raise AttributeError
    end.

(** ** A small library with the contracts of [PyLib]

    The interface is inhabited: a container format that stores the fields
    of its single member one after the other, a transparent text encoding
    and a digest.  It serves to run the generators on concrete documents. *)
Module Ref.

Fixpoint enc_pos (p : positive) : string :=
  match p with
  | xH => "."
  | xO p => String "0"%char (enc_pos p)
  | xI p => String "1"%char (enc_pos p)
  end.

Fixpoint dec_pos (s : string) : option (positive * string) :=
  match s with
  | String c r =>
      if bool_decide (c = "."%char) then Some (xH, r)
      else if bool_decide (c = "0"%char) then '(p, r') ← dec_pos r; Some (xO p, r')
      else if bool_decide (c = "1"%char) then '(p, r') ← dec_pos r; Some (xI p, r')
      else None
  | EmptyString => None
  end.

Definition enc_N (n : N) : string :=
  match n with
  | N0 => "z"
  | Npos p => String "p"%char (enc_pos p)
  end.

Definition dec_N (s : string) : option (N * string) :=
  match s with
  | String c r =>
      if bool_decide (c = "z"%char) then Some (N0, r)
      else if bool_decide (c = "p"%char) then '(p, r') ← dec_pos r; Some (Npos p, r')
      else None
  | EmptyString => None
  end.

Fixpoint enc_name (s : string) : string :=
  match s with
  | EmptyString => "e"
  | String c r => String "c"%char (String c (enc_name r))
  end.

Fixpoint dec_name (s : string) : option (string * string) :=
  match s with
  | String t r =>
      if bool_decide (t = "e"%char) then Some (EmptyString, r)
      else match r with
           | String c r' =>
               if bool_decide (t = "c"%char)
               then '(n, r'') ← dec_name r'; Some (String c n, r'')
               else None
           | EmptyString => None
           end
  | EmptyString => None
  end.

Definition archive (i : ZipInfo) (data : string) : string :=
  let '(y, mo, d, h, mi, s) := zi_date_time i in
  enc_name (filename i) +:+ enc_N y +:+ enc_N mo +:+ enc_N d +:+ enc_N h +:+
  enc_N mi +:+ enc_N s +:+ enc_N (external_attr i) +:+ data.

Definition unarchive (b : string) : option (list (ZipInfo * string)) :=
  '(name, r) ← dec_name b;
  '(y, r) ← dec_N r;
  '(mo, r) ← dec_N r;
  '(d, r) ← dec_N r;
  '(h, r) ← dec_N r;
  '(mi, r) ← dec_N r;
  '(s, r) ← dec_N r;
  '(attr, r) ← dec_N r;
  Some [(mkZipInfo name (y, mo, d, h, mi, s) attr, r)].

Lemma dec_enc_pos (p : positive) (r : string) :
  dec_pos (enc_pos p +:+ r) = Some (p, r).
Proof.
  induction p as [p IH | p IH | ]; simpl; [rewrite IH | rewrite IH | ]; reflexivity.
Qed.

Lemma dec_enc_N (n : N) (r : string) : dec_N (enc_N n +:+ r) = Some (n, r).
Proof.
  destruct n as [ | p]; simpl; [ | rewrite dec_enc_pos]; reflexivity.
Qed.

Lemma dec_enc_name (s r : string) : dec_name (enc_name s +:+ r) = Some (s, r).
Proof.
  induction s as [ | c s IH]; simpl; [ | rewrite IH]; reflexivity.
Qed.

Lemma unarchive_archive (i : ZipInfo) (data : string) :
  unarchive (archive i data) = Some [(i, data)].
Proof.
  destruct i as [name [[[[[y mo] d] h] mi] s] attr].
  unfold unarchive, archive; simpl.
  rewrite dec_enc_name; simpl.
  repeat (rewrite dec_enc_N; simpl).
  reflexivity.
Qed.

Definition digest (b : string) : string := pretty (String.length b).

Definition lib : PyLib := {|
  zip_write := archive;
  zip_read := unarchive;
  zip_read_write := unarchive_archive;
  b64encode := λ b, b;
  b64decode := λ t, Some t;
  b64decode_encode := λ b, eq_refl;
  sha256_hexdigest := digest
|}.

End Ref.

(** ** merge_function_config on objects

    [merge_function_config] copies [defaults] and assigns into the copy.
    Whether its arguments are left alone is a question about objects, not
    values: mappings live in a store, a name is a location, [copy.deepcopy]
    allocates, and [config[key] = v] updates the object at a location. *)

Abbreviation heap := (gmap positive value).






(** ** Reading generated resources *)

Fixpoint get_path (v : value) (ks : list string) : option value :=
  match ks with
  | [] => Some v
  | k :: ks' =>
      match v with
      | VDict d => x ← d !! k; get_path x ks'
      | _ => None
      end
  end.

Definition resource_kind (r : value) : option value := get_path r ["kind"].
Definition resource_name (r : value) : option value := get_path r ["metadata"; "name"].

(** The identity of a resource within one namespace. *)
Definition resource_id (r : value) : option value * option value :=
  (resource_kind r, resource_name r).

(** [krm'] is [krm] with the resources [rs] appended to its items. *)
Definition appended (krm : value) (rs : list value) (krm' : value) : Prop :=
  ∃ (d : gmap string value) (items : list value),
    krm = VDict d ∧ d !! "items" = Some (VList items) ∧
    krm' = VDict (<["items" := VList (items ++ rs)]> d).

Definition items_of (krm : value) : list value :=
  match get_path krm ["items"] with
  | Some (VList l) => l
  | _ => []
  end.

(** ** Well-formed Service documents

    The shape the program relies on beyond its own two checks: the
    mappings it indexes are mappings, the required keys are there, names
    are strings, references and triggers are lists of mappings. *)

Definition is_string (v : value) : bool :=
  match v with VStr _ => true | _ => false end.

Definition is_list (v : value) : bool :=
  match v with VList _ => true | _ => false end.

Definition opt_all (p : value → bool) (o : option value) : bool :=
  match o with Some v => p v | None => true end.

Definition has_key (k : string) (d : gmap string value) : bool :=
  bool_decide (is_Some (d !! k)).

Definition valid_ref (v : value) : bool :=
  match v with VDict d => has_key "name" d | _ => false end.

Definition valid_refs (v : value) : bool :=
  match v with VList l => forallb valid_ref l | _ => false end.

Definition valid_trigger (v : value) : bool :=
  match v with VDict t => opt_all isinstance_dict (t !! "http") | _ => false end.

Definition valid_triggers (v : value) : bool :=
  match v with VList l => forallb valid_trigger l | _ => false end.

(** The value a no-merge field resolves to, if any. *)
Definition resolved (k : string) (fd dd : gmap string value) : option value :=
  match fd !! k with
  | Some v => Some v
  | None => dd !! k
  end.

Definition valid_function (dd : gmap string value) (f : value) : bool :=
  match f with
  | VDict fd =>
      opt_all is_string (fd !! "name") && has_key "functionName" fd &&
      opt_all valid_refs (resolved "secrets" fd dd) &&
      opt_all valid_refs (resolved "configmaps" fd dd) &&
      opt_all valid_triggers (resolved "triggers" fd dd)
  | _ => false
  end.

Definition valid_source (v : value) : bool :=
  match v with
  | VDict s =>
      match s !! "literal", s !! "type" with
      | Some l, None => is_string l
      | Some l, Some t => if is_str "literal" t then is_string l else true
      | None, _ => true
      end
  | _ => false
  end.

Definition valid_package (v : value) : bool :=
  match v with VDict p => opt_all valid_source (p !! "source") | _ => false end.

Definition template_of (sp : gmap string value) : option (gmap string value) :=
  match sp !! "functionTemplate" with
  | Some (VDict dd) => Some dd
  | Some _ => None
  | None => Some ∅
  end.

Definition valid_service (service : value) : bool :=
  match service with
  | VDict s =>
      match s !! "metadata", s !! "spec" with
      | Some (VDict m), Some (VDict sp) =>
          opt_all is_string (m !! "name") && has_key "name" m &&
          opt_all valid_package (sp !! "package") &&
          match sp !! "environment" with
          | Some (VDict en) => has_key "name" en
          | _ => false
          end &&
          match template_of sp, sp !! "functions" with
          | Some dd, Some (VList fs) => forallb (valid_function dd) fs
          | Some dd, None => true
          | _, _ => false
          end
      | _, _ => false
      end
  | _ => false
  end.

Definition valid_krm (krm : value) : bool :=
  match krm with
  | VDict k =>
      match k !! "functionConfig", k !! "items" with
      | Some service, Some (VList _) => valid_service service
      | _, _ => false
      end
  | _ => false
  end.

(** ** The two checks of [transform] on the list of functions *)

Definition no_functions_message : string :=
  "Error: spec.functions must contain at least one function".

Definition name_required_message : string :=
  "Error: 'name' is required for each function when there are multiple functions".

Definition lacks_name (f : value) : bool :=
  match f with VDict fd => negb (has_key "name" fd) | _ => false end.

(** The functions of a specification, the empty list when it has none. *)
Definition functions_of (sp : gmap string value) : list value :=
  match sp !! "functions" with
  | Some (VList fs) => fs
  | _ => []
  end.

(** The list is empty, or it has several functions and one lacks a name. *)
Definition fails_validation (fs : list value) : bool :=
  match fs with
  | [] => true
  | _ => existsb lacks_name fs && bool_decide (1 < length fs)%nat
  end.

(** ** What the archive, the no-merge fields and the names come to *)

(** The member the archive of a run holds. *)
Definition literal_member (e : run_env) : ZipInfo :=
  mkZipInfo "main.py" (st_mtime e) (N.shiftl (N.land (st_mode e) 65535) 16).

(** Override or default or empty. *)
Definition pick (k : string) (fd dd : gmap string value) : value :=
  default (VList []) (resolved k fd dd).

(** The names lines 98-105 give a function of the service [svc]. *)
Definition short_of (svc : string) (fd : gmap string value) : string :=
  match fd !! "name" with
  | Some (VStr n) => n
  | _ => svc
  end.

Definition name_of (svc : string) (fd : gmap string value) : string :=
  match fd !! "name" with
  | Some _ => svc +:+ "-" +:+ short_of svc fd
  | None => svc
  end.

(** The resources one pass of the loop body appends: the Function, then
    one HTTPTrigger for each trigger entry. *)
Definition function_resources (c : context) (func_def : value) : outcome (list value) :=
  '(function, func_name, short_name) ← function_resource c func_def;
  triggers ← func_triggers func_def (function_defaults c);
  triggers ← py_iter triggers;
  http_triggers ← for_each (trigger_resource c func_name short_name) triggers;
  Ok (function :: http_triggers).

(** Lines 121-124 and 137-140 on one reference: its name, and its namespace
    or that of the Service. *)
Definition complete_ref (namespace ref : value) : option value :=
  match ref with
  | VDict r =>
      name ← r !! "name";
      Some (dict [("name", name); ("namespace", default namespace (r !! "namespace"))])
  | _ => None
  end.

(** * Example documents *)



Definition context_example : context :=
  mkContext (VStr "api") (VStr "default") (dict []) (dict []) (VStr "api")
            (VStr "python") (VStr "default") (dict []).

Definition top_level_trigger : gmap string value :=
  list_to_map [("path", VStr "/custom"); ("method", VStr "POST"); ("host", VStr "example.org")].

(** A trigger entry with settings under "http" and others at its top
    level. *)
Definition nested_trigger : gmap string value :=
  list_to_map [("http", dict [("path", VStr "/custom"); ("method", VStr "POST");
                              ("host", VStr "example.org")]);
               ("path", VStr "/ignored"); ("method", VStr "DELETE")].

(** Two runs that differ in the temporary directory only, and a third
    one four seconds later. *)
Definition run_a : run_env := mkEnv "/tmp/tmpk3v9x2" (2024, 5, 17, 9, 30, 12)%N 420.
Definition run_b : run_env := mkEnv "/tmp/tmpq81zsd" (2024, 5, 17, 9, 30, 12)%N 420.
Definition run_c : run_env := mkEnv "/tmp/tmpk3v9x2" (2024, 5, 17, 9, 30, 16)%N 420.

Definition literal_source_example : gmap string value :=
  list_to_map [("literal", VStr "print('hi')");
               ("checksum", dict [("type", VStr "md5"); ("sum", VStr "0000")])].

Definition template_example : gmap string value :=
  list_to_map [("secrets", VList [dict [("name", VStr "db")]]);
               ("triggers", VList [dict [("http", dict [("method", VStr "POST")])]])].

Definition context_with_template : context :=
  mkContext (VStr "api") (VStr "default") (dict []) (dict []) (VStr "api")
            (VStr "python") (VStr "default") (VDict template_example).

Definition function_without_secrets : gmap string value :=
  list_to_map [("name", VStr "get"); ("functionName", VStr "main.get");
               ("secrets", VList []); ("triggers", VList [])].

(** A function that declares a secret and a trigger of its own. *)
Definition function_with_secret : gmap string value :=
  list_to_map [("name", VStr "get"); ("functionName", VStr "main.get");
               ("secrets", VList [dict [("name", VStr "tok")]]);
               ("triggers", VList [dict [("http", dict [("path", VStr "/custom");
                                                        ("host", VStr "example.org")])]])].

(** Service documents.  [service_doc] builds one from its name, its
    package specification and its functions. *)
Definition service_doc (kind api_version name : string) (package : list (string * value))
    (functions : list value) : value :=
  dict [("apiVersion", VStr api_version);
        ("kind", VStr kind);
        ("metadata", dict [("name", VStr name)]);
        ("spec", dict [("package", dict package);
                       ("environment", dict [("name", VStr "python")]);
                       ("functions", VList functions)])].

Definition resource_list (service : value) : value :=
  dict [("functionConfig", service); ("items", VList [])].

Definition http_entry : value := dict [("http", dict [])].

(** Scenario D of the design document: two functions, no names. *)
Definition two_unnamed : value :=
  resource_list
    (service_doc "Service" "serverless.krm.kubed.io/v1" "api" []
       [dict [("functionName", VStr "main.list")];
        dict [("functionName", VStr "main.get")]]).

(** Two functions, exactly one of which has no name. *)
Definition one_unnamed_of_two : value :=
  resource_list
    (service_doc "Service" "serverless.krm.kubed.io/v1" "api" []
       [dict [("name", VStr "list"); ("functionName", VStr "main.list")];
        dict [("functionName", VStr "main.get")]]).

(** Scenario A: one function without a name, one trigger. *)
Definition single_unnamed : value :=
  resource_list
    (service_doc "Service" "serverless.krm.kubed.io/v1" "hello" []
       [dict [("functionName", VStr "main.handler"); ("triggers", VList [http_entry])]]).

(** The document of scenario A under another kind and API group. *)
Definition not_a_service_doc : value :=
  resource_list
    (service_doc "ConfigMap" "v1" "hello" []
       [dict [("functionName", VStr "main.handler"); ("triggers", VList [http_entry])]]).

(** One function with two triggers. *)
Definition two_triggers : value :=
  resource_list
    (service_doc "Service" "serverless.krm.kubed.io/v1" "api" []
       [dict [("name", VStr "get"); ("functionName", VStr "main.get");
              ("triggers", VList [dict [("http", dict [("method", VStr "GET")])];
                                  dict [("http", dict [("method", VStr "POST")])]])]]).

(** The specification of the Service of a document. *)
Definition spec_of (krm : value) : gmap string value :=
  match get_path krm ["functionConfig"; "spec"] with
  | Some (VDict sp) => sp
  | _ => ∅
  end.

(** * Further definitions *)

(** [krm'] is [krm], or [krm] with resources appended to its items. *)
Definition keeps_items (krm krm' : value) : Prop :=
  krm' = krm ∨ ∃ rs, appended krm rs krm'.

(** A computation that only ever appends to the items of the document. *)
Definition extending {A} (m : M A) : Prop :=
  ∀ krm, keeps_items krm (m krm).2.

Definition resource_namespace (r : value) : option value :=
  get_path r ["metadata"; "namespace"].

Definition resource_labels (r : value) : option value :=
  get_path r ["metadata"; "labels"].

(** The shared context [transform] derives from a document, if it does. *)
Definition context_of (krm : value) : option context :=
  match py_getitem krm "functionConfig" ≫= shared_context with
  | Ok (_, c) => Some c
  | Raise _ => None
  end.

(** The trigger entries a function definition resolves to. *)
Definition triggers_of (fd dd : gmap string value) : list value :=
  match pick "triggers" fd dd with
  | VList l => l
  | _ => []
  end.

(** The identities of the resources of one function: the Function, then one
    HTTPTrigger for each trigger entry, all under the function's name. *)
Definition function_ids (svc : string) (dd : gmap string value) (f : value)
    : list (option value * option value) :=
  match f with
  | VDict fd =>
      (Some (VStr "Function"), Some (VStr (name_of svc fd))) ::
      replicate (length (triggers_of fd dd))
                (Some (VStr "HTTPTrigger"), Some (VStr (name_of svc fd)))
  | _ => []
  end.

(** The reference to an environment, as the generators write it. *)
Definition environment_ref (c : context) : value :=
  dict [("name", env_name c); ("namespace", env_namespace c)].

(** What every generated resource carries in its metadata. *)
Definition carries_context (c : context) (r : value) : Prop :=
  get_path r ["apiVersion"] = Some (VStr "fission.io/v1") ∧
  resource_namespace r = Some (namespace c) ∧
  resource_labels r = (if py_truthy (labels c) then Some (labels c) else None).

(** The references of a generated resource point where they should. *)
Definition references_resolve (c : context) (r : value) : Prop :=
  (resource_kind r = Some (VStr "Package") →
   get_path r ["spec"; "environment"] = Some (environment_ref c)) ∧
  (resource_kind r = Some (VStr "Function") →
   get_path r ["spec"; "environment"] = Some (environment_ref c) ∧
   get_path r ["spec"; "package"; "packageref"] =
     Some (dict [("name", package_name c); ("namespace", namespace c)])) ∧
  (resource_kind r = Some (VStr "HTTPTrigger") →
   get_path r ["spec"; "functionref"; "type"] = Some (VStr "name") ∧
   get_path r ["spec"; "functionref"; "name"] = resource_name r).

(** The keys a generated Function may have in its spec. *)
Definition function_spec_keys : list string :=
  ["environment"; "package"; "secrets"; "configmaps"; "InvokeStrategy"] ++ optional_fields.

(** The condition of line 240 on a source block that is a mapping: it has a
    literal, and its type is missing or is "literal". *)
Definition takes_literal_path (s : gmap string value) : bool :=
  has_key "literal" s &&
  match s !! "type" with
  | Some t => is_str "literal" t
  | None => true
  end.

(** Lines 281-283 on the checksum of a source block. *)
Definition normalized_checksum (checksum : option value) : option value :=
  match checksum with
  | Some (VDict ck) =>
      Some (VDict (if has_key "type" ck then ck else <["type" := VStr "sha256"]> ck))
  | other => other
  end.

(** A published block that still carries its literal. *)
Definition url_source_with_literal : gmap string value :=
  list_to_map [("type", VStr "url"); ("url", VStr "https://example.org/a.zip");
               ("literal", VStr "def main(): pass");
               ("checksum", dict [("sum", VStr "00")])].

(** The names, among identities, of the resources of one kind. *)
Definition of_kind (kind : string) (id : option value * option value) : bool :=
  match id.1 with Some k => is_str kind k | None => false end.

Definition names_of_kind (kind : string) (ids : list (option value * option value))
    : list (option value) :=
  snd <$> List.filter (of_kind kind) ids.

(** Two functions with explicit names. *)
Definition two_named : value :=
  resource_list
    (service_doc "Service" "serverless.krm.kubed.io/v1" "api" []
       [dict [("name", VStr "list"); ("functionName", VStr "main.list");
              ("triggers", VList [http_entry])];
        dict [("name", VStr "get"); ("functionName", VStr "main.get")]]).

(** A Service whose template key has no value. *)
Definition null_template_doc : value :=
  resource_list
    (dict [("apiVersion", VStr "serverless.krm.kubed.io/v1");
           ("kind", VStr "Service");
           ("metadata", dict [("name", VStr "hello")]);
           ("spec", dict [("environment", dict [("name", VStr "python")]);
                          ("functionTemplate", VNone);
                          ("functions", VList [dict [("functionName", VStr "main.handler")]])])]).

(** A Service without an environment. *)
Definition no_environment_doc : gmap string value :=
  list_to_map
    [("functionConfig",
      dict [("metadata", dict [("name", VStr "hello")]);
            ("spec", dict [("functions", VList [dict [("functionName", VStr "main.handler")]])])]);
     ("items", VList [])].

(** The route of a function without an explicit path, and the route of
    one trigger entry. *)
Definition default_route (svc short : string) : value :=
  if bool_decide (short = svc) then VStr ("/" +:+ svc)
  else VStr ("/" +:+ svc +:+ "/" +:+ short).

Definition route_of (svc short : string) (trigger : value) : value :=
  default (default_route svc short) (get_path trigger ["http"; "path"]).

(** A function named like its service, with a trigger. *)
Definition named_as_service : gmap string value :=
  list_to_map [("name", VStr "api"); ("functionName", VStr "main.handler");
               ("triggers", VList [http_entry])].

(** ** publish (fn.py, lines 195-206): the update of the Service document

    The document is a tree of mappings; each nested item assignment of the
    source is the assignment on the inner mapping followed by putting the
    inner mapping back, which is what the in-place update of the inner
    object comes to on a tree. *)
Definition publish_update (spec : value) (public_url checksum : string) : outcome value :=
  has_package ← py_contains "package" spec;
  spec ← (if has_package : bool then Ok spec else py_setitem spec "package" (dict []));
  package ← py_getitem spec "package";
  has_source ← py_contains "source" package;
  package ← (if has_source : bool then Ok package
             else py_setitem package "source" (dict []));
  source ← py_getitem package "source";
  source ← py_setitem source "type" (VStr "url");
  source ← py_setitem source "url" (VStr public_url);
  has_checksum ← py_contains "checksum" source;
  source ← (if has_checksum : bool then Ok source
            else py_setitem source "checksum" (dict []));
  checksum_block ← py_getitem source "checksum";
  checksum_block ← py_setitem checksum_block "type" (VStr "sha256");
  checksum_block ← py_setitem checksum_block "sum" (VStr checksum);
  source ← py_setitem source "checksum" checksum_block;
  package ← py_setitem package "source" source;
  py_setitem spec "package" package.

(** The mapping under a key, the empty mapping when the key is missing. *)
Definition sub (d : gmap string value) (k : string) : gmap string value :=
  match d !! k with
  | Some (VDict x) => x
  | _ => ∅
  end.

(** A specification whose package embeds its code. *)
Definition literal_spec : gmap string value :=
  list_to_map
    [("package", dict [("name", VStr "hello");
                       ("source", dict [("literal", VStr "def main(): pass")])]);
     ("environment", dict [("name", VStr "python")])].

(** What the update comes to on a specification whose package, source
    and checksum are mappings where they exist. *)
Definition published_checksum (ck : gmap string value) (checksum : string)
    : gmap string value :=
  <["sum" := VStr checksum]> (<["type" := VStr "sha256"]> ck).

Definition published_source (s : gmap string value) (public_url checksum : string)
    : gmap string value :=
  <["checksum" := VDict (published_checksum (sub s "checksum") checksum)]>
    (<["url" := VStr public_url]> (<["type" := VStr "url"]> s)).

Definition published_package (p : gmap string value) (public_url checksum : string)
    : gmap string value :=
  <["source" := VDict (published_source (sub p "source") public_url checksum)]> p.

Definition published (sp : gmap string value) (public_url checksum : string)
    : gmap string value :=
  <["package" := VDict (published_package (sub sp "package") public_url checksum)]> sp.

(** ** pack (fn.py, lines 44-101): the files that go into the archive

    [pack] sees the directory of the service file through [pathlib] and
    matches names with [fnmatch]: the paths [source_dir.rglob("*")] yields,
    [is_file], the relative path as a string, the last component,
    [source_dir / name] and [exists].  The walk is repeated for every
    pattern; the directory does not change in between. *)
Class Directory : Type := {
  path : Type;
  path_eq_dec :: EqDecision path;
  rglob : list path;
  is_file : path → bool;
  relative_to : path → string;
  path_name : path → string;
  joinpath : string → path;
  path_exists : path → bool;
  fnmatch : string → string → bool
}.

(** [sys.exit(status)] or a normal return. *)
Inductive command (A : Type) : Type :=
| Exit (status : Z)
| Return (a : A).
Arguments Exit {A} status.
Arguments Return {A} a.

Section Pack.
Context `{Directory}.

(** Lines 68-76: the embedded source goes in as main.py when it is truthy. *)
Definition embedded_files (embedded_source : value) : gmap string value :=
  if py_truthy embedded_source then {["main.py" := embedded_source]} else ∅.

(** [fnmatch.fnmatch(name, pattern)] needs a string pattern. *)
Definition py_fnmatch (name : string) (pattern : value) : outcome bool :=
  match pattern with
  | VStr p => Ok (fnmatch name p)
  | _ => Raise TypeError
  end.

(** Lines 81-88: the body of the loop over the paths of the walk. *)
Definition collect_file (embedded_files : gmap string value) (pattern : value)
    (files_to_pack : list path) (file_path : path) : outcome (list path) :=
  if is_file file_path then
    let rel_path_str := relative_to file_path in
    by_path ← py_fnmatch rel_path_str pattern;
    matched ← (if by_path : bool then Ok true
               else py_fnmatch (path_name file_path) pattern);
    if matched : bool then
      if bool_decide (is_Some (embedded_files !! rel_path_str)) then Ok files_to_pack
      else if bool_decide (file_path ∈ files_to_pack) then Ok files_to_pack
      else Ok (files_to_pack ++ [file_path])%list
    else Ok files_to_pack
  else Ok files_to_pack.

(** Lines 79-88. *)
Definition collect_patterns (embedded_files : gmap string value) (include_patterns : value)
    : outcome (list path) :=
  patterns ← py_iter include_patterns;
  fold_each (λ files_to_pack pattern,
               fold_each (collect_file embedded_files pattern) files_to_pack rglob)
            [] patterns.

(** Lines 91-96: the build command, when it names a file of the directory. *)
Definition add_buildcmd (embedded_files : gmap string value) (buildcmd : value)
    (files_to_pack : list path) : outcome (list path) :=
  if py_truthy buildcmd then
    match buildcmd with
    | VStr b =>
        let buildcmd_path := joinpath b in
        if path_exists buildcmd_path && is_file buildcmd_path then
          if negb (bool_decide (buildcmd_path ∈ files_to_pack)) &&
             negb (bool_decide (is_Some (embedded_files !! b)))
          then Ok (files_to_pack ++ [buildcmd_path])%list
          else Ok files_to_pack
        else Ok files_to_pack
    | _ => Raise TypeError
    end
  else Ok files_to_pack.

(** Lines 44-101 on the loaded document: the exit of a document that is
    not a Service, the embedded files and the files to pack, the exit when
    there is nothing to pack.  The name of the archive (lines 59-64) plays
    no part in the choice of the files. *)
Definition pack_files (service : value)
    : outcome (command (gmap string value * list path)) :=
  rejected ← not_a_service service;
  if rejected : bool then Ok (Exit 1)
  else
    spec ← py_get service "spec" (dict []);
    package_spec ← py_get spec "package" (dict []);
    include_patterns ← py_get package_spec "include" (VList []);
    metadata ← py_getitem service "metadata";
    service_name ← py_getitem metadata "name";
    package_name ← py_get package_spec "name" service_name;
    source_spec ← py_get package_spec "source" (dict []);
    embedded_source ← py_get source_spec "literal" VNone;
    let embedded_files := embedded_files embedded_source in
    files_to_pack ← collect_patterns embedded_files include_patterns;
    buildcmd ← py_get package_spec "buildcmd" VNone;
    files_to_pack ← add_buildcmd embedded_files buildcmd files_to_pack;
    if match files_to_pack with [] => true | _ => false end &&
       negb (py_truthy (VDict embedded_files))
    then Ok (Exit 1)
    else Ok (Return (embedded_files, files_to_pack)).

(** A file the pattern asks for: a regular file whose relative path or
    name matches and whose relative path is not that of an embedded file. *)
Definition wanted (embedded_files : gmap string value) (pattern : string) (p : path)
    : bool :=
  is_file p &&
  (fnmatch (relative_to p) pattern || fnmatch (path_name p) pattern) &&
  negb (bool_decide (is_Some (embedded_files !! relative_to p))).

(** The names of the members of the archive, in the order lines 115-121
    write them. *)
Definition archive_names (embedded_files : gmap string value) (files_to_pack : list path)
    : list string :=
  ((map_to_list embedded_files).*1 ++ (relative_to <$> files_to_pack))%list.

End Pack.

(** The file the build command adds, when it does: the command is a
    non-empty string that names an existing regular file and is not the
    name of an embedded file. *)
Definition buildcmd_file `{Directory} (embedded_files : gmap string value)
    (buildcmd : value) (p : path) : Prop :=
  ∃ b, buildcmd = VStr b ∧ b ≠ "" ∧ p = joinpath b ∧
       path_exists p = true ∧ is_file p = true ∧ embedded_files !! b = None.

(** ** A small directory

    The service file, two sources and a build script, with a matcher that
    knows a literal name and a leading star. *)
Module Tree.

Fixpoint basename_from (acc s : string) : string :=
  match s with
  | EmptyString => acc
  | String c s' =>
      if Ascii.eqb c "/"%char then basename_from "" s'
      else basename_from (acc +:+ String c "") s'
  end.

Definition basename (s : string) : string := basename_from "" s.

Definition star_match (name pattern : string) : bool :=
  match pattern with
  | String "*"%char suffix => String.prefix (String.rev suffix) (String.rev name)
  | _ => String.eqb name pattern
  end.

Definition listing : list string := ["service.yaml"; "main.py"; "lib/util.py"; "build.sh"].

Definition dir : Directory := {|
  path := string;
  rglob := listing;
  is_file := λ _, true;
  relative_to := λ p, p;
  path_name := basename;
  joinpath := λ b, b;
  path_exists := λ p, bool_decide (p ∈ listing);
  fnmatch := star_match
|}.

End Tree.

(** A Service that embeds its entry point and packs the Python files of
    its directory. *)
Definition packed_service : gmap string value :=
  list_to_map
    [("apiVersion", VStr "serverless.krm.kubed.io/v1");
     ("kind", VStr "Service");
     ("metadata", dict [("name", VStr "hello")]);
     ("spec", dict [("package",
                     dict [("include", VList [VStr "*.py"; VStr "util.py"]);
                           ("source", dict [("literal", VStr "def main(): pass")])])])].

(** A template and a function that overrides part of it. *)
Definition tuned_template : gmap string value :=
  list_to_map [("concurrency", VInt 5); ("functionTimeout", VInt 30);
               ("description", VStr "from the template")].

Definition tuned_function : gmap string value :=
  list_to_map [("name", VStr "get"); ("functionName", VStr "main.get");
               ("concurrency", VInt 50)].

(** * Properties *)

(** ** The Config Merger *)

Lemma elem_of_cons_bool (k key : string) (ks : list string) :
  k ≠ key → bool_decide (k ∈ key :: ks) = bool_decide (k ∈ ks).
Proof.
  intros Hne. apply bool_decide_ext. rewrite elem_of_cons. tauto.
Qed.

(** With mappings on both sides the loop ends normally, and each key of the
    result comes from the override if it is one of the keys the loop visits
    and the override has it, from the defaults otherwise. *)
Lemma override_keys_dict (o d : gmap string value) (ks : list string) :
  ∃ m, fold_each (override_key (VDict o)) (VDict d) ks = Ok (VDict m) ∧
       ∀ k, m !! k = match o !! k with
                     | Some v => if bool_decide (k ∈ ks) then Some v else d !! k
                     | None => d !! k
                     end.
Proof.
  revert d; induction ks as [ | key ks IH]; intros d; simpl.
  - exists d; split; [done | ]. intros k. by destruct (o !! k).
  - unfold override_key at 2; simpl.
    destruct (o !! key) as [v | ] eqn:Hkey; simpl.
    + destruct (IH (<[key := v]> d)) as (m & Hm & Hlook).
      exists m; split; [done | ]. intros k. rewrite Hlook.
      destruct (decide (k = key)) as [-> | Hne].
      * rewrite Hkey, lookup_insert_eq.
        rewrite (bool_decide_eq_true_2 (key ∈ key :: ks)) by (apply elem_of_cons; by left).
        by destruct (bool_decide (key ∈ ks)).
      * rewrite lookup_insert_ne by done.
        destruct (o !! k); [ | done].
        by rewrite elem_of_cons_bool.
    + destruct (IH d) as (m & Hm & Hlook).
      exists m; split; [done | ]. intros k. rewrite Hlook.
      destruct (o !! k) eqn:Hk; [ | done].
      rewrite elem_of_cons_bool; [done | congruence].
Qed.



Lemma merge_function_config_dict (d o : gmap string value) :
  ∃ m, merge_function_config (VDict d) (VDict o) = Ok (VDict m) ∧
       ∀ k, m !! k = match o !! k with
                     | Some v => if bool_decide (k ∈ mergeable_keys) then Some v else d !! k
                     | None => d !! k
                     end.
Proof. apply override_keys_dict. Qed.



(** ** The HTTPTrigger generator *)

(** The route path for string names and a mapping as specification. *)
Lemma trigger_path_str (svc short : string) (ts : gmap string value) :
  trigger_path (VStr svc) (VStr short) (VDict ts) =
    Ok (match ts !! "path" with
        | Some p => p
        | None => if bool_decide (short = svc) then VStr ("/" +:+ svc)
                  else VStr ("/" +:+ svc +:+ "/" +:+ short)
        end).
Proof.
  unfold trigger_path. simpl.
  destruct (ts !! "path") as [p | ]; simpl; [done | ].
  by destruct (bool_decide (short = svc)).
Qed.

Lemma generate_http_trigger_dict
    (name namespace labels function_name : value)
    (svc short : string) (ts : gmap string value) :
  ∃ r, generate_http_trigger name namespace labels function_name
         (VStr svc) (VStr short) (VDict ts) = Ok r.
Proof.
  unfold generate_http_trigger. rewrite trigger_path_str. simpl. eauto.
Qed.

(** C6. The route path of a generated HTTPTrigger is the explicit path of
    the trigger specification if it has one, else "/<service>" if the short
    name of the function equals the service name, else
    "/<service>/<short name>"; the method defaults to "GET" and the host to
    the empty string. *)
Theorem generate_http_trigger_route
    (name namespace labels function_name : value)
    (svc short : string) (ts : gmap string value) :
  ∃ r, generate_http_trigger name namespace labels function_name
         (VStr svc) (VStr short) (VDict ts) = Ok r ∧
       resource_kind r = Some (VStr "HTTPTrigger") ∧
       get_path r ["spec"; "relativeurl"] =
         Some (match ts !! "path" with
               | Some p => p
               | None => if bool_decide (short = svc) then VStr ("/" +:+ svc)
                         else VStr ("/" +:+ svc +:+ "/" +:+ short)
               end) ∧
       get_path r ["spec"; "method"] = Some (default (VStr "GET") (ts !! "method")) ∧
       get_path r ["spec"; "host"] = Some (default (VStr "") (ts !! "host")).
Proof.
  unfold generate_http_trigger. rewrite trigger_path_str.
  cbn [mbind outcome_bind py_get].
  eexists; split; [reflexivity | ].
  repeat split; reflexivity.
Qed.

(** C10. What [transform] passes to the generator for a trigger entry is
    the entry's "http" sub-mapping and nothing else: two entries with the
    same "http" give the same HTTPTrigger; an entry without "http" gives
    the inferred path, method "GET" and the empty host, whatever the entry
    has at its top level; and an entry with an "http" mapping gives the
    path, the method and the host of that mapping, each with its default
    when the mapping lacks it. *)
Theorem trigger_settings_from_http
    (c : context) (func_name : value) (svc short : string)
    (t t' : gmap string value) :
  (t !! "http" = t' !! "http" →
   trigger_resource c func_name (VStr short) (VDict t) =
   trigger_resource c func_name (VStr short) (VDict t')) ∧
  (service_name c = VStr svc → t !! "http" = None →
   ∃ r, trigger_resource c func_name (VStr short) (VDict t) = Ok r ∧
        get_path r ["spec"; "relativeurl"] =
          Some (if bool_decide (short = svc) then VStr ("/" +:+ svc)
                else VStr ("/" +:+ svc +:+ "/" +:+ short)) ∧
        get_path r ["spec"; "method"] = Some (VStr "GET") ∧
        get_path r ["spec"; "host"] = Some (VStr "")) ∧
  (service_name c = VStr svc →
   ∀ http, t !! "http" = Some (VDict http) →
   ∃ r, trigger_resource c func_name (VStr short) (VDict t) = Ok r ∧
        get_path r ["spec"; "relativeurl"] =
          Some (default (if bool_decide (short = svc) then VStr ("/" +:+ svc)
                         else VStr ("/" +:+ svc +:+ "/" +:+ short))
                        (http !! "path")) ∧
        get_path r ["spec"; "method"] = Some (default (VStr "GET") (http !! "method")) ∧
        get_path r ["spec"; "host"] = Some (default (VStr "") (http !! "host"))).
Proof.
  split; [ | split].
  - intros Hhttp. unfold trigger_resource; simpl. by rewrite Hhttp.
  - intros Hsvc Hnone. unfold trigger_resource. cbn [py_get mbind outcome_bind].
    rewrite Hnone, Hsvc. change (default (dict []) None) with (VDict ∅).
    unfold generate_http_trigger. rewrite trigger_path_str, lookup_empty.
    cbn [mbind outcome_bind py_get]. rewrite !lookup_empty.
    eexists; split; [reflexivity | ].
    repeat split; reflexivity.
  - intros Hsvc http Hhttp. unfold trigger_resource. cbn [py_get mbind outcome_bind].
    rewrite Hhttp, Hsvc. cbn [default from_option id].
    unfold generate_http_trigger. rewrite trigger_path_str.
    cbn [mbind outcome_bind py_get].
    eexists; split; [reflexivity | ].
    split; [by destruct (http !! "path") | ]. split; reflexivity.
Qed.

Lemma trigger_settings_from_http_witness :
  (trigger_resource context_example (VStr "api-get") (VStr "get") (VDict top_level_trigger) =
   trigger_resource context_example (VStr "api-get") (VStr "get") (VDict ∅)) ∧
  (∃ r, trigger_resource context_example (VStr "api-get") (VStr "get")
          (VDict top_level_trigger) = Ok r ∧
        get_path r ["spec"; "relativeurl"] = Some (VStr "/api/get") ∧
        get_path r ["spec"; "method"] = Some (VStr "GET") ∧
        get_path r ["spec"; "host"] = Some (VStr "")) ∧
  (∃ r, trigger_resource context_example (VStr "api-get") (VStr "get")
          (VDict nested_trigger) = Ok r ∧
        get_path r ["spec"; "relativeurl"] = Some (VStr "/custom") ∧
        get_path r ["spec"; "method"] = Some (VStr "POST") ∧
        get_path r ["spec"; "host"] = Some (VStr "example.org")).
Proof.
  destruct (trigger_settings_from_http context_example (VStr "api-get") "api" "get"
              top_level_trigger ∅) as (Hsame & Hdefault & _).
  destruct (trigger_settings_from_http context_example (VStr "api-get") "api" "get"
              nested_trigger ∅) as (_ & _ & Hnested).
  split; [apply Hsame; reflexivity | ].
  split; [apply Hdefault; reflexivity | ].
  destruct (Hnested eq_refl
              (list_to_map [("path", VStr "/custom"); ("method", VStr "POST");
                            ("host", VStr "example.org")]))
    as (r & Hr & Hpath & Hmethod & Hhost); [vm_compute; reflexivity | ].
  exists r. split; [exact Hr | ]. split; [exact Hpath | ].
  split; [exact Hmethod | exact Hhost].
Defined.

(** ** The literal packaging step *)

Section Packaging.
Context `{PyLib}.

(** The files of the temporary directory are written and read back as
    expected: the archive is that of the one member, with the code as its
    data. *)
Lemma literal_zip_bytes_eq (e : run_env) (code : string) :
  literal_zip_bytes e (VStr code) = Ok (zip_write (literal_member e) code).
Proof.
  unfold literal_zip_bytes, zip_file, write_file, read_file.
  rewrite lookup_insert_eq. simpl. rewrite lookup_insert_eq. reflexivity.
Qed.

(** An archive determines the modification time it records: two runs whose
    files differ in modification time produce different bytes, for any
    implementation of the library. *)
Lemma literal_zip_bytes_mtime (e1 e2 : run_env) (code : string) :
  literal_zip_bytes e1 (VStr code) = literal_zip_bytes e2 (VStr code) →
  st_mtime e1 = st_mtime e2.
Proof.
  rewrite !literal_zip_bytes_eq. intros Heq.
  assert (zip_read (zip_write (literal_member e1) code) =
          zip_read (zip_write (literal_member e2) code)) as Hread by congruence.
  rewrite !zip_read_write in Hread.
  unfold literal_member in Hread. congruence.
Qed.

(** C2, as the code has it. Two runs of the literal packaging step on the
    same code whose temporary file has the same modification time and the
    same mode produce the same archive bytes, hence the same source block,
    payload and checksum; the name of the temporary directory does not
    matter. *)
Theorem literal_packaging_deterministic
    (e1 e2 : run_env) (code : string) (source_spec : value) :
  st_mtime e1 = st_mtime e2 →
  st_mode e1 = st_mode e2 →
  literal_zip_bytes e1 (VStr code) = literal_zip_bytes e2 (VStr code) ∧
  literal_source e1 source_spec = literal_source e2 source_spec.
Proof.
  intros Hmtime Hmode.
  assert (∀ c, literal_zip_bytes e1 c = literal_zip_bytes e2 c) as Hbytes.
  { intros [ | | | c | | ]; try reflexivity.
    rewrite !literal_zip_bytes_eq. unfold literal_member.
    by rewrite Hmtime, Hmode. }
  split; [apply Hbytes | ].
  unfold literal_source.
  destruct (py_getitem source_spec "literal") as [c | err]; simpl; [ | done].
  by rewrite Hbytes.
Qed.

(** C7. When the source block of the package specification has a literal
    string and its inferred type is "literal", the source block of the
    generated Package is exactly the three-field block of type, payload and
    checksum, both computed from the same archive bytes; the payload
    decodes to those bytes, and the archive holds the single member
    main.py whose data is the code. *)
Theorem generate_package_literal_source
    (e : run_env) (name namespace labels env_name env_namespace buildcmd : value)
    (ps src : gmap string value) (code : string) :
  ps !! "source" = Some (VDict src) →
  src !! "literal" = Some (VStr code) →
  inferred_type (VDict src) = Ok (VStr "literal") →
  ∃ package payload zip_bytes info,
    generate_package e name namespace labels (VDict ps) env_name env_namespace buildcmd
      = Ok package ∧
    resource_kind package = Some (VStr "Package") ∧
    get_path package ["spec"; "source"] =
      Some (dict [("type", VStr "literal");
                  ("literal", VStr payload);
                  ("checksum", dict [("type", VStr "sha256");
                                     ("sum", VStr (sha256_hexdigest zip_bytes))])]) ∧
    payload = b64encode zip_bytes ∧
    b64decode payload = Some zip_bytes ∧
    zip_read zip_bytes = Some [(info, code)] ∧
    filename info = "main.py".
Proof.
  intros Hsource Hliteral Hinferred.
  exists (dict [("apiVersion", VStr "fission.io/v1");
                ("kind", VStr "Package");
                ("metadata", VDict
                   (if py_truthy labels
                    then <["labels" := labels]>
                           (list_to_map [("name", name); ("namespace", namespace)])
                    else list_to_map [("name", name); ("namespace", namespace)]));
                ("spec", VDict
                   (let spec := <["source" :=
                        dict [("type", VStr "literal");
                              ("literal", VStr (b64encode (zip_write (literal_member e) code)));
                              ("checksum",
                               dict [("type", VStr "sha256");
                                     ("sum", VStr (sha256_hexdigest
                                                     (zip_write (literal_member e) code)))])]]>
                        (list_to_map [("environment",
                                       dict [("name", env_name);
                                             ("namespace", env_namespace)])]) in
                    if py_truthy buildcmd then <["buildcmd" := buildcmd]> spec else spec));
                ("status", dict [("buildstatus", VStr "pending")])]),
         (b64encode (zip_write (literal_member e) code)),
         (zip_write (literal_member e) code), (literal_member e).
  split.
  { unfold generate_package, package_source. cbn -[inferred_type literal_source].
    rewrite Hsource. cbn -[inferred_type literal_source].
    rewrite Hinferred. cbn -[literal_source]. rewrite Hliteral. cbn -[literal_source].
    unfold literal_source. cbn -[literal_zip_bytes]. rewrite Hliteral.
    cbn -[literal_zip_bytes]. rewrite literal_zip_bytes_eq. reflexivity. }
  split; [reflexivity | ].
  split.
  { destruct (py_truthy buildcmd); reflexivity. }
  split; [reflexivity | ].
  split; [apply b64decode_encode | ].
  split; [apply zip_read_write | reflexivity].
Qed.

End Packaging.

Lemma literal_packaging_deterministic_witness :
  @literal_zip_bytes Ref.lib run_a (VStr "print('hi')") =
  @literal_zip_bytes Ref.lib run_b (VStr "print('hi')") ∧
  @literal_source Ref.lib run_a (VDict literal_source_example) =
  @literal_source Ref.lib run_b (VDict literal_source_example).
Proof.
  apply (@literal_packaging_deterministic Ref.lib run_a run_b); reflexivity.
Defined.

(** C2, as stated, fails: the same code packaged by two runs four seconds
    apart gives different archive bytes. *)
Lemma literal_packaging_records_mtime :
  @literal_zip_bytes Ref.lib run_a (VStr "print('hi')") ≠
  @literal_zip_bytes Ref.lib run_c (VStr "print('hi')").
Proof.
  intros Heq. apply (@literal_zip_bytes_mtime Ref.lib) in Heq. discriminate Heq.
Qed.

Lemma generate_package_literal_source_witness :
  ∃ package payload zip_bytes info,
    @generate_package Ref.lib run_a (VStr "hello") (VStr "default") (dict [])
      (dict [("source", VDict literal_source_example)])
      (VStr "python") (VStr "default") VNone = Ok package ∧
    resource_kind package = Some (VStr "Package") ∧
    get_path package ["spec"; "source"] =
      Some (dict [("type", VStr "literal");
                  ("literal", VStr payload);
                  ("checksum", dict [("type", VStr "sha256");
                                     ("sum", VStr (@sha256_hexdigest Ref.lib zip_bytes))])]) ∧
    payload = @b64encode Ref.lib zip_bytes ∧
    @b64decode Ref.lib payload = Some zip_bytes ∧
    @zip_read Ref.lib zip_bytes = Some [(info, "print('hi')")] ∧
    filename info = "main.py".
Proof.
  apply (@generate_package_literal_source Ref.lib run_a (VStr "hello") (VStr "default")
           (dict []) (VStr "python") (VStr "default") VNone
           (list_to_map [("source", VDict literal_source_example)])
           literal_source_example "print('hi')"); reflexivity.
Defined.

(** ** Loops, references and the Function generator *)

Lemma for_each_Forall {A B} (f : A → outcome B) (l : list A) :
  Forall (λ x, ∃ y, f x = Ok y) l → ∃ ys, for_each f l = Ok ys ∧ length ys = length l.
Proof.
  induction 1 as [ | x l [y Hy] _ [ys [Hys Hlen]]]; simpl; [by exists [] | ].
  rewrite Hy; simpl. rewrite Hys; simpl. exists (y :: ys). by rewrite <- Hlen.
Qed.

Lemma for_each_prop {A B} (P : B → Prop) (f : A → outcome B) (l : list A) (ys : list B) :
  (∀ x y, f x = Ok y → P y) → for_each f l = Ok ys → Forall P ys.
Proof.
  intros HP. revert ys; induction l as [ | x l IH]; intros ys; simpl.
  - intros [= <-]. constructor.
  - destruct (f x) as [y | err] eqn:Hy; simpl; [ | done].
    destruct (for_each f l) as [ys' | err]; simpl; [ | done].
    intros [= <-]. constructor; eauto.
Qed.

Lemma forallb_elem_of {A} (f : A → bool) (l : list A) (x : A) :
  forallb f l = true → x ∈ l → f x = true.
Proof.
  intros Hall Hin. apply (proj1 (forallb_forall f l) Hall). by apply list_elem_of_In.
Qed.

Lemma normalize_refs_ok (refs namespace : value) :
  valid_refs refs = true → ∃ out, normalize_refs refs namespace = Ok (VList out).
Proof.
  destruct refs as [ | | | | l | ]; try done. simpl. intros Hl.
  unfold normalize_refs; simpl.
  match goal with |- context [for_each ?f l] => destruct (for_each_Forall f l) as (ys & -> & _) end.
  - apply Forall_forall. intros ref Hin.
    apply (forallb_elem_of _ _ ref) in Hl; [ | done].
    destruct ref as [ | | | | | d]; try done. simpl in Hl.
    apply bool_decide_eq_true_1 in Hl as [v Hv]. simpl. rewrite Hv. simpl. eauto.
  - simpl. eauto.
Qed.

Lemma normalize_refs_empty (namespace : value) :
  normalize_refs (VList []) namespace = Ok (VList []).
Proof. reflexivity. Qed.

Lemma func_secrets_pick (fd dd : gmap string value) :
  func_secrets (VDict fd) (VDict dd) = Ok (pick "secrets" fd dd).
Proof.
  unfold func_secrets, pick, resolved; simpl.
  destruct (fd !! "secrets"); simpl; [done | ]. by destruct (dd !! "secrets").
Qed.
Lemma func_configmaps_pick (fd dd : gmap string value) :
  func_configmaps (VDict fd) (VDict dd) = Ok (pick "configmaps" fd dd).
Proof.
  unfold func_configmaps, pick, resolved; simpl.
  destruct (fd !! "configmaps"); simpl; [done | ]. by destruct (dd !! "configmaps").
Qed.
Lemma func_triggers_pick (fd dd : gmap string value) :
  func_triggers (VDict fd) (VDict dd) = Ok (pick "triggers" fd dd).
Proof.
  unfold func_triggers, pick, resolved; simpl.
  destruct (fd !! "triggers"); simpl; [done | ]. by destruct (dd !! "triggers").
Qed.

Lemma copy_fields_other (fc : value) (k : string) (fields : list string) :
  k ∉ fields →
  ∀ spec spec', fold_each (copy_field fc) spec fields = Ok spec' → spec' !! k = spec !! k.
Proof.
  induction fields as [ | field fields IH]; intros Hk spec spec'; simpl.
  - by intros [= <-].
  - apply not_elem_of_cons in Hk as [Hne Hk].
    unfold copy_field at 2.
    destruct (py_contains field fc) as [[ | ] | err]; simpl; [ | by apply IH | done].
    destruct (py_getitem fc field) as [v | err]; simpl; [ | done].
    intros Hfold. rewrite (IH Hk _ _ Hfold). by rewrite lookup_insert_ne.
Qed.

Lemma copy_fields_dict (m : gmap string value) (fields : list string) (spec : gmap string value) :
  ∃ spec', fold_each (copy_field (VDict m)) spec fields = Ok spec'.
Proof.
  revert spec; induction fields as [ | field fields IH]; intros spec; simpl; [eauto | ].
  unfold copy_field at 2; simpl.
  destruct (m !! field) as [v | ]; simpl; apply IH.
Qed.

Lemma generate_function_fields
    (name namespace labels description function_name package_name
     package_namespace env_name env_namespace secrets configmaps func_config
     function : value) :
  generate_function name namespace labels description function_name package_name
    package_namespace env_name env_namespace secrets configmaps func_config = Ok function →
  resource_kind function = Some (VStr "Function") ∧
  resource_name function = Some name ∧
  get_path function ["spec"; "secrets"] = (if py_truthy secrets then Some secrets else None) ∧
  get_path function ["spec"; "configmaps"] =
    (if py_truthy configmaps then Some configmaps else None).
Proof.
  unfold generate_function.
  destruct (py_contains "invokeStrategy" func_config) as [has | err]; [ | done].
  cbn -[fold_each optional_fields].
  destruct (if has then py_getitem func_config "invokeStrategy" else Ok default_invoke_strategy)
    as [strategy | err]; [ | done].
  cbn -[fold_each optional_fields].
  match goal with |- context [fold_each _ ?s _] => set (spec := s) end.
  destruct (fold_each (copy_field func_config) spec optional_fields) as [spec' | err] eqn:Hfold;
    [ | done].
  cbn -[fold_each optional_fields]. intros [= <-].
  assert (spec' !! "secrets" = spec !! "secrets") as Hs.
  { apply (copy_fields_other func_config "secrets" optional_fields); [ | done].
    unfold optional_fields. rewrite !not_elem_of_cons. repeat split; try done. apply not_elem_of_nil. }
  assert (spec' !! "configmaps" = spec !! "configmaps") as Hc.
  { apply (copy_fields_other func_config "configmaps" optional_fields); [ | done].
    unfold optional_fields. rewrite !not_elem_of_cons. repeat split; try done. apply not_elem_of_nil. }
  repeat split.
  - destruct (py_truthy description), (py_truthy labels); reflexivity.
  - change (spec' !! "secrets" ≫= (λ x, Some x) = if py_truthy secrets then Some secrets else None).
    rewrite Hs. unfold spec.
    destruct (py_truthy secrets), (py_truthy configmaps); reflexivity.
  - change (spec' !! "configmaps" ≫= (λ x, Some x) = if py_truthy configmaps then Some configmaps else None).
    rewrite Hc. unfold spec.
    destruct (py_truthy secrets), (py_truthy configmaps); reflexivity.
Qed.

(** ** The body of the loop over the functions *)

Tactic Notation "bind_ok" hyp(H) "as" simple_intropattern(p) :=
  match type of H with
  | mbind _ ?m = Ok _ =>
      let E := fresh "E" in
      destruct m as [p | ?] eqn:E; [cbn [mbind outcome_bind] in H | discriminate H]
  end.

Tactic Notation "bind_ok" hyp(H) := bind_ok H as ?.

Lemma for_each_length {A B} (f : A → outcome B) (l : list A) (ys : list B) :
  for_each f l = Ok ys → length ys = length l.
Proof.
  revert ys; induction l as [ | x l IH]; intros ys; simpl.
  - by intros [= <-].
  - intros Hf. bind_ok Hf as y. bind_ok Hf as ys'. injection Hf as <-.
    simpl. f_equal. by apply IH.
Qed.

Lemma func_name_spec (svc : string) (fd : gmap string value) :
  opt_all is_string (fd !! "name") = true →
  short_name (VDict fd) (VStr svc) = Ok (VStr (short_of svc fd)) ∧
  func_name (VDict fd) (VStr svc) (VStr (short_of svc fd)) = Ok (VStr (name_of svc fd)).
Proof.
  unfold short_name, func_name, name_of, short_of; simpl.
  destruct (fd !! "name") as [[ | | | n | | ] | ] eqn:Hn; try done; simpl; intros _.
  - split; [done | ]. by destruct (bool_decide (n = svc)).
  - split; [done | ]. by rewrite bool_decide_eq_true_2.
Qed.

Lemma generate_function_dict
    (name namespace labels description function_name package_name
     package_namespace env_name env_namespace secrets configmaps : value)
    (m : gmap string value) :
  ∃ function,
    generate_function name namespace labels description function_name package_name
      package_namespace env_name env_namespace secrets configmaps (VDict m) = Ok function.
Proof.
  unfold generate_function. cbn -[fold_each optional_fields].
  destruct (m !! "invokeStrategy") as [s | ]; cbn -[fold_each optional_fields].
  - match goal with |- context [fold_each _ ?s _] =>
      destruct (copy_fields_dict m optional_fields s) as [spec' ->] end.
    simpl. eauto.
  - match goal with |- context [fold_each _ ?s _] =>
      destruct (copy_fields_dict m optional_fields s) as [spec' ->] end.
    simpl. eauto.
Qed.

Lemma valid_function_inv (dd fd : gmap string value) :
  valid_function dd (VDict fd) = true →
  opt_all is_string (fd !! "name") = true ∧ is_Some (fd !! "functionName") ∧
  valid_refs (pick "secrets" fd dd) = true ∧
  valid_refs (pick "configmaps" fd dd) = true ∧
  valid_triggers (pick "triggers" fd dd) = true.
Proof.
  unfold valid_function, pick. rewrite !andb_true_iff.
  intros ((((Hn & Hf) & Hs) & Hc) & Ht).
  split; [done | ]. split; [by apply bool_decide_eq_true_1 in Hf | ].
  repeat split.
  - by destruct (resolved "secrets" fd dd).
  - by destruct (resolved "configmaps" fd dd).
  - by destruct (resolved "triggers" fd dd).
Qed.

Lemma function_resource_ok (c : context) (svc : string) (dd fd : gmap string value) :
  service_name c = VStr svc → function_defaults c = VDict dd →
  valid_function dd (VDict fd) = true →
  ∃ function,
    function_resource c (VDict fd)
      = Ok (function, VStr (name_of svc fd), VStr (short_of svc fd)) ∧
    resource_kind function = Some (VStr "Function") ∧
    resource_name function = Some (VStr (name_of svc fd)).
Proof.
  intros Hsvc Hdd (Hn & [fname Hf] & Hs & Hc & _)%valid_function_inv.
  destruct (func_name_spec svc fd Hn) as [Hshort Hname].
  destruct (merge_function_config_dict dd fd) as (m & Hm & _).
  destruct (normalize_refs_ok _ (namespace c) Hs) as [secrets Hsecrets].
  destruct (normalize_refs_ok _ (namespace c) Hc) as [configmaps Hconfigmaps].
  destruct (generate_function_dict (VStr (name_of svc fd)) (namespace c) (labels c)
              (default VNone (fd !! "description")) fname (package_name c) (namespace c)
              (env_name c) (env_namespace c) (VList secrets) (VList configmaps) m)
    as [function Hfunction].
  exists function. split.
  - unfold function_resource. rewrite Hsvc, Hdd, Hshort. cbn [mbind outcome_bind].
    rewrite Hname. cbn [mbind outcome_bind]. rewrite Hm. cbn [mbind outcome_bind].
    rewrite func_secrets_pick. cbn [mbind outcome_bind]. rewrite Hsecrets.
    cbn [mbind outcome_bind]. rewrite func_configmaps_pick. cbn [mbind outcome_bind].
    rewrite Hconfigmaps. cbn [mbind outcome_bind py_get py_getitem]. rewrite Hf.
    cbn [mbind outcome_bind]. rewrite Hfunction. reflexivity.
  - apply generate_function_fields in Hfunction as (Hkind & Hrname & _). done.
Qed.

Lemma generate_http_trigger_id
    (name namespace labels function_name service_name short_function_name
     trigger_spec r : value) :
  generate_http_trigger name namespace labels function_name service_name
    short_function_name trigger_spec = Ok r →
  resource_kind r = Some (VStr "HTTPTrigger") ∧ resource_name r = Some name.
Proof.
  unfold generate_http_trigger. intros Hr.
  bind_ok Hr. bind_ok Hr. bind_ok Hr. injection Hr as <-.
  split; [reflexivity | ]. by destruct (py_truthy labels).
Qed.

Lemma trigger_resource_id (c : context) (func_name short_name trigger r : value) :
  trigger_resource c func_name short_name trigger = Ok r →
  resource_kind r = Some (VStr "HTTPTrigger") ∧ resource_name r = Some func_name.
Proof.
  unfold trigger_resource. intros Hr. bind_ok Hr.
  by apply generate_http_trigger_id in Hr.
Qed.

Lemma trigger_resource_ok (c : context) (svc short : string) (func_name trigger : value) :
  service_name c = VStr svc → valid_trigger trigger = true →
  ∃ r, trigger_resource c func_name (VStr short) trigger = Ok r.
Proof.
  intros Hsvc Hvalid. destruct trigger as [ | | | | | t]; try done.
  unfold trigger_resource; simpl. rewrite Hsvc. simpl in Hvalid.
  destruct (t !! "http") as [[ | | | | | ts] | ]; try done; simpl.
  - apply generate_http_trigger_dict.
  - apply (generate_http_trigger_dict _ _ _ _ svc short ∅).
Qed.

Lemma function_resources_ok (c : context) (svc : string) (dd fd : gmap string value) :
  service_name c = VStr svc → function_defaults c = VDict dd →
  valid_function dd (VDict fd) = true →
  ∃ function http_triggers,
    function_resources c (VDict fd) = Ok (function :: http_triggers) ∧
    resource_id function = (Some (VStr "Function"), Some (VStr (name_of svc fd))) ∧
    Forall (λ r, resource_id r = (Some (VStr "HTTPTrigger"), Some (VStr (name_of svc fd))))
           http_triggers ∧
    ∃ triggers, pick "triggers" fd dd = VList triggers ∧
                length http_triggers = length triggers.
Proof.
  intros Hsvc Hdd Hvalid.
  destruct (function_resource_ok c svc dd fd Hsvc Hdd Hvalid)
    as (function & Hfunction & Hkind & Hname).
  apply valid_function_inv in Hvalid as (_ & _ & _ & _ & Ht).
  destruct (pick "triggers" fd dd) as [ | | | | triggers | ] eqn:Hpick; try done.
  simpl in Ht.
  destruct (for_each_Forall
              (trigger_resource c (VStr (name_of svc fd)) (VStr (short_of svc fd))) triggers)
    as (hts & Hhts & Hlen).
  { apply Forall_forall. intros t Hin. apply (trigger_resource_ok c svc); [done | ].
    by apply (forallb_elem_of _ triggers). }
  exists function, hts. split.
  - unfold function_resources. rewrite Hfunction. cbn [mbind outcome_bind].
    rewrite Hdd, func_triggers_pick, Hpick. cbn [mbind outcome_bind py_iter].
    rewrite Hhts. reflexivity.
  - split; [unfold resource_id; by rewrite Hkind, Hname | ].
    split; [ | eauto].
    eapply for_each_prop; [ | exact Hhts].
    intros t r Hr. apply trigger_resource_id in Hr as [Hk Hn].
    unfold resource_id. by rewrite Hk, Hn.
Qed.

Lemma for_each_Ok_Forall2 {A B} (f : A → outcome B) (l : list A) (ys : list B) :
  for_each f l = Ok ys → Forall2 (λ x y, f x = Ok y) l ys.
Proof.
  revert ys. induction l as [ | x l IH]; intros ys; cbn [for_each].
  - intros [= <-]. constructor.
  - intros Hys. bind_ok Hys as y. bind_ok Hys as ys'. injection Hys as <-.
    constructor; [done | by apply IH].
Qed.

Lemma normalize_refs_complete (refs namespace out : value) :
  normalize_refs refs namespace = Ok out →
  ∃ entries outs, py_iter refs = Ok entries ∧ out = VList outs ∧
                  Forall2 (λ ref o, complete_ref namespace ref = Some o) entries outs.
Proof.
  unfold normalize_refs. intros Hn. bind_ok Hn as entries. bind_ok Hn as outs.
  injection Hn as <-. exists entries, outs. split; [done | ]. split; [done | ].
  apply for_each_Ok_Forall2 in E0. eapply Forall2_impl; [exact E0 | ].
  intros ref o Ho. cbn beta in Ho. bind_ok Ho as name. bind_ok Ho as ns.
  injection Ho as <-.
  destruct ref as [ | | | | | r]; try discriminate E1. cbn [py_getitem py_get] in *.
  unfold complete_ref. destruct (r !! "name") as [n | ]; [ | discriminate E1].
  injection E1 as ->. injection E2 as <-. reflexivity.
Qed.

Lemma truthy_list (l : list value) :
  (if py_truthy (VList l) then Some (VList l) else None)
  = match l with [] => None | _ => Some (VList l) end.
Proof. by destruct l. Qed.

(** C8. For each of secrets, configmaps and triggers the value the
    function definition declares is the one used, an empty list included,
    and the template's value is not looked at; the template's value is
    used when the function omits the field, and the empty list when both
    do.  A valid definition is expanded.  The Function carries one
    reference for each entry of the chosen secrets and of the chosen
    configmaps, in their order, each with the name of its entry and the
    namespace of its entry or of the Service, and no field at all for an
    empty choice, [secrets: []] in the definition included; the
    HTTPTriggers are, in order, those [generate_http_trigger] returns for
    the "http" mapping of each chosen trigger entry. *)
Theorem no_merge_override_or_default (c : context) (fd dd : gmap string value) :
  function_defaults c = VDict dd →
  (∀ k, pick k fd dd = match fd !! k with
                       | Some v => v
                       | None => default (VList []) (dd !! k)
                       end) ∧
  func_secrets (VDict fd) (VDict dd) = Ok (pick "secrets" fd dd) ∧
  func_configmaps (VDict fd) (VDict dd) = Ok (pick "configmaps" fd dd) ∧
  func_triggers (VDict fd) (VDict dd) = Ok (pick "triggers" fd dd) ∧
  (∀ svc, service_name c = VStr svc → valid_function dd (VDict fd) = true →
     ∃ rs, function_resources c (VDict fd) = Ok rs) ∧
  (∀ function func_name short_name,
     function_resource c (VDict fd) = Ok (function, func_name, short_name) →
     ∃ secrets configmaps secret_refs configmap_refs,
       py_iter (pick "secrets" fd dd) = Ok secrets ∧
       Forall2 (λ ref o, complete_ref (namespace c) ref = Some o) secrets secret_refs ∧
       py_iter (pick "configmaps" fd dd) = Ok configmaps ∧
       Forall2 (λ ref o, complete_ref (namespace c) ref = Some o) configmaps configmap_refs ∧
       get_path function ["spec"; "secrets"] =
         match secret_refs with [] => None | _ => Some (VList secret_refs) end ∧
       get_path function ["spec"; "configmaps"] =
         match configmap_refs with [] => None | _ => Some (VList configmap_refs) end) ∧
  (∀ rs, function_resources c (VDict fd) = Ok rs →
     ∃ function func_name short_name triggers http_triggers,
       function_resource c (VDict fd) = Ok (function, func_name, short_name) ∧
       rs = function :: http_triggers ∧
       py_iter (pick "triggers" fd dd) = Ok triggers ∧
       Forall2 (λ trigger r,
                  ∃ t, trigger = VDict t ∧
                       generate_http_trigger func_name (namespace c) (labels c) func_name
                         (service_name c) short_name (default (dict []) (t !! "http"))
                       = Ok r)
               triggers http_triggers) ∧
  (fd !! "secrets" = Some (VList []) →
   ∀ function func_name short_name,
     function_resource c (VDict fd) = Ok (function, func_name, short_name) →
     get_path function ["spec"; "secrets"] = None).
Proof.
  intros Hdd.
  assert (∀ function func_name short_name,
     function_resource c (VDict fd) = Ok (function, func_name, short_name) →
     ∃ secrets configmaps secret_refs configmap_refs,
       py_iter (pick "secrets" fd dd) = Ok secrets ∧
       Forall2 (λ ref o, complete_ref (namespace c) ref = Some o) secrets secret_refs ∧
       py_iter (pick "configmaps" fd dd) = Ok configmaps ∧
       Forall2 (λ ref o, complete_ref (namespace c) ref = Some o) configmaps configmap_refs ∧
       get_path function ["spec"; "secrets"] =
         match secret_refs with [] => None | _ => Some (VList secret_refs) end ∧
       get_path function ["spec"; "configmaps"] =
         match configmap_refs with [] => None | _ => Some (VList configmap_refs) end)
    as Hfields.
  { intros function fn sn Hres. unfold function_resource in Hres. rewrite Hdd in Hres.
    bind_ok Hres. bind_ok Hres. bind_ok Hres.
    rewrite func_secrets_pick in Hres. cbn [mbind outcome_bind] in Hres.
    bind_ok Hres as secrets. rewrite func_configmaps_pick in Hres.
    cbn [mbind outcome_bind] in Hres.
    bind_ok Hres as configmaps. bind_ok Hres. bind_ok Hres. bind_ok Hres.
    injection Hres as <- <- <-.
    match goal with Hs : normalize_refs (pick "secrets" fd dd) _ = Ok _ |- _ =>
      apply normalize_refs_complete in Hs as (ss & srefs & Hss & -> & Hsall) end.
    match goal with Hs : normalize_refs (pick "configmaps" fd dd) _ = Ok _ |- _ =>
      apply normalize_refs_complete in Hs as (cs & crefs & Hcs & -> & Hcall) end.
    match goal with Hg : generate_function _ _ _ _ _ _ _ _ _ _ _ _ = Ok _ |- _ =>
      apply generate_function_fields in Hg as (_ & _ & Hs & Hc) end.
    rewrite truthy_list in Hs, Hc.
    exists ss, cs, srefs, crefs. done. }
  split; [intros k; unfold pick, resolved; by destruct (fd !! k) | ].
  split; [apply func_secrets_pick | ].
  split; [apply func_configmaps_pick | ].
  split; [apply func_triggers_pick | ].
  split.
  { intros svc Hsvc Hvalid.
    destruct (function_resources_ok c svc dd fd Hsvc Hdd Hvalid) as (f & hts & Hrs & _).
    eauto. }
  split; [exact Hfields | ].
  split.
  - intros rs Hrs. unfold function_resources in Hrs. rewrite Hdd in Hrs.
    bind_ok Hrs as [[function fn] sn].
    rewrite func_triggers_pick in Hrs. cbn [mbind outcome_bind] in Hrs.
    bind_ok Hrs as triggers. bind_ok Hrs as hts. injection Hrs as <-.
    exists function, fn, sn, triggers, hts.
    split; [done | ]. split; [done | ]. split; [done | ].
    match goal with Hf : for_each _ triggers = Ok hts |- _ =>
      apply for_each_Ok_Forall2 in Hf; eapply Forall2_impl; [exact Hf | ] end.
    intros trigger r Hr. cbn beta in Hr. unfold trigger_resource in Hr.
    bind_ok Hr as trigger_spec.
    destruct trigger as [ | | | | | t]; try discriminate.
    match goal with Hg : py_get (VDict t) "http" _ = Ok _ |- _ =>
      cbn [py_get] in Hg; injection Hg as <- end.
    by exists t.
  - intros Hempty function fn sn Hres.
    destruct (Hfields function fn sn Hres)
      as (ss & cs & srefs & crefs & Hss & Hsall & _ & _ & Hlook & _).
    unfold pick, resolved in Hss. rewrite Hempty in Hss. cbn in Hss.
    injection Hss as <-. inversion Hsall; subst. exact Hlook.
Qed.

Lemma no_merge_override_or_default_witness :
  get_path (VDict template_example) ["secrets"] = Some (VList [dict [("name", VStr "db")]]) ∧
  (∃ function,
     function_resource context_with_template (VDict function_without_secrets)
       = Ok (function, VStr "api-get", VStr "get") ∧
     get_path function ["spec"; "secrets"] = None ∧
     function_resources context_with_template (VDict function_without_secrets)
       = Ok [function]) ∧
  (∃ function http_trigger,
     function_resources context_with_template (VDict function_with_secret)
       = Ok [function; http_trigger] ∧
     get_path function ["spec"; "secrets"] =
       Some (VList [dict [("name", VStr "tok"); ("namespace", VStr "default")]]) ∧
     get_path http_trigger ["spec"; "relativeurl"] = Some (VStr "/custom") ∧
     get_path http_trigger ["spec"; "method"] = Some (VStr "GET") ∧
     get_path http_trigger ["spec"; "host"] = Some (VStr "example.org")).
Proof.
  split; [reflexivity | ]. split.
  - destruct (no_merge_override_or_default context_with_template function_without_secrets template_example eq_refl)
      as (_ & _ & _ & _ & _ & _ & _ & Hempty).
    eexists. split; [vm_compute; reflexivity | ].
    split; [ | vm_compute; reflexivity].
    eapply Hempty; [reflexivity | vm_compute; reflexivity].
  - destruct (no_merge_override_or_default context_with_template function_with_secret template_example eq_refl)
      as (_ & _ & _ & _ & Hruns & Hfields & Htriggers & _).
    destruct (Hruns "api" eq_refl) as [rs Hrs]; [vm_compute; reflexivity | ].
    destruct (Htriggers rs Hrs)
      as (function & fn & sn & triggers & hts & Hres & -> & Hiter & Hall).
    destruct (Hfields function fn sn Hres)
      as (ss & cs & srefs & crefs & Hss & Hsall & _ & _ & Hsecrets & _).
    vm_compute in Hss. injection Hss as <-.
    inversion Hsall as [ | ref o refs os Ho Hrest]; subst. inversion Hrest; subst.
    vm_compute in Ho. injection Ho as <-.
    vm_compute in Hiter. injection Hiter as <-.
    inversion Hall as [ | t r ts rs' (tm & Htm & Hgen) Hrest']; subst.
    inversion Hrest'; subst. injection Htm as <-.
    assert (fn = VStr "api-get" ∧ sn = VStr "get") as [-> ->].
    { vm_compute in Hres. by injection Hres as _ <- <-. }
    vm_compute in Hgen. injection Hgen as <-.
    exists function. eexists. split; [exact Hrs | ].
    split; [exact Hsecrets | ]. split; [reflexivity | ]. split; reflexivity.
Defined.

(** ** The checks on the list of functions *)

Lemma named_flags (fs : list value) :
  forallb isinstance_dict fs = true →
  for_each (py_contains "name") fs = Ok ((λ f, negb (lacks_name f)) <$> fs).
Proof.
  induction fs as [ | f fs IH]; simpl; [done | ].
  intros [Hf Hfs]%andb_true_iff. destruct f as [ | | | | | fd]; try done. simpl.
  rewrite (IH Hfs). simpl. unfold has_key. by rewrite negb_involutive.
Qed.

Lemma unnamed_count_pos (fs : list value) :
  bool_decide (0 < length (filter (λ b : bool, negb b) ((λ f, negb (lacks_name f)) <$> fs)))%nat
  = existsb lacks_name fs.
Proof.
  induction fs as [ | f fs IH]; [done | ].
  rewrite fmap_cons. cbn [existsb].
  destruct (lacks_name f); cbn [negb orb].
  - rewrite filter_cons_True by done. apply bool_decide_eq_true_2. simpl. lia.
  - rewrite filter_cons_False by (simpl; tauto). done.
Qed.

Lemma validate_functions_dicts (sp : gmap string value) :
  opt_all (λ v, match v with VList fs => forallb isinstance_dict fs | _ => false end)
          (sp !! "functions") = true →
  validate_functions (VDict sp) =
    match functions_of sp with
    | [] => plugin_fail no_functions_message
    | fs => if fails_validation fs then plugin_fail name_required_message else Ok ()
    end.
Proof.
  unfold validate_functions, functions_of; simpl.
  destruct (sp !! "functions") as [[ | | | | fs | ] | ]; try done; simpl.
  destruct fs as [ | f fs]; [done | ]. intros Hdicts.
  cbn [py_truthy negb py_iter mbind outcome_bind].
  rewrite (named_flags _ Hdicts). cbn [mbind outcome_bind].
  rewrite unnamed_count_pos. unfold fails_validation.
  cbn [existsb length].
  destruct (lacks_name f || existsb lacks_name fs); [ | reflexivity].
  cbn [mbind outcome_bind py_len andb length].
  by destruct (bool_decide (1 < S (length fs))%nat).
Qed.

(** ** Appending to the items of the document *)
Lemma items_append_ok (r : value) (d : gmap string value) (items : list value) :
  d !! "items" = Some (VList items) →
  items_append r (VDict d) = (Ok (), VDict (<["items" := VList (items ++ [r])]> d)).
Proof. intros Hitems. unfold items_append; simpl. by rewrite Hitems. Qed.

Lemma append_each (f : value → outcome value) (ts hts : list value) :
  for_each f ts = Ok hts →
  ∀ (d : gmap string value) (items : list value),
    d !! "items" = Some (VList items) →
    for_each_M (λ t, r ← pure (f t); items_append r) ts (VDict d)
      = (Ok (), VDict (<["items" := VList (items ++ hts)]> d)).
Proof.
  revert hts; induction ts as [ | t ts IH]; intros hts; simpl.
  - intros [= <-] d items Hitems. rewrite app_nil_r, insert_id by done. done.
  - intros Hf. bind_ok Hf as r. bind_ok Hf as hts'. injection Hf as <-.
    intros d items Hitems.
    unfold mbind at 1, M_bind. unfold mbind at 1, M_bind. unfold pure at 1.
    rewrite (items_append_ok r d items Hitems).
    rewrite (IH hts' eq_refl _ (items ++ [r])%list) by apply lookup_insert_eq.
    by rewrite insert_insert_eq, <- app_assoc.
Qed.

Lemma expand_function_ok (c : context) (f : value) (rs : list value) :
  function_resources c f = Ok rs →
  ∀ (d : gmap string value) (items : list value),
    d !! "items" = Some (VList items) →
    expand_function c f (VDict d)
      = (Ok (), VDict (<["items" := VList (items ++ rs)]> d)).
Proof.
  unfold function_resources. intros Hrs.
  bind_ok Hrs as [[function fn] sn]. bind_ok Hrs as tv. bind_ok Hrs as ts.
  bind_ok Hrs as hts. injection Hrs as <-.
  intros d items Hitems. unfold expand_function.
  unfold mbind at 1, M_bind. unfold pure at 1. rewrite E.
  unfold mbind at 1, M_bind. rewrite (items_append_ok function d items Hitems).
  unfold mbind at 1, M_bind. unfold pure at 1. rewrite E0.
  unfold mbind at 1, M_bind. unfold pure at 1. rewrite E1.
  rewrite (append_each _ ts hts E2 _ (items ++ [function])%list) by apply lookup_insert_eq.
  by rewrite insert_insert_eq, <- app_assoc.
Qed.

Lemma expand_functions_ok (c : context) (fs : list value) (rss : list (list value)) :
  for_each (function_resources c) fs = Ok rss →
  ∀ (d : gmap string value) (items : list value),
    d !! "items" = Some (VList items) →
    for_each_M (expand_function c) fs (VDict d)
      = (Ok (), VDict (<["items" := VList (items ++ concat rss)]> d)).
Proof.
  revert rss; induction fs as [ | f fs IH]; intros rss; simpl.
  - intros [= <-] d items Hitems. simpl. rewrite app_nil_r, insert_id by done. done.
  - intros Hf. bind_ok Hf as rs. bind_ok Hf as rss'. injection Hf as <-.
    intros d items Hitems.
    unfold mbind at 1, M_bind. rewrite (expand_function_ok c f rs E d items Hitems).
    rewrite (IH rss' eq_refl _ (items ++ rs)%list) by apply lookup_insert_eq.
    simpl. by rewrite insert_insert_eq, <- app_assoc.
Qed.

(** ** The Package generator and the orchestrator on well-formed documents *)

Lemma contains_some {A} (x : A) : bool_decide (is_Some (Some x)) = true.
Proof. reflexivity. Qed.

Lemma contains_none {A} : bool_decide (is_Some (@None A)) = false.
Proof. reflexivity. Qed.

Lemma py_eq_literal (v : value) :
  py_eq v (VStr "literal") = Ok (is_str "literal" v).
Proof. by destruct v. Qed.

Lemma copied_source_dict (s : gmap string value) (inferred : value) :
  ∃ r, copied_source (VDict s) inferred = Ok r.
Proof.
  unfold copied_source. cbn [py_contains mbind outcome_bind].
  set (typed := if bool_decide (is_Some (s !! "type")) then Ok (VDict s)
                else py_setitem (VDict s) "type"
                       (if py_truthy inferred then inferred else VStr "url")).
  assert (∃ s', typed = Ok (VDict s')) as [s' ->].
  { unfold typed. destruct (bool_decide (is_Some (s !! "type"))); simpl; eauto. }
  cbn [py_contains py_getitem mbind outcome_bind].
  destruct (s' !! "checksum") as [checksum | ] eqn:Hck;
    rewrite ?contains_some, ?contains_none; cbn [mbind outcome_bind]; [ | eauto].
  destruct checksum as [ | | | | | ck]; cbn [isinstance_dict]; eauto.
  cbn [py_contains py_setitem mbind outcome_bind].
  destruct (bool_decide (is_Some (ck !! "type"))); cbn [mbind outcome_bind]; eauto.
Qed.

Section Package.
Context `{PyLib}.

Lemma literal_source_ok (e : run_env) (s : gmap string value) (code : string) :
  s !! "literal" = Some (VStr code) →
  ∃ r, literal_source e (VDict s) = Ok r.
Proof.
  intros Hl. unfold literal_source. cbn [py_getitem]. rewrite Hl.
  cbn [mbind outcome_bind]. rewrite literal_zip_bytes_eq. cbn [mbind outcome_bind]. eauto.
Qed.

Lemma package_source_ok (e : run_env) (p : gmap string value) :
  valid_package (VDict p) = true → ∃ src, package_source e (VDict p) = Ok src.
Proof.
  unfold valid_package, package_source. cbn [py_contains py_getitem mbind outcome_bind].
  destruct (p !! "source") as [src | ] eqn:Hsrc;
    rewrite ?contains_some, ?contains_none; cbn [opt_all mbind outcome_bind]; [ | eauto].
  destruct src as [ | | | | | s]; try done. unfold valid_source.
  assert (∀ inferred, ∃ r, (source ← copied_source (VDict s) inferred; Ok (Some source)) = Ok r)
    as Hcopied.
  { intros inferred. destruct (copied_source_dict s inferred) as [r ->]. simpl. eauto. }
  assert (∀ code, s !! "literal" = Some (VStr code) →
            ∃ r, (source ← literal_source e (VDict s); Ok (Some source)) = Ok r) as Hliteral.
  { intros code Hl. destruct (literal_source_ok e s code Hl) as [r ->]. simpl. eauto. }
  unfold inferred_type.
  destruct (s !! "type") as [t | ] eqn:Ht, (s !! "literal") as [l | ] eqn:Hl;
    cbn -[literal_source copied_source py_eq]; rewrite ?Ht, ?Hl;
    cbn -[literal_source copied_source py_eq];
    rewrite ?py_eq_literal; cbn -[literal_source copied_source].
  - destruct (is_str "literal" t); cbn -[literal_source copied_source];
      [ | intros _; apply Hcopied].
    destruct l; try done. intros _. by eapply Hliteral.
  - intros _. destruct (is_str "literal" t); cbn -[literal_source copied_source];
      apply Hcopied.
  - destruct l; try done. intros _. by eapply Hliteral.
  - intros _.
    destruct (s !! "url"); cbn -[literal_source copied_source]; apply Hcopied.
Qed.

Lemma generate_package_id
    (e : run_env) (name namespace labels package_spec env_name env_namespace buildcmd
     package : value) :
  generate_package e name namespace labels package_spec env_name env_namespace buildcmd
    = Ok package →
  resource_id package = (Some (VStr "Package"), Some name).
Proof.
  unfold generate_package. intros Hp. bind_ok Hp as src. injection Hp as <-.
  unfold resource_id. f_equal. by destruct (py_truthy labels).
Qed.

Lemma generate_package_ok
    (e : run_env) (name namespace labels env_name env_namespace buildcmd : value)
    (p : gmap string value) :
  valid_package (VDict p) = true →
  ∃ package,
    generate_package e name namespace labels (VDict p) env_name env_namespace buildcmd
      = Ok package.
Proof.
  intros Hvalid. destruct (package_source_ok e p Hvalid) as [src Hsrc].
  unfold generate_package. rewrite Hsrc. cbn [mbind outcome_bind]. eauto.
Qed.

End Package.

Lemma valid_function_dict (dd : gmap string value) (fs : list value) :
  forallb (valid_function dd) fs = true → forallb isinstance_dict fs = true.
Proof.
  induction fs as [ | f fs IH]; simpl; [done | ].
  intros [Hf Hfs]%andb_true_iff. rewrite (IH Hfs), andb_true_r. by destruct f.
Qed.

Lemma shared_context_ok (service : value) :
  valid_service service = true →
  ∃ (s m sp dd p : gmap string value) (svc : string) (c : context),
    service = VDict s ∧ s !! "metadata" = Some (VDict m) ∧
    s !! "spec" = Some (VDict sp) ∧ m !! "name" = Some (VStr svc) ∧
    shared_context service = Ok (VDict sp, c) ∧
    service_name c = VStr svc ∧ function_defaults c = VDict dd ∧
    package_spec c = VDict p ∧ valid_package (VDict p) = true ∧
    forallb (valid_function dd) (functions_of sp) = true ∧
    opt_all (λ v, match v with VList fs => forallb isinstance_dict fs | _ => false end)
            (sp !! "functions") = true.
Proof.
  destruct service as [ | | | | | s]; try done. unfold valid_service.
  destruct (s !! "metadata") as [[ | | | | | m] | ] eqn:Hm; try done.
  destruct (s !! "spec") as [[ | | | | | sp] | ] eqn:Hsp; try done.
  rewrite !andb_true_iff. intros ((((Hname & Hhas) & Hpkg) & Henv) & Hfs).
  apply bool_decide_eq_true_1 in Hhas as [name Hn]. rewrite Hn in Hname.
  destruct name as [ | | | svc | | ]; try done.
  destruct (sp !! "environment") as [[ | | | | | en] | ] eqn:Hen; try done.
  apply bool_decide_eq_true_1 in Henv as [ename Hename].
  assert (∃ p, default (dict []) (sp !! "package") = VDict p ∧ valid_package (VDict p) = true)
    as (p & Hp & Hvp).
  { destruct (sp !! "package") as [[ | | | | | pd] | ]; try done;
      [exists pd | exists ∅]; done. }
  assert (∃ dd, default (dict []) (sp !! "functionTemplate") = VDict dd ∧
                template_of sp = Some dd) as (dd & Hdd & Htpl).
  { unfold template_of in *.
    destruct (sp !! "functionTemplate") as [[ | | | | | td] | ]; try done;
      [exists td | exists ∅]; done. }
  rewrite Htpl in Hfs.
  exists s, m, sp, dd, p, svc.
  eexists. split; [done | ]. split; [done | ]. split; [done | ]. split; [done | ].
  split.
  { unfold shared_context. cbn [py_getitem py_get mbind outcome_bind].
    rewrite Hm, Hsp. cbn [py_getitem py_get mbind outcome_bind].
    rewrite Hn. cbn [py_getitem py_get mbind outcome_bind].
    rewrite Hp. cbn [py_getitem py_get mbind outcome_bind].
    rewrite Hen. cbn [py_getitem py_get mbind outcome_bind].
    rewrite Hename. cbn [py_getitem py_get mbind outcome_bind]. reflexivity. }
  cbn [service_name function_defaults package_spec].
  split; [done | ]. split; [done | ]. split; [done | ]. split; [done | ].
  unfold functions_of.
  destruct (sp !! "functions") as [[ | | | | fs | ] | ]; try done.
  split; [done | ]. simpl. by eapply valid_function_dict.
Qed.

Lemma functions_resources_ok (c : context) (svc : string) (dd : gmap string value)
    (fs : list value) :
  service_name c = VStr svc → function_defaults c = VDict dd →
  forallb (valid_function dd) fs = true →
  ∃ rss, for_each (function_resources c) fs = Ok rss ∧ length rss = length fs.
Proof.
  intros Hsvc Hdd Hvalid. apply for_each_Forall, Forall_forall.
  intros f Hin. apply (forallb_elem_of _ _ f) in Hvalid; [ | done].
  destruct f as [ | | | | | fd]; try done.
  destruct (function_resources_ok c svc dd fd Hsvc Hdd Hvalid) as (fn & hts & Hr & _).
  eauto.
Qed.

Lemma bind_pure_ok {A B} (m : outcome A) (a : A) (k : A → M B) (krm : value) :
  m = Ok a → (pure m ≫= k) krm = k a krm.
Proof. intros ->. reflexivity. Qed.

Lemma bind_pure_raise {A B} (m : outcome A) (err : error) (k : A → M B) (krm : value) :
  m = Raise err → (pure m ≫= k) krm = (Raise err, krm).
Proof. intros ->. reflexivity. Qed.

Lemma bind_M_ok {A B} (m : M A) (a : A) (k : A → M B) (krm krm' : value) :
  m krm = (Ok a, krm') → (m ≫= k) krm = k a krm'.
Proof. intros Hm. unfold mbind, M_bind. by rewrite Hm. Qed.

Lemma bind_M_raise {A B} (m : M A) (err : error) (k : A → M B) (krm krm' : value) :
  m krm = (Raise err, krm') → (m ≫= k) krm = (Raise err, krm').
Proof. intros Hm. unfold mbind, M_bind. by rewrite Hm. Qed.

Section Transform.
Context `{PyLib}.

(** The steps of [transform] up to the append of the Package. *)
Lemma transform_prelude (e : run_env) (d : gmap string value) (items : list value)
    (service spec buildcmd package : value) (c : context) :
  d !! "functionConfig" = Some service → d !! "items" = Some (VList items) →
  shared_context service = Ok (spec, c) →
  py_get (package_spec c) "buildcmd" VNone = Ok buildcmd →
  generate_package e (package_name c) (namespace c) (labels c) (package_spec c)
    (env_name c) (env_namespace c) buildcmd = Ok package →
  transform e (VDict d) =
    (_ ← pure (validate_functions spec);
     functions ← pure (py_getitem spec "functions");
     functions ← pure (py_iter functions);
     _ ← for_each_M (expand_function c) functions;
     the_krm) (VDict (<["items" := VList (items ++ [package])]> d)).
Proof.
  intros Hservice Hitems Hctx Hbuildcmd Hpackage. unfold transform.
  rewrite (bind_M_ok the_krm (VDict d) _ (VDict d) (VDict d)) by reflexivity.
  erewrite bind_pure_ok by (cbn [py_getitem]; rewrite Hservice; reflexivity).
  erewrite bind_pure_ok by exact Hctx. cbv beta iota.
  erewrite bind_pure_ok by exact Hbuildcmd.
  erewrite bind_pure_ok by exact Hpackage.
  erewrite bind_M_ok by (by apply items_append_ok).
  reflexivity.
Qed.

(** What [transform] does to a well-formed document. *)
Lemma transform_valid (e : run_env) (krm : value) :
  valid_krm krm = true →
  ∃ (d sp dd : gmap string value) (items : list value) (service package : value)
    (c : context) (svc : string),
    krm = VDict d ∧ d !! "items" = Some (VList items) ∧
    d !! "functionConfig" = Some service ∧
    get_path service ["spec"] = Some (VDict sp) ∧
    get_path service ["metadata"; "name"] = Some (VStr svc) ∧
    shared_context service = Ok (VDict sp, c) ∧ service_name c = VStr svc ∧
    function_defaults c = VDict dd ∧
    resource_id package = (Some (VStr "Package"), Some (package_name c)) ∧
    forallb (valid_function dd) (functions_of sp) = true ∧
    match functions_of sp with
    | [] => transform e krm = (Raise (PluginFail no_functions_message),
                               VDict (<["items" := VList (items ++ [package])]> d))
    | f :: fs =>
      if fails_validation (f :: fs) then
        transform e krm = (Raise (PluginFail name_required_message),
                           VDict (<["items" := VList (items ++ [package])]> d))
      else
        ∃ rss, for_each (function_resources c) (f :: fs) = Ok rss ∧
               transform e krm =
                 (Ok (VDict (<["items" := VList (items ++ package :: concat rss)]> d)),
                  VDict (<["items" := VList (items ++ package :: concat rss)]> d))
    end.
Proof.
  destruct krm as [ | | | | | d]; try done. unfold valid_krm.
  destruct (d !! "functionConfig") as [service | ] eqn:Hservice; try done.
  destruct (d !! "items") as [[ | | | | items | ] | ] eqn:Hitems; try done.
  intros (s & m & sp & dd & p & svc & c & -> & Hm & Hsp & Hn & Hctx & Hsvc & Hdd & Hp &
          Hvp & Hfs & Hdicts)%shared_context_ok.
  destruct (generate_package_ok e (package_name c) (namespace c) (labels c)
              (env_name c) (env_namespace c) (default VNone (p !! "buildcmd")) p Hvp)
    as [package Hpackage].
  exists d, sp, dd, items, (VDict s), package, c, svc.
  split; [done | ]. split; [done | ]. split; [done | ].
  split; [simpl; by rewrite Hsp | ].
  split; [simpl; rewrite Hm; simpl; by rewrite Hn | ].
  split; [done | ]. split; [done | ]. split; [done | ].
  split; [by eapply generate_package_id | ].
  split; [done | ].
  rewrite (transform_prelude e d items (VDict s) (VDict sp)
             (default VNone (p !! "buildcmd")) package c Hservice Hitems Hctx)
    by (rewrite Hp; done).
  pose proof (validate_functions_dicts sp Hdicts) as Hvalidate.
  destruct (functions_of sp) as [ | f fs] eqn:Hfuns.
  { by erewrite bind_pure_raise by exact Hvalidate. }
  destruct (fails_validation (f :: fs)).
  { by erewrite bind_pure_raise by exact Hvalidate. }
  destruct (functions_resources_ok c svc dd (f :: fs) Hsvc Hdd Hfs) as (rss & Hrss & _).
  exists rss. split; [done | ].
  unfold functions_of in Hfuns.
  destruct (sp !! "functions") as [[ | | | | fs' | ] | ] eqn:Hf; try done. subst fs'.
  erewrite bind_pure_ok by exact Hvalidate.
  erewrite bind_pure_ok by (cbn [py_getitem]; rewrite Hf; reflexivity).
  erewrite bind_pure_ok by reflexivity.
  erewrite bind_M_ok
    by (apply (expand_functions_ok c (f :: fs) rss Hrss _ (items ++ [package])%list),
              lookup_insert_eq).
  unfold the_krm. by rewrite insert_insert_eq, <- app_assoc.
Qed.

End Transform.

(** ** Failing the checks, whatever the rest of the document *)

(** Among the answers to ["name" in f], a function without a name counts. *)
Lemma unnamed_counted (fs : list value) (named : list bool) :
  for_each (py_contains "name") fs = Ok named →
  existsb lacks_name fs = true →
  (0 < length (filter (λ b : bool, negb b) named))%nat.
Proof.
  revert named; induction fs as [ | f fs IH]; intros named; [done | ].
  cbn [for_each]. intros Hf. bind_ok Hf as b. bind_ok Hf as named'.
  injection Hf as <-. cbn [existsb]. intros [Hlacks | Hex]%orb_true_iff.
  - destruct f as [ | | | | | fd]; try done. simpl in Hlacks, E.
    unfold has_key in Hlacks. injection E as <-.
    rewrite filter_cons_True by (by apply Is_true_true). simpl. lia.
  - specialize (IH named' eq_refl Hex).
    destruct b; [rewrite filter_cons_False by (simpl; tauto); done | ].
    rewrite filter_cons_True by done. simpl. lia.
Qed.

Lemma validate_functions_fails (sp : gmap string value) :
  opt_all is_list (sp !! "functions") = true →
  fails_validation (functions_of sp) = true →
  ∃ err, validate_functions (VDict sp) = Raise err.
Proof.
  unfold validate_functions, functions_of. cbn [py_get mbind outcome_bind].
  destruct (sp !! "functions") as [[ | | | | fs | ] | ]; try done; [ | simpl; eauto].
  intros _. destruct fs as [ | f fs]; [simpl; eauto | ].
  unfold fails_validation. intros [Hex Hlen]%andb_true_iff.
  cbn [default from_option id py_truthy negb py_iter mbind outcome_bind].
  destruct (for_each (py_contains "name") (f :: fs)) as [named | err] eqn:Hnamed;
    cbn [mbind outcome_bind]; [ | eauto].
  rewrite bool_decide_eq_true_2 by (by eapply unnamed_counted).
  cbn [py_len mbind outcome_bind]. rewrite Hlen. cbn [mbind outcome_bind]. eauto.
Qed.

Section Cases.
Context `{PyLib}.

Lemma shared_context_spec (service spec : value) (c : context) :
  shared_context service = Ok (spec, c) → py_getitem service "spec" = Ok spec.
Proof.
  unfold shared_context. intros Hc.
  bind_ok Hc as metadata. bind_ok Hc as spec'. repeat bind_ok Hc.
  by injection Hc as <- _.
Qed.

Lemma generate_package_kind
    (e : run_env) (name namespace labels package_spec env_name env_namespace buildcmd
     package : value) :
  generate_package e name namespace labels package_spec env_name env_namespace buildcmd
    = Ok package →
  resource_kind package = Some (VStr "Package").
Proof. intros Hp%generate_package_id. unfold resource_id in Hp. congruence. Qed.

Lemma items_append_cases (x krm : value) :
  (∃ err, items_append x krm = (Raise err, krm)) ∨
  (∃ krm', items_append x krm = (Ok (), krm') ∧ appended krm [x] krm').
Proof.
  unfold items_append.
  destruct krm as [ | | | | | d]; try (left; simpl; by eauto).
  cbn [py_getitem].
  destruct (d !! "items") as [[ | | | | items | ] | ] eqn:Hitems; try (left; simpl; by eauto).
  right. simpl. eexists. split; [reflexivity | ]. by exists d, items.
Qed.

(** Either [transform] fails before it has appended anything, or it
    appends the Package and goes on with the checks. *)
Lemma transform_cases (e : run_env) (krm : value) :
  (∃ err, transform e krm = (Raise err, krm)) ∨
  (∃ service spec c package krm1,
     py_getitem krm "functionConfig" = Ok service ∧
     shared_context service = Ok (spec, c) ∧
     resource_kind package = Some (VStr "Package") ∧
     appended krm [package] krm1 ∧
     transform e krm =
       (_ ← pure (validate_functions spec);
        functions ← pure (py_getitem spec "functions");
        functions ← pure (py_iter functions);
        _ ← for_each_M (expand_function c) functions;
        the_krm) krm1).
Proof.
  unfold transform.
  rewrite (bind_M_ok the_krm krm _ krm krm) by reflexivity.
  destruct (py_getitem krm "functionConfig") as [service | err] eqn:Hservice;
    [ | left; exists err; by erewrite bind_pure_raise].
  erewrite bind_pure_ok by reflexivity.
  destruct (shared_context service) as [[spec c] | err] eqn:Hctx;
    [ | left; exists err; by erewrite bind_pure_raise].
  erewrite bind_pure_ok by reflexivity. cbv beta iota.
  destruct (py_get (package_spec c) "buildcmd" VNone) as [buildcmd | err] eqn:Hb;
    [ | left; exists err; by erewrite bind_pure_raise].
  erewrite bind_pure_ok by reflexivity.
  destruct (generate_package e (package_name c) (namespace c) (labels c) (package_spec c)
              (env_name c) (env_namespace c) buildcmd) as [package | err] eqn:Hp;
    [ | left; exists err; by erewrite bind_pure_raise].
  erewrite bind_pure_ok by reflexivity.
  destruct (items_append_cases package krm) as [[err Ha] | (krm1 & Ha & Happ)].
  - left. exists err. by erewrite bind_M_raise.
  - right. exists service, spec, c, package, krm1.
    split; [done | ]. split; [done | ]. split; [by eapply generate_package_kind | ].
    split; [done | ]. by erewrite bind_M_ok.
Qed.

Lemma transform_fails_validation (e : run_env) (krm : value) (sp : gmap string value) :
  get_path krm ["functionConfig"; "spec"] = Some (VDict sp) →
  opt_all is_list (sp !! "functions") = true →
  fails_validation (functions_of sp) = true →
  ∃ err krm',
    transform e krm = (Raise err, krm') ∧
    (krm' = krm ∨
     ∃ package, resource_kind package = Some (VStr "Package") ∧ appended krm [package] krm').
Proof.
  intros Hspec Hlist Hfails.
  destruct (transform_cases e krm)
    as [[err Hrun] | (service & spec & c & package & krm1 & Hs & Hc & Hk & Happ & Hrun)].
  - exists err, krm. eauto.
  - apply shared_context_spec in Hc.
    assert (spec = VDict sp) as ->.
    { destruct krm as [ | | | | | d]; try done. simpl in Hspec, Hs.
      destruct (d !! "functionConfig") as [sv | ]; [ | done]. injection Hs as ->.
      simpl in Hspec. destruct service as [ | | | | | s]; try done. simpl in Hc.
      destruct (s !! "spec") as [spv | ]; [ | done]. simpl in Hspec. congruence. }
    destruct (validate_functions_fails sp Hlist Hfails) as [err Hv].
    exists err, krm1. split; [ | eauto].
    rewrite Hrun. by erewrite bind_pure_raise.
Qed.

End Cases.

(** ** The orchestrator *)

Section Orchestrator.
Context `{PyLib}.

Lemma spec_of_valid (d sp sp' : gmap string value) (service : value) :
  d !! "functionConfig" = Some service →
  get_path service ["spec"] = Some (VDict sp') →
  get_path (VDict d) ["functionConfig"; "spec"] = Some (VDict sp) →
  sp' = sp.
Proof.
  intros Hservice Hsp Hspec. simpl in Hspec, Hsp.
  rewrite Hservice in Hspec. simpl in Hspec. congruence.
Qed.

(** C1, as the code has it. When the Service fails one of the two checks
    (no function at all, or several functions one of which has no name),
    [transform] raises and returns nothing, and no Function or HTTPTrigger
    is generated.  The document is then either untouched, when an earlier
    step failed, or has the Package appended to its items and nothing
    else: the Package is generated and appended before the checks.  On a
    well-formed document it is the latter, and the failure is one of the
    two validation failures. *)
Theorem validation_failure_after_package (e : run_env) (krm : value)
    (sp : gmap string value) :
  get_path krm ["functionConfig"; "spec"] = Some (VDict sp) →
  opt_all is_list (sp !! "functions") = true →
  fails_validation (functions_of sp) = true →
  ∃ err krm',
    transform e krm = (Raise err, krm') ∧
    (krm' = krm ∨
     ∃ package, resource_kind package = Some (VStr "Package") ∧
                appended krm [package] krm') ∧
    (valid_krm krm = true →
     (err = PluginFail no_functions_message ∨ err = PluginFail name_required_message) ∧
     ∃ package, resource_kind package = Some (VStr "Package") ∧
                appended krm [package] krm').
Proof.
  intros Hspec Hlist Hfails.
  destruct (transform_fails_validation e krm sp Hspec Hlist Hfails)
    as (err & krm' & Hrun & Hstore).
  exists err, krm'. split; [exact Hrun | ]. split; [exact Hstore | ].
  intros Hvalid.
  destruct (transform_valid e krm Hvalid)
    as (d & sp' & dd & items & service & package & c & svc & -> & Hitems & Hservice &
        Hsp & _ & _ & _ & _ & Hid & _ & Hvrun).
  assert (sp' = sp) as -> by (by eapply spec_of_valid).
  assert (resource_kind package = Some (VStr "Package")) as Hkind
    by (unfold resource_id in Hid; congruence).
  destruct (functions_of sp) as [ | f fs] eqn:Hfuns.
  - rewrite Hvrun in Hrun. injection Hrun as <- <-.
    split; [by left | ]. exists package. split; [done | ]. by exists d, items.
  - rewrite Hfails in Hvrun. rewrite Hvrun in Hrun. injection Hrun as <- <-.
    split; [by right | ]. exists package. split; [done | ]. by exists d, items.
Qed.

(** C3, as the code has it. When the list of functions of a well-formed
    document is a single function without a name, [transform] succeeds and
    the Function it generates is named after the service; when the list has
    two or more functions and one of them has no name, [transform] fails,
    on a well-formed document with the failure that asks for names. *)
Theorem unnamed_function_naming (e : run_env) (krm : value)
    (sp : gmap string value) (svc : string) :
  get_path krm ["functionConfig"; "spec"] = Some (VDict sp) →
  get_path krm ["functionConfig"; "metadata"; "name"] = Some (VStr svc) →
  (valid_krm krm = true →
   ∀ fd, functions_of sp = [VDict fd] → fd !! "name" = None →
     ∃ krm' package function http_triggers,
       transform e krm = (Ok krm', krm') ∧
       appended krm (package :: function :: http_triggers) krm' ∧
       resource_id function = (Some (VStr "Function"), Some (VStr svc))) ∧
  (∀ fs, sp !! "functions" = Some (VList fs) →
     (1 < length fs)%nat → existsb lacks_name fs = true →
     ∃ err krm', transform e krm = (Raise err, krm') ∧
                 (valid_krm krm = true → err = PluginFail name_required_message)).
Proof.
  intros Hspec Hname. split.
  - intros Hvalid fd Hone Hnone.
    destruct (transform_valid e krm Hvalid)
      as (d & sp' & dd & items & service & package & c & svc' & -> & Hitems & Hservice &
          Hsp & Hsvc' & _ & Hsvc & Hdd & _ & Hfs & Hrun).
    assert (sp' = sp) as -> by (by eapply spec_of_valid).
    assert (svc' = svc) as ->.
    { simpl in Hname, Hsvc'. rewrite Hservice in Hname. simpl in Hname. congruence. }
    rewrite Hone in Hrun, Hfs.
    assert (fails_validation [VDict fd] = false) as Hpass.
    { unfold fails_validation. simpl. by rewrite andb_false_r. }
    rewrite Hpass in Hrun. destruct Hrun as (rss & Hrss & Hrun).
    simpl in Hfs. rewrite andb_true_r in Hfs.
    destruct (function_resources_ok c svc dd fd Hsvc Hdd Hfs)
      as (function & hts & Hres & Hid & _).
    simpl in Hrss. rewrite Hres in Hrss. simpl in Hrss. injection Hrss as <-.
    simpl in Hrun. rewrite app_nil_r in Hrun.
    eexists _, package, function, hts. split; [exact Hrun | ].
    split; [by exists d, items | ].
    rewrite Hid. unfold name_of. by rewrite Hnone.
  - intros fs Hfs Hlen Hex.
    assert (functions_of sp = fs) as Hfuns by (unfold functions_of; by rewrite Hfs).
    assert (fails_validation fs = true) as Hfails.
    { unfold fails_validation. destruct fs as [ | f fs']; [done | ].
      rewrite Hex. by rewrite bool_decide_eq_true_2. }
    destruct (transform_fails_validation e krm sp Hspec) as (err & krm' & Hrun & _).
    { by rewrite Hfs. }
    { by rewrite Hfuns. }
    exists err, krm'. split; [exact Hrun | ].
    intros Hvalid.
    destruct (transform_valid e krm Hvalid)
      as (d & sp' & dd & items & service & package & c & svc' & -> & Hitems & Hservice &
          Hsp & _ & _ & _ & _ & _ & _ & Hvrun).
    assert (sp' = sp) as -> by (by eapply spec_of_valid).
    rewrite Hfuns in Hvrun. destruct fs as [ | f fs']; [simpl in Hlen; lia | ].
    rewrite Hfails in Hvrun. rewrite Hvrun in Hrun. by injection Hrun as <- _.
Qed.

End Orchestrator.

(** Well-formedness does not look at the kind or the API version. *)
Lemma valid_krm_any_kind (d s : gmap string value) (k : string) (v : value) :
  k = "kind" ∨ k = "apiVersion" →
  valid_krm (VDict (<["functionConfig" := VDict (<[k := v]> s)]> d)) =
  valid_krm (VDict (<["functionConfig" := VDict s]> d)).
Proof.
  intros Hk. unfold valid_krm. rewrite !lookup_insert_eq.
  rewrite !(lookup_insert_ne _ "functionConfig" "items") by done.
  destruct (d !! "items") as [[ | | | | items | ] | ]; try done.
  unfold valid_service.
  rewrite !(lookup_insert_ne s k) by (destruct Hk as [-> | ->]; done).
  done.
Qed.

Section Total.
Context `{PyLib}.

(** Every well-formed document that passes the two checks is expanded. *)
Lemma transform_total (e : run_env) (krm : value) :
  valid_krm krm = true →
  fails_validation (functions_of (spec_of krm)) = false →
  ∃ krm' rs, transform e krm = (Ok krm', krm') ∧ appended krm rs krm'.
Proof.
  intros Hvalid Hpass.
  destruct (transform_valid e krm Hvalid)
    as (d & sp & dd & items & service & package & c & svc & -> & Hitems & Hservice &
        Hsp & _ & _ & _ & _ & _ & _ & Hrun).
  assert (spec_of (VDict d) = sp) as Hspec.
  { unfold spec_of. simpl in *. rewrite Hservice. simpl. by rewrite Hsp. }
  rewrite Hspec in Hpass.
  destruct (functions_of sp) as [ | f fs]; [done | ].
  rewrite Hpass in Hrun. destruct Hrun as (rss & _ & Hrun).
  eexists _, (package :: concat rss). split; [exact Hrun | ]. by exists d, items.
Qed.

End Total.

(** C1, as stated, fails: on the two unnamed functions of scenario D
    [transform] raises, and the items, empty before the call, hold the
    Package after it. *)
Lemma validation_failure_appends_package :
  (@transform Ref.lib run_a two_unnamed).1 = Raise (PluginFail name_required_message) ∧
  items_of two_unnamed = [] ∧
  resource_id <$> items_of (@transform Ref.lib run_a two_unnamed).2
    = [(Some (VStr "Package"), Some (VStr "api"))].
Proof. vm_compute. done. Qed.

(** C3, as stated, fails: of these two functions exactly one has no name,
    and [transform] fails. *)
Lemma one_unnamed_of_two_fails :
  lacks_name <$> functions_of (spec_of one_unnamed_of_two) = [false; true] ∧
  (@transform Ref.lib run_a one_unnamed_of_two).1
    = Raise (PluginFail name_required_message).
Proof. vm_compute. done. Qed.

(** C4 on the code. A document of kind ConfigMap and API version v1, which
    the test of pack and publish rejects, is expanded by [transform] like a
    Service: it returns normally, with three resources appended. *)
Lemma transform_ignores_kind :
  not_a_service (default VNone (get_path not_a_service_doc ["functionConfig"])) = Ok true ∧
  is_ok (@transform Ref.lib run_a not_a_service_doc).1 = true ∧
  resource_id <$> items_of (@transform Ref.lib run_a not_a_service_doc).2
    = [(Some (VStr "Package"), Some (VStr "hello"));
       (Some (VStr "Function"), Some (VStr "hello"));
       (Some (VStr "HTTPTrigger"), Some (VStr "hello"))].
Proof. vm_compute. done. Qed.

(** C5 on the code. A well-formed Service with one function and two
    triggers gets two HTTPTriggers of the same kind and name: the identities
    of the appended resources are not pairwise distinct. *)
Lemma two_triggers_share_identity :
  valid_krm two_triggers = true ∧
  is_ok (@transform Ref.lib run_a two_triggers).1 = true ∧
  resource_id <$> items_of (@transform Ref.lib run_a two_triggers).2
    = [(Some (VStr "Package"), Some (VStr "api"));
       (Some (VStr "Function"), Some (VStr "api-get"));
       (Some (VStr "HTTPTrigger"), Some (VStr "api-get"));
       (Some (VStr "HTTPTrigger"), Some (VStr "api-get"))] ∧
  ¬ NoDup (resource_id <$> items_of (@transform Ref.lib run_a two_triggers).2).
Proof.
  assert (resource_id <$> items_of (@transform Ref.lib run_a two_triggers).2
    = [(Some (VStr "Package"), Some (VStr "api"));
       (Some (VStr "Function"), Some (VStr "api-get"));
       (Some (VStr "HTTPTrigger"), Some (VStr "api-get"));
       (Some (VStr "HTTPTrigger"), Some (VStr "api-get"))]) as Hids
    by (vm_compute; reflexivity).
  split; [vm_compute; reflexivity | ].
  split; [vm_compute; reflexivity | ].
  split; [exact Hids | ].
  rewrite Hids. intros Hnodup.
  apply NoDup_cons in Hnodup as [_ Hnodup].
  apply NoDup_cons in Hnodup as [_ Hnodup].
  apply NoDup_cons in Hnodup as [Hnotin _].
  apply Hnotin. apply elem_of_cons. by left.
Qed.

Lemma validation_failure_after_package_witness :
  ∃ err krm',
    @transform Ref.lib run_a two_unnamed = (Raise err, krm') ∧
    (krm' = two_unnamed ∨
     ∃ package, resource_kind package = Some (VStr "Package") ∧
                appended two_unnamed [package] krm') ∧
    (err = PluginFail no_functions_message ∨ err = PluginFail name_required_message) ∧
    ∃ package, resource_kind package = Some (VStr "Package") ∧
               appended two_unnamed [package] krm'.
Proof.
  destruct (@validation_failure_after_package Ref.lib run_a two_unnamed
              (spec_of two_unnamed))
    as (err & krm' & Hrun & Hstore & Hvalid); try (vm_compute; reflexivity).
  exists err, krm'. split; [exact Hrun | ]. split; [exact Hstore | ].
  apply Hvalid. vm_compute. reflexivity.
Defined.

Lemma unnamed_function_naming_witness :
  (∃ krm' package function http_triggers,
     @transform Ref.lib run_a single_unnamed = (Ok krm', krm') ∧
     appended single_unnamed (package :: function :: http_triggers) krm' ∧
     resource_id function = (Some (VStr "Function"), Some (VStr "hello"))) ∧
  (∃ err krm', @transform Ref.lib run_a one_unnamed_of_two = (Raise err, krm') ∧
               err = PluginFail name_required_message).
Proof.
  split.
  - eapply (@unnamed_function_naming Ref.lib run_a single_unnamed
              (spec_of single_unnamed) "hello"); vm_compute; reflexivity.
  - destruct (@unnamed_function_naming Ref.lib run_a one_unnamed_of_two
                (spec_of one_unnamed_of_two) "api") as [_ Hmany];
      try (vm_compute; reflexivity).
    destruct (Hmany [dict [("name", VStr "list"); ("functionName", VStr "main.list")];
                     dict [("functionName", VStr "main.get")]])
      as (err & krm' & Hrun & Hvalid); try (vm_compute; reflexivity).
    exists err, krm'. split; [exact Hrun | ]. apply Hvalid. vm_compute. reflexivity.
Defined.

(** * Further properties of the code *)

(** ** The document as a store *)

Lemma appended_trans (krm krm1 krm2 : value) (rs rs' : list value) :
  appended krm rs krm1 → appended krm1 rs' krm2 → appended krm (rs ++ rs') krm2.
Proof.
  intros (d & items & -> & Hitems & ->) (d' & items' & Hd' & Hitems' & ->).
  injection Hd' as <-. rewrite lookup_insert_eq in Hitems'. injection Hitems' as <-.
  exists d, items. split; [done | ]. split; [done | ].
  by rewrite insert_insert_eq, <- app_assoc.
Qed.

Lemma keeps_items_trans (krm krm1 krm2 : value) :
  keeps_items krm krm1 → keeps_items krm1 krm2 → keeps_items krm krm2.
Proof.
  intros [-> | [rs Hrs]] [-> | [rs' Hrs']].
  - by left.
  - right. eauto.
  - right. eauto.
  - right. exists (rs ++ rs')%list. by eapply appended_trans.
Qed.

Lemma extending_pure {A} (m : outcome A) : extending (pure m).
Proof. intros krm. by left. Qed.

Lemma extending_the_krm : extending the_krm.
Proof. intros krm. by left. Qed.

Lemma extending_items_append (x : value) : extending (items_append x).
Proof.
  intros krm. destruct (items_append_cases x krm) as [[err ->] | (krm' & -> & Happ)].
  - by left.
  - right. eauto.
Qed.

Lemma extending_bind {A B} (m : M A) (k : A → M B) :
  extending m → (∀ a, extending (k a)) → extending (m ≫= k).
Proof.
  intros Hm Hk krm. specialize (Hm krm). unfold mbind, M_bind.
  destruct (m krm) as [[a | err] krm1]; simpl in *; [ | done].
  eapply keeps_items_trans; [exact Hm | apply Hk].
Qed.

Lemma extending_for_each_M {A} (f : A → M unit) (l : list A) :
  (∀ x, extending (f x)) → extending (for_each_M f l).
Proof.
  intros Hf. induction l as [ | x l IH]; simpl.
  - intros krm. by left.
  - apply extending_bind; [apply Hf | intros _; exact IH].
Qed.

Lemma extending_expand_function (c : context) (func_def : value) :
  extending (expand_function c func_def).
Proof.
  unfold expand_function.
  apply extending_bind; [apply extending_pure | intros [[function fn] sn]].
  apply extending_bind; [apply extending_items_append | intros _].
  apply extending_bind; [apply extending_pure | intros triggers].
  apply extending_bind; [apply extending_pure | intros ts].
  apply extending_for_each_M. intros t.
  apply extending_bind; [apply extending_pure | intros r; apply extending_items_append].
Qed.

Section Store.
Context `{PyLib}.

(** What [transform] returns is the document it was given, as it then is. *)
Lemma transform_returns_store (e : run_env) (krm krm' : value) :
  (transform e krm).1 = Ok krm' → krm' = (transform e krm).2.
Proof.
  unfold transform.
  assert (∀ (A : Type) (m : M A) (k : value),
            ((m ≫= λ _, the_krm) k).1 = Ok krm' → krm' = ((m ≫= λ _, the_krm) k).2) as Hlast.
  { intros A m k. unfold mbind, M_bind, the_krm.
    destruct (m k) as [[a | err] k1]; simpl; [ | done]. by intros [= <-]. }
  assert (∀ (A : Type) (m : M A) (f : A → M value) (k : value),
            (∀ a k1, ((f a) k1).1 = Ok krm' → krm' = ((f a) k1).2) →
            ((m ≫= f) k).1 = Ok krm' → krm' = ((m ≫= f) k).2) as Hstep.
  { intros A m f k Hf. unfold mbind at 1 2, M_bind.
    destruct (m k) as [[a | err] k1]; simpl; [apply Hf | done]. }
  apply Hstep; intros krm0 k0.
  apply Hstep; intros service k1.
  apply Hstep; intros [spec c] k2.
  apply Hstep; intros buildcmd k3.
  apply Hstep; intros package k4.
  apply Hstep; intros [] k5.
  apply Hstep; intros [] k6.
  apply Hstep; intros functions k7.
  apply Hstep; intros fs k8.
  apply Hlast.
Qed.

(** X1. Whatever the document and however the call ends, [transform] leaves
    the document as it was or with resources appended to its items: no item
    is removed or changed and no other key is touched.  When it returns,
    what it returns is that same document. *)
Theorem transform_only_appends (e : run_env) (krm : value) :
  keeps_items krm (transform e krm).2 ∧
  ∀ krm', (transform e krm).1 = Ok krm' →
          krm' = (transform e krm).2 ∧ ∃ rs, appended krm rs krm'.
Proof.
  assert (extending (transform e)) as Hext.
  { unfold transform.
    apply extending_bind; [apply extending_the_krm | intros krm0].
    apply extending_bind; [apply extending_pure | intros service].
    apply extending_bind; [apply extending_pure | intros [spec c]].
    apply extending_bind; [apply extending_pure | intros buildcmd].
    apply extending_bind; [apply extending_pure | intros package].
    apply extending_bind; [apply extending_items_append | intros _].
    apply extending_bind; [apply extending_pure | intros _].
    apply extending_bind; [apply extending_pure | intros functions].
    apply extending_bind; [apply extending_pure | intros fs].
    apply extending_bind; [ | intros _; apply extending_the_krm].
    apply extending_for_each_M, extending_expand_function. }
  split; [apply Hext | ].
  intros krm' Hok. split; [by apply transform_returns_store | ].
  pose proof (transform_returns_store e krm krm' Hok) as ->.
  destruct (Hext krm) as [Hsame | Hrs]; [ | exact Hrs].
  destruct (transform_cases e krm) as [[err Hrun] | (sv & sp & c & p & k1 & _ & _ & _ & Happ & _)].
  - rewrite Hrun in Hok. discriminate Hok.
  - destruct Happ as (d & items & -> & Hitems & _).
    exists []. exists d, items. split; [done | ]. split; [done | ].
    rewrite Hsame, app_nil_r, insert_id; done.
Qed.

End Store.

(** ** The resources of a well-formed document *)

Lemma Forall_replicate_eq {A} (x : A) (l : list A) :
  Forall (λ y, y = x) l → l = replicate (length l) x.
Proof. induction 1 as [ | y l -> _ IH]; simpl; [done | by rewrite <- IH]. Qed.

Lemma function_resources_ids (c : context) (svc : string) (dd fd : gmap string value)
    (rs : list value) :
  service_name c = VStr svc → function_defaults c = VDict dd →
  valid_function dd (VDict fd) = true →
  function_resources c (VDict fd) = Ok rs →
  resource_id <$> rs = function_ids svc dd (VDict fd).
Proof.
  intros Hsvc Hdd Hvalid Hrs.
  destruct (function_resources_ok c svc dd fd Hsvc Hdd Hvalid)
    as (function & hts & Hres & Hid & Hall & triggers & Hpick & Hlen).
  rewrite Hres in Hrs. injection Hrs as <-.
  unfold function_ids, triggers_of. rewrite Hpick, <- Hlen. cbn [fmap list_fmap].
  rewrite Hid. f_equal.
  rewrite <- (length_fmap resource_id hts). apply Forall_replicate_eq.
  by apply Forall_fmap.
Qed.

Lemma functions_resources_ids (c : context) (svc : string) (dd : gmap string value)
    (fs : list value) (rss : list (list value)) :
  service_name c = VStr svc → function_defaults c = VDict dd →
  forallb (valid_function dd) fs = true →
  for_each (function_resources c) fs = Ok rss →
  resource_id <$> concat rss = concat (function_ids svc dd <$> fs).
Proof.
  intros Hsvc Hdd. revert rss; induction fs as [ | f fs IH]; intros rss; simpl.
  - by intros _ [= <-].
  - intros [Hf Hfs]%andb_true_iff Hrss. bind_ok Hrss as rs. bind_ok Hrss as rss'.
    injection Hrss as <-. simpl. rewrite fmap_app. f_equal; [ | by apply IH].
    destruct f as [ | | | | | fd]; try done.
    by eapply function_resources_ids.
Qed.

Lemma for_each_concat_Forall {A} (P : value → Prop) (f : A → outcome (list value))
    (l : list A) (rss : list (list value)) :
  (∀ x rs, f x = Ok rs → Forall P rs) →
  for_each f l = Ok rss → Forall P (concat rss).
Proof.
  intros Hf. revert rss; induction l as [ | x l IH]; intros rss; simpl.
  - intros [= <-]. constructor.
  - intros Hrss. bind_ok Hrss as rs. bind_ok Hrss as rss'. injection Hrss as <-.
    simpl. apply Forall_app. split; [by eapply Hf | by apply IH].
Qed.

Lemma function_resources_Forall (P : value → Prop) (c : context) (f : value)
    (rs : list value) :
  (∀ function fn sn, function_resource c f = Ok (function, fn, sn) → P function) →
  (∀ fn sn t r, trigger_resource c fn sn t = Ok r → P r) →
  function_resources c f = Ok rs → Forall P rs.
Proof.
  intros Hfun Htrig. unfold function_resources. intros Hrs.
  bind_ok Hrs as [[function fn] sn]. bind_ok Hrs as tv. bind_ok Hrs as ts.
  bind_ok Hrs as hts. injection Hrs as <-.
  constructor; [by eapply Hfun | ].
  eapply for_each_prop; [ | eassumption]. intros t r Hr. by eapply Htrig.
Qed.

Section Expansion.
Context `{PyLib}.

(** The run of [transform] on a well-formed document that passes the two
    checks, step by step. *)
Lemma transform_expansion (e : run_env) (krm : value) :
  valid_krm krm = true →
  fails_validation (functions_of (spec_of krm)) = false →
  ∃ (d dd : gmap string value) (items : list value) (service package buildcmd : value)
    (c : context) (svc : string) (rss : list (list value)),
    krm = VDict d ∧ d !! "items" = Some (VList items) ∧
    context_of krm = Some c ∧
    service_name c = VStr svc ∧ function_defaults c = VDict dd ∧
    forallb (valid_function dd) (functions_of (spec_of krm)) = true ∧
    py_get (package_spec c) "buildcmd" VNone = Ok buildcmd ∧
    generate_package e (package_name c) (namespace c) (labels c) (package_spec c)
      (env_name c) (env_namespace c) buildcmd = Ok package ∧
    for_each (function_resources c) (functions_of (spec_of krm)) = Ok rss ∧
    transform e krm =
      (Ok (VDict (<["items" := VList (items ++ package :: concat rss)]> d)),
       VDict (<["items" := VList (items ++ package :: concat rss)]> d)).
Proof.
  intros Hvalid Hpass.
  destruct krm as [ | | | | | d]; try done. unfold valid_krm in Hvalid.
  destruct (d !! "functionConfig") as [service | ] eqn:Hservice; try done.
  destruct (d !! "items") as [[ | | | | items | ] | ] eqn:Hitems; try done.
  apply shared_context_ok in Hvalid
    as (s & m & sp & dd & p & svc & c & -> & Hm & Hsp & Hn & Hctx & Hsvc & Hdd & Hp &
        Hvp & Hfs & Hdicts).
  assert (spec_of (VDict d) = sp) as Hspec.
  { unfold spec_of. simpl. rewrite Hservice. simpl. by rewrite Hsp. }
  rewrite Hspec in Hpass |- *.
  destruct (generate_package_ok e (package_name c) (namespace c) (labels c)
              (env_name c) (env_namespace c) (default VNone (p !! "buildcmd")) p Hvp)
    as [package Hpackage].
  destruct (functions_resources_ok c svc dd (functions_of sp) Hsvc Hdd Hfs)
    as (rss & Hrss & _).
  exists d, dd, items, (VDict s), package, (default VNone (p !! "buildcmd")), c, svc, rss.
  split; [done | ]. split; [done | ].
  split; [unfold context_of; simpl; rewrite Hservice; simpl; by rewrite Hctx | ].
  split; [done | ]. split; [done | ]. split; [done | ].
  split; [by rewrite Hp | ]. split; [by rewrite Hp | ]. split; [done | ].
  rewrite (transform_prelude e d items (VDict s) (VDict sp)
             (default VNone (p !! "buildcmd")) package c Hservice Hitems Hctx)
    by (rewrite Hp; done).
  pose proof (validate_functions_dicts sp Hdicts) as Hvalidate.
  destruct (functions_of sp) as [ | f fs] eqn:Hfuns; [done | ].
  rewrite Hpass in Hvalidate.
  unfold functions_of in Hfuns.
  destruct (sp !! "functions") as [[ | | | | fs' | ] | ] eqn:Hf; try done. subst fs'.
  erewrite bind_pure_ok by exact Hvalidate.
  erewrite bind_pure_ok by (cbn [py_getitem]; rewrite Hf; reflexivity).
  erewrite bind_pure_ok by reflexivity.
  erewrite bind_M_ok
    by (apply (expand_functions_ok c (f :: fs) rss Hrss _ (items ++ [package])%list),
              lookup_insert_eq).
  unfold the_krm. by rewrite insert_insert_eq, <- app_assoc.
Qed.

(** X2. A well-formed document that passes the two checks is expanded, and
    the identities of the appended resources are, in this order: the
    Package under the package name, then for each function of the list, in
    the order of the list, its Function followed by one HTTPTrigger for each
    of the trigger entries it resolves to, all under the function's
    resource name. *)
Theorem transform_resource_identities (e : run_env) (krm : value) :
  valid_krm krm = true →
  fails_validation (functions_of (spec_of krm)) = false →
  ∃ (c : context) (svc : string) (dd : gmap string value) (krm' : value)
    (rs : list value),
    context_of krm = Some c ∧ service_name c = VStr svc ∧
    function_defaults c = VDict dd ∧
    transform e krm = (Ok krm', krm') ∧ appended krm rs krm' ∧
    resource_id <$> rs =
      (Some (VStr "Package"), Some (package_name c)) ::
      concat (function_ids svc dd <$> functions_of (spec_of krm)).
Proof.
  intros Hvalid Hpass.
  destruct (transform_expansion e krm Hvalid Hpass)
    as (d & dd & items & service & package & buildcmd & c & svc & rss & -> & Hitems &
        Hc & Hsvc & Hdd & Hfs & _ & Hpackage & Hrss & Hrun).
  exists c, svc, dd. eexists _, (package :: concat rss).
  split; [done | ]. split; [done | ]. split; [done | ].
  split; [exact Hrun | ]. split; [by exists d, items | ].
  rewrite fmap_cons. f_equal; [by eapply generate_package_id | ].
  by eapply functions_resources_ids.
Qed.

End Expansion.

Lemma transform_resource_identities_witness :
  ∃ (c : context) (svc : string) (dd : gmap string value) (krm' : value)
    (rs : list value),
    context_of two_triggers = Some c ∧ service_name c = VStr svc ∧
    function_defaults c = VDict dd ∧
    @transform Ref.lib run_a two_triggers = (Ok krm', krm') ∧
    appended two_triggers rs krm' ∧
    resource_id <$> rs =
      (Some (VStr "Package"), Some (package_name c)) ::
      concat (function_ids svc dd <$> functions_of (spec_of two_triggers)).
Proof.
  apply (@transform_resource_identities Ref.lib run_a two_triggers);
    vm_compute; reflexivity.
Defined.

(** ** What the generated resources carry *)

Lemma copy_fields_lookup (m : gmap string value) (fields : list string) :
  ∀ spec : gmap string value,
  ∃ spec', fold_each (copy_field (VDict m)) spec fields = Ok spec' ∧
           ∀ k, spec' !! k = match m !! k with
                             | Some v => if bool_decide (k ∈ fields) then Some v
                                         else spec !! k
                             | None => spec !! k
                             end.
Proof.
  induction fields as [ | field fields IH]; intros spec; simpl.
  - exists spec; split; [done | ]. intros k. by destruct (m !! k).
  - unfold copy_field at 2; simpl.
    destruct (m !! field) as [v | ] eqn:Hfield; simpl.
    + destruct (IH (<[field := v]> spec)) as (spec' & Hfold & Hlook).
      exists spec'; split; [done | ]. intros k. rewrite Hlook.
      destruct (decide (k = field)) as [-> | Hne].
      * rewrite Hfield, lookup_insert_eq.
        rewrite (bool_decide_eq_true_2 (field ∈ field :: fields))
          by (apply elem_of_cons; by left).
        by destruct (bool_decide (field ∈ fields)).
      * rewrite lookup_insert_ne by done.
        destruct (m !! k); [ | done]. by rewrite elem_of_cons_bool.
    + destruct (IH spec) as (spec' & Hfold & Hlook).
      exists spec'; split; [done | ]. intros k. rewrite Hlook.
      destruct (m !! k) eqn:Hk; [ | done].
      rewrite elem_of_cons_bool; [done | congruence].
Qed.

Lemma generate_function_meta
    (name namespace labels description function_name package_name
     package_namespace env_name env_namespace secrets configmaps func_config
     function : value) :
  generate_function name namespace labels description function_name package_name
    package_namespace env_name env_namespace secrets configmaps func_config = Ok function →
  get_path function ["apiVersion"] = Some (VStr "fission.io/v1") ∧
  resource_namespace function = Some namespace ∧
  resource_labels function = (if py_truthy labels then Some labels else None) ∧
  get_path function ["metadata"; "annotations"] =
    (if py_truthy description
     then Some (dict [("kubernetes.io/description", description)]) else None) ∧
  get_path function ["spec"; "environment"] =
    Some (dict [("name", env_name); ("namespace", env_namespace)]) ∧
  get_path function ["spec"; "package"] =
    Some (dict [("packageref", dict [("name", package_name);
                                     ("namespace", package_namespace)]);
                ("functionName", function_name)]).
Proof.
  unfold generate_function. intros Hf.
  bind_ok Hf as has. bind_ok Hf as strategy.
  match type of Hf with context [fold_each _ ?s _] => set (spec := s) in * end.
  destruct (fold_each (copy_field func_config) spec optional_fields) as [spec' | err] eqn:Hfold;
    [ | done].
  cbn [mbind outcome_bind] in Hf. injection Hf as <-.
  assert (spec' !! "environment" = spec !! "environment") as He.
  { apply (copy_fields_other func_config "environment" optional_fields); [ | done].
    unfold optional_fields. rewrite !not_elem_of_cons. repeat split; try done.
    apply not_elem_of_nil. }
  assert (spec' !! "package" = spec !! "package") as Hp.
  { apply (copy_fields_other func_config "package" optional_fields); [ | done].
    unfold optional_fields. rewrite !not_elem_of_cons. repeat split; try done.
    apply not_elem_of_nil. }
  split; [reflexivity | ].
  split; [by destruct (py_truthy description), (py_truthy labels) | ].
  split; [by destruct (py_truthy description), (py_truthy labels) | ].
  split; [by destruct (py_truthy description), (py_truthy labels) | ].
  split.
  - change (spec' !! "environment" ≫= (λ x, Some x) =
            Some (dict [("name", env_name); ("namespace", env_namespace)])).
    rewrite He. unfold spec.
    by destruct (py_truthy secrets), (py_truthy configmaps).
  - change (spec' !! "package" ≫= (λ x, Some x) =
            Some (dict [("packageref", dict [("name", package_name);
                                             ("namespace", package_namespace)]);
                        ("functionName", function_name)])).
    rewrite Hp. unfold spec.
    by destruct (py_truthy secrets), (py_truthy configmaps).
Qed.

Lemma generate_http_trigger_meta
    (name namespace labels function_name service_name short_function_name
     trigger_spec r : value) :
  generate_http_trigger name namespace labels function_name service_name
    short_function_name trigger_spec = Ok r →
  get_path r ["apiVersion"] = Some (VStr "fission.io/v1") ∧
  resource_namespace r = Some namespace ∧
  resource_labels r = (if py_truthy labels then Some labels else None) ∧
  get_path r ["spec"; "functionref"] =
    Some (dict [("type", VStr "name"); ("name", function_name)]).
Proof.
  unfold generate_http_trigger. intros Hr.
  bind_ok Hr. bind_ok Hr. bind_ok Hr. injection Hr as <-.
  split; [reflexivity | ].
  split; [by destruct (py_truthy labels) | ].
  split; [by destruct (py_truthy labels) | reflexivity].
Qed.

Lemma function_resource_generated (c : context) (f function fn sn : value) :
  function_resource c f = Ok (function, fn, sn) →
  ∃ description function_name secrets configmaps func_config,
    generate_function fn (namespace c) (labels c) description function_name
      (package_name c) (namespace c) (env_name c) (env_namespace c)
      secrets configmaps func_config = Ok function.
Proof.
  unfold function_resource. intros Hres.
  bind_ok Hres as sn'. bind_ok Hres as fn'. bind_ok Hres as cfg. bind_ok Hres as fsec.
  bind_ok Hres as secrets. bind_ok Hres as fcm. bind_ok Hres as configmaps.
  bind_ok Hres as description. bind_ok Hres as function_name.
  bind_ok Hres as function'. injection Hres as <- <- <-. eauto 10.
Qed.

Lemma trigger_resource_generated (c : context) (fn sn t r : value) :
  trigger_resource c fn sn t = Ok r →
  ∃ trigger_spec,
    generate_http_trigger fn (namespace c) (labels c) fn (service_name c) sn trigger_spec
      = Ok r.
Proof. unfold trigger_resource. intros Hr. bind_ok Hr as ts. eauto. Qed.

Section Fields.
Context `{PyLib}.

(** X3. [generate_package] fails only through the source block, with the
    failure of the source block.  Otherwise it returns a Package of API
    version fission.io/v1 with the given name and namespace, the labels if
    there are any, the environment reference, the source block if the
    specification has one, the build command if it is given and not empty,
    and build status "pending". *)
Theorem generate_package_skeleton
    (e : run_env) (name namespace labels package_spec env_name env_namespace buildcmd
     : value) :
  match package_source e package_spec with
  | Raise err =>
      generate_package e name namespace labels package_spec env_name env_namespace
        buildcmd = Raise err
  | Ok source =>
      ∃ package,
        generate_package e name namespace labels package_spec env_name env_namespace
          buildcmd = Ok package ∧
        get_path package ["apiVersion"] = Some (VStr "fission.io/v1") ∧
        resource_id package = (Some (VStr "Package"), Some name) ∧
        resource_namespace package = Some namespace ∧
        resource_labels package = (if py_truthy labels then Some labels else None) ∧
        get_path package ["spec"; "environment"] =
          Some (dict [("name", env_name); ("namespace", env_namespace)]) ∧
        get_path package ["spec"; "source"] = source ∧
        get_path package ["spec"; "buildcmd"] =
          (if py_truthy buildcmd then Some buildcmd else None) ∧
        get_path package ["status"] = Some (dict [("buildstatus", VStr "pending")])
  end.
Proof.
  unfold generate_package.
  destruct (package_source e package_spec) as [source | err]; [ | reflexivity].
  cbn [mbind outcome_bind]. eexists. split; [reflexivity | ].
  split; [reflexivity | ].
  split; [unfold resource_id; f_equal; by destruct (py_truthy labels) | ].
  split; [by destruct (py_truthy labels) | ].
  split; [by destruct (py_truthy labels) | ].
  split; [by destruct source, (py_truthy buildcmd) | ].
  split; [by destruct source, (py_truthy buildcmd) | ].
  split; [by destruct source, (py_truthy buildcmd) | reflexivity].
Qed.

Lemma generate_package_meta
    (e : run_env) (name namespace labels package_spec env_name env_namespace buildcmd
     package : value) :
  generate_package e name namespace labels package_spec env_name env_namespace buildcmd
    = Ok package →
  get_path package ["apiVersion"] = Some (VStr "fission.io/v1") ∧
  resource_namespace package = Some namespace ∧
  resource_labels package = (if py_truthy labels then Some labels else None) ∧
  get_path package ["spec"; "environment"] =
    Some (dict [("name", env_name); ("namespace", env_namespace)]).
Proof.
  unfold generate_package. intros Hp. bind_ok Hp as source. injection Hp as <-.
  split; [reflexivity | ].
  split; [by destruct (py_truthy labels) | ].
  split; [by destruct (py_truthy labels) | ].
  by destruct source, (py_truthy buildcmd).
Qed.

(** X4. Every resource [transform] appends for a well-formed document is of
    API version fission.io/v1, lies in the namespace of the Service, and
    carries the labels of the Service when it has any and no labels field
    when it has none. *)
Theorem transform_resources_carry_context (e : run_env) (krm : value) :
  valid_krm krm = true →
  fails_validation (functions_of (spec_of krm)) = false →
  ∃ (c : context) (krm' : value) (rs : list value),
    context_of krm = Some c ∧
    transform e krm = (Ok krm', krm') ∧ appended krm rs krm' ∧
    Forall (carries_context c) rs.
Proof.
  intros Hvalid Hpass.
  destruct (transform_expansion e krm Hvalid Hpass)
    as (d & dd & items & service & package & buildcmd & c & svc & rss & -> & Hitems &
        Hc & Hsvc & Hdd & Hfs & _ & Hpackage & Hrss & Hrun).
  exists c. eexists _, (package :: concat rss).
  split; [done | ]. split; [exact Hrun | ]. split; [by exists d, items | ].
  apply generate_package_meta in Hpackage as (Hapi & Hns & Hlabels & Henv).
  constructor; [done | ].
  eapply for_each_concat_Forall; [ | exact Hrss]. intros f rs Hrs.
  eapply function_resources_Forall; [ | | exact Hrs].
  - intros function fn sn (ds & fname & sec & cm & cfg & Hg)%function_resource_generated.
    apply generate_function_meta in Hg as (Ha & Hn & Hl & _). done.
  - intros fn sn t r [ts Hg]%trigger_resource_generated.
    apply generate_http_trigger_meta in Hg as (Ha & Hn & Hl & _). done.
Qed.

(** X5. In the resources appended for a well-formed document the
    references point at one another: the Package and every Function name
    the environment of the Service, every Function names the Package by
    its name and the namespace of the Service, and every HTTPTrigger names,
    by name, the Function whose resource name it carries. *)
Theorem transform_references_resolve (e : run_env) (krm : value) :
  valid_krm krm = true →
  fails_validation (functions_of (spec_of krm)) = false →
  ∃ (c : context) (krm' : value) (rs : list value),
    context_of krm = Some c ∧
    transform e krm = (Ok krm', krm') ∧ appended krm rs krm' ∧
    Forall (references_resolve c) rs.
Proof.
  intros Hvalid Hpass.
  destruct (transform_expansion e krm Hvalid Hpass)
    as (d & dd & items & service & package & buildcmd & c & svc & rss & -> & Hitems &
        Hc & Hsvc & Hdd & Hfs & _ & Hpackage & Hrss & Hrun).
  exists c. eexists _, (package :: concat rss).
  split; [done | ]. split; [exact Hrun | ]. split; [by exists d, items | ].
  pose proof (generate_package_id _ _ _ _ _ _ _ _ _ Hpackage) as Hpid.
  apply generate_package_meta in Hpackage as (Hapi & Hns & Hlabels & Henv).
  constructor.
  { unfold references_resolve, resource_id in *.
    injection Hpid as Hkind _. rewrite Hkind.
    split; [done | ]. split; intros [=]. }
  eapply for_each_concat_Forall; [ | exact Hrss]. intros f rs Hrs.
  eapply function_resources_Forall; [ | | exact Hrs].
  - intros function fn sn (ds & fname & sec & cm & cfg & Hg)%function_resource_generated.
    pose proof (generate_function_fields _ _ _ _ _ _ _ _ _ _ _ _ _ Hg) as (Hkind & _).
    apply generate_function_meta in Hg as (_ & _ & _ & _ & He & Hp).
    unfold references_resolve. rewrite Hkind.
    split; [intros [=] | ]. split; [ | intros [=]].
    intros _. split; [exact He | ].
    cbn [get_path] in Hp |- *.
    destruct function as [ | | | | | fm]; try done.
    destruct (fm !! "spec") as [[ | | | | | sm] | ]; try done.
    cbn [mbind option_bind] in Hp |- *.
    destruct (sm !! "package") as [pk | ]; [ | done].
    cbn [mbind option_bind] in Hp. injection Hp as ->. reflexivity.
  - intros fn sn t r [ts Hg]%trigger_resource_generated.
    pose proof (generate_http_trigger_id _ _ _ _ _ _ _ _ Hg) as (Hkind & Hname).
    apply generate_http_trigger_meta in Hg as (_ & _ & _ & Href).
    unfold references_resolve. rewrite Hkind, Hname.
    split; [intros [=] | ]. split; [intros [=] | ].
    intros _.
    cbn [get_path] in Href |- *.
    destruct r as [ | | | | | rm]; try done.
    destruct (rm !! "spec") as [[ | | | | | sm] | ]; try done.
    cbn [mbind option_bind] in Href |- *.
    destruct (sm !! "functionref") as [fr | ]; [ | done].
    cbn [mbind option_bind] in Href. injection Href as ->. split; reflexivity.
Qed.

End Fields.

Lemma transform_resources_carry_context_witness :
  ∃ (c : context) (krm' : value) (rs : list value),
    context_of two_triggers = Some c ∧
    @transform Ref.lib run_a two_triggers = (Ok krm', krm') ∧
    appended two_triggers rs krm' ∧
    Forall (carries_context c) rs.
Proof.
  apply (@transform_resources_carry_context Ref.lib run_a two_triggers);
    vm_compute; reflexivity.
Defined.

Lemma transform_references_resolve_witness :
  ∃ (c : context) (krm' : value) (rs : list value),
    context_of two_triggers = Some c ∧
    @transform Ref.lib run_a two_triggers = (Ok krm', krm') ∧
    appended two_triggers rs krm' ∧
    Forall (references_resolve c) rs.
Proof.
  apply (@transform_references_resolve Ref.lib run_a two_triggers);
    vm_compute; reflexivity.
Defined.

(** ** The shared context, the Function and the source block *)

Lemma get_path_step (d : gmap string value) (k : string) (ks : list string) :
  get_path (VDict d) (k :: ks) = d !! k ≫= λ x, get_path x ks.
Proof. reflexivity. Qed.

Lemma get_path_field (d : gmap string value) (k : string) :
  get_path (VDict d) [k] = d !! k.
Proof. rewrite get_path_step. by destruct (d !! k). Qed.

(** X6. The shared context [transform] derives: the namespace is that of
    the Service, "default" when it has none; the labels are those of the
    Service, none when it has none; the package name defaults to the
    service name and the namespace of the environment to that of the
    Service. *)
Theorem context_defaults (krm : value) (c : context) :
  context_of krm = Some c →
  get_path krm ["functionConfig"; "metadata"; "name"] = Some (service_name c) ∧
  namespace c =
    default (VStr "default") (get_path krm ["functionConfig"; "metadata"; "namespace"]) ∧
  labels c = default (dict []) (get_path krm ["functionConfig"; "metadata"; "labels"]) ∧
  package_spec c = default (dict []) (get_path krm ["functionConfig"; "spec"; "package"]) ∧
  package_name c =
    default (service_name c) (get_path krm ["functionConfig"; "spec"; "package"; "name"]) ∧
  get_path krm ["functionConfig"; "spec"; "environment"; "name"] = Some (env_name c) ∧
  env_namespace c =
    default (namespace c)
            (get_path krm ["functionConfig"; "spec"; "environment"; "namespace"]) ∧
  function_defaults c =
    default (dict []) (get_path krm ["functionConfig"; "spec"; "functionTemplate"]).
Proof.
  unfold context_of, shared_context. intros Hc.
  destruct krm as [ | | | | | d]; try done.
  cbn [get_path py_getitem] in Hc |- *.
  destruct (d !! "functionConfig") as [service | ]; [ | done].
  cbn [mbind outcome_bind option_bind] in Hc |- *.
  destruct service as [ | | | | | s]; try done.
  cbn [py_getitem] in Hc.
  destruct (s !! "metadata") as [metadata | ]; [ | done].
  destruct (s !! "spec") as [spec | ]; [ | done].
  cbn [mbind outcome_bind option_bind] in Hc |- *.
  destruct metadata as [ | | | | | m]; try done.
  cbn [py_getitem py_get] in Hc.
  destruct (m !! "name") as [name | ]; [ | done].
  cbn [mbind outcome_bind option_bind] in Hc |- *.
  destruct spec as [ | | | | | sp]; try done.
  cbn [py_getitem py_get mbind outcome_bind] in Hc.
  set (pspec := default (dict []) (sp !! "package")) in *.
  destruct (py_get pspec "name" name) as [pname | ] eqn:Hpname; [ | done].
  cbn [mbind outcome_bind] in Hc.
  destruct (sp !! "environment") as [env | ]; [ | done].
  cbn [mbind outcome_bind option_bind] in Hc |- *.
  destruct env as [ | | | | | en]; try done.
  cbn [py_getitem py_get] in Hc.
  destruct (en !! "name") as [ename | ]; [ | done].
  cbn [mbind outcome_bind option_bind] in Hc |- *. injection Hc as <-.
  cbn [service_name namespace labels package_spec package_name
       env_name env_namespace function_defaults].
  assert (∀ o : option value, o ≫= (λ x, Some x) = o) as Hid by (by intros []).
  rewrite !Hid.
  repeat split; try done.
  unfold pspec in Hpname.
  destruct (sp !! "package") as [pv | ]; cbn [default from_option id mbind option_bind] in *.
  - destruct pv as [ | | | | | pd]; try done. cbn [py_get] in Hpname.
    injection Hpname as <-. by rewrite Hid.
  - cbn [dict list_to_map foldr py_get] in Hpname. rewrite lookup_empty in Hpname.
    by injection Hpname as <-.
Qed.

Lemma context_defaults_witness :
  ∃ c, context_of single_unnamed = Some c ∧
       namespace c = VStr "default" ∧ package_name c = VStr "hello" ∧
       env_namespace c = VStr "default" ∧ labels c = dict [].
Proof.
  eexists. split; [vm_compute; reflexivity | ].
  match goal with |- context [namespace ?c] =>
    destruct (context_defaults single_unnamed c) as (_ & Hns & Hl & _ & Hp & _ & He & _)
  end; [vm_compute; reflexivity | ].
  split; [exact Hns | ]. split; [exact Hp | ]. split; [exact He | exact Hl].
Defined.

Lemma generate_function_lookup
    (name namespace labels description function_name package_name
     package_namespace env_name env_namespace secrets configmaps : value)
    (m : gmap string value) :
  ∃ function,
    generate_function name namespace labels description function_name package_name
      package_namespace env_name env_namespace secrets configmaps (VDict m) = Ok function ∧
    get_path function ["spec"; "InvokeStrategy"] =
      Some (default default_invoke_strategy (m !! "invokeStrategy")) ∧
    (∀ k, k ∈ optional_fields → get_path function ["spec"; k] = m !! k) ∧
    (∀ k v, get_path function ["spec"; k] = Some v → k ∈ function_spec_keys) ∧
    get_path function ["metadata"; "annotations"] =
      (if py_truthy description
       then Some (dict [("kubernetes.io/description", description)]) else None).
Proof.
  unfold generate_function. cbn [py_contains py_getitem mbind outcome_bind].
  set (strategy := default default_invoke_strategy (m !! "invokeStrategy")).
  assert ((if bool_decide (is_Some (m !! "invokeStrategy"))
           then match m !! "invokeStrategy" with
                | Some x => Ok x
                | None => Raise (KeyError "invokeStrategy")
                end
           else Ok default_invoke_strategy) = Ok strategy) as ->.
  { unfold strategy. by destruct (m !! "invokeStrategy"). }
  cbn [mbind outcome_bind].
  match goal with |- context [fold_each _ ?s _] => set (spec := s) end.
  destruct (copy_fields_lookup m optional_fields spec) as (spec' & -> & Hlook).
  cbn [mbind outcome_bind]. eexists. split; [reflexivity | ].
  assert (∀ k, get_path
     (dict [("apiVersion", VStr "fission.io/v1"); ("kind", VStr "Function");
            ("metadata", VDict
               (if py_truthy description
                then <["annotations" := dict [("kubernetes.io/description", description)]]>
                       (if py_truthy labels
                        then <["labels" := labels]>
                               (list_to_map [("name", name); ("namespace", namespace)])
                        else list_to_map [("name", name); ("namespace", namespace)])
                else if py_truthy labels
                     then <["labels" := labels]>
                            (list_to_map [("name", name); ("namespace", namespace)])
                     else list_to_map [("name", name); ("namespace", namespace)]));
            ("spec", VDict spec')]) ["spec"; k] = spec' !! k) as Hspec.
  { intros k. change (spec' !! k ≫= (λ x, Some x) = spec' !! k). by destruct (spec' !! k). }
  assert (∀ k, spec !! k = Some (default default_invoke_strategy (m !! "invokeStrategy"))
            ∧ k = "InvokeStrategy" ∨
          k ≠ "InvokeStrategy" ∧
          (spec !! k = None ∨ k ∈ ["environment"; "package"; "secrets"; "configmaps"]))
    as Hinit.
  { intros k. unfold spec. destruct (decide (k = "InvokeStrategy")) as [-> | Hne].
    - left. by rewrite lookup_insert_eq.
    - right. split; [done | ]. rewrite lookup_insert_ne by done.
      destruct (decide (k ∈ ["environment"; "package"; "secrets"; "configmaps"]))
        as [Hin | Hnotin]; [by right | left].
      rewrite !not_elem_of_cons in Hnotin. destruct Hnotin as (? & ? & ? & ? & _).
      destruct (py_truthy configmaps), (py_truthy secrets);
        cbn [list_to_map foldr fst snd];
        rewrite ?lookup_insert_ne by done; apply lookup_empty. }
  split.
  - rewrite Hspec, Hlook.
    assert (bool_decide ("InvokeStrategy" ∈ optional_fields) = false) as ->
      by (by vm_compute).
    destruct (Hinit "InvokeStrategy") as [[-> _] | [? _]]; [ | done].
    by destruct (m !! "InvokeStrategy").
  - split; [ | split].
    + intros k Hk. rewrite Hspec, Hlook. rewrite (bool_decide_eq_true_2 _ Hk).
      destruct (m !! k) eqn:Hmk; [done | ].
      destruct (Hinit k) as [[_ ->] | [_ [Hn | Hin]]].
      * by vm_compute in Hk; repeat (apply elem_of_cons in Hk as [? | Hk]; [done | ]);
          apply elem_of_nil in Hk.
      * done.
      * exfalso. unfold optional_fields in Hk.
        repeat (apply elem_of_cons in Hin as [-> | Hin];
                [repeat (apply elem_of_cons in Hk as [? | Hk]; [done | ]);
                 by apply elem_of_nil in Hk | ]).
        by apply elem_of_nil in Hin.
    + intros k v. rewrite Hspec, Hlook. unfold function_spec_keys. intros Hv.
      apply elem_of_app.
      destruct (decide (k ∈ optional_fields)) as [Hin | Hnotin]; [by right | left].
      rewrite (bool_decide_eq_false_2 _ Hnotin) in Hv.
      assert (spec !! k = Some v) as Hs by (by destruct (m !! k)).
      destruct (Hinit k) as [[_ ->] | [_ [Hn | Hin]]].
      * rewrite !elem_of_cons. tauto.
      * congruence.
      * rewrite !elem_of_cons in Hin. rewrite !elem_of_cons.
        destruct Hin as [? | [? | [? | [? | ?]]]]; auto 10.
    + by destruct (py_truthy description), (py_truthy labels).
Qed.


Section Source.
Context `{PyLib}.

(** X8. A source block that does not take the literal path (it has no
    literal, or its explicit type is not "literal") is copied into the
    Package: the type is kept, and is "url" when the block has none; a
    checksum that is a mapping without a type gets type "sha256", any other
    checksum is kept; every other key is kept as it is, the unpacked
    literal of a block of another type included. *)
Theorem package_source_copied (e : run_env) (p s : gmap string value) :
  p !! "source" = Some (VDict s) →
  takes_literal_path s = false →
  ∃ s', package_source e (VDict p) = Ok (Some (VDict s')) ∧
        s' !! "type" = Some (default (VStr "url") (s !! "type")) ∧
        s' !! "checksum" = normalized_checksum (s !! "checksum") ∧
        ∀ k, k ≠ "type" → k ≠ "checksum" → s' !! k = s !! k.
Proof.
  intros Hsrc Hpath. unfold package_source.
  cbn [py_contains py_getitem mbind outcome_bind]. rewrite Hsrc, contains_some.
  cbn [mbind outcome_bind].
  set (t := default (VStr "url") (s !! "type")).
  assert (∃ inferred,
            inferred_type (VDict s) = Ok inferred ∧
            (if is_str "literal" inferred then has_key "literal" s else false) = false ∧
            (if has_key "type" s then VDict s
             else VDict (<["type" := if py_truthy inferred then inferred else VStr "url"]> s))
            = VDict (<["type" := t]> s)) as (inferred & -> & Hnot & Htyped).
  { unfold inferred_type, takes_literal_path, has_key in *. unfold t.
    cbn [py_contains py_getitem mbind outcome_bind].
    destruct (s !! "type") as [ty | ] eqn:Hty; rewrite ?contains_some, ?contains_none.
    - eexists. split; [reflexivity | ]. split.
      + destruct (is_str "literal" ty); [ | done].
        by rewrite andb_true_r in Hpath.
      + cbn [default from_option id]. by rewrite insert_id.
    - rewrite andb_true_r in Hpath. rewrite Hpath. cbn [mbind outcome_bind].
      destruct (bool_decide (is_Some (s !! "url"))); eexists; (split; [reflexivity | done]). }
  cbn [mbind outcome_bind]. rewrite py_eq_literal. cbn [mbind outcome_bind].
  assert ((if is_str "literal" inferred then py_contains "literal" (VDict s) else Ok false)
          = Ok false) as ->.
  { cbn [py_contains]. unfold has_key in Hnot. destruct (is_str "literal" inferred); congruence. }
  cbn [mbind outcome_bind]. unfold copied_source.
  cbn [py_contains mbind outcome_bind].
  assert ((if bool_decide (is_Some (s !! "type")) then Ok (VDict s)
           else py_setitem (VDict s) "type"
                  (if py_truthy inferred then inferred else VStr "url"))
          = Ok (VDict (<["type" := t]> s))) as ->.
  { unfold has_key in Htyped. rewrite <- Htyped.
    by destruct (bool_decide (is_Some (s !! "type"))). }
  cbn [py_contains py_getitem mbind outcome_bind].
  rewrite lookup_insert_ne by done.
  destruct (s !! "checksum") as [checksum | ] eqn:Hck;
    rewrite ?contains_some, ?contains_none; cbn [mbind outcome_bind normalized_checksum].
  - destruct checksum as [ | | | | | ck]; cbn [isinstance_dict mbind outcome_bind py_contains];
      try (eexists; split; [reflexivity | ];
           split; [by rewrite lookup_insert_eq | ];
           split; [by rewrite lookup_insert_ne | ];
           by intros k Hk _; rewrite lookup_insert_ne).
    unfold has_key. destruct (bool_decide (is_Some (ck !! "type")));
      cbn [py_setitem mbind outcome_bind]; eexists; (split; [reflexivity | ]).
    + split; [by rewrite lookup_insert_eq | ].
      split; [by rewrite lookup_insert_ne | ].
      by intros k Hk _; rewrite lookup_insert_ne.
    + split; [by rewrite lookup_insert_ne, lookup_insert_eq | ].
      split; [by rewrite lookup_insert_eq | ].
      by intros k Hk Hk'; rewrite !lookup_insert_ne.
  - eexists. split; [reflexivity | ].
    split; [by rewrite lookup_insert_eq | ].
    split; [by rewrite lookup_insert_ne | ].
    by intros k Hk _; rewrite lookup_insert_ne.
Qed.

End Source.

Lemma package_source_copied_witness :
  ∃ s', package_source (H := Ref.lib) run_a
          (dict [("source", VDict url_source_with_literal)]) = Ok (Some (VDict s')) ∧
        s' !! "type" = Some (VStr "url") ∧
        s' !! "checksum" = Some (dict [("type", VStr "sha256"); ("sum", VStr "00")]) ∧
        s' !! "literal" = Some (VStr "def main(): pass").
Proof.
  destruct (package_source_copied (H := Ref.lib) run_a
              (list_to_map [("source", VDict url_source_with_literal)])
              url_source_with_literal) as (s' & Hs & Ht & Hc & Hk);
    [vm_compute; reflexivity | vm_compute; reflexivity | ].
  exists s'. split; [exact Hs | ]. split; [exact Ht | ].
  split; [rewrite Hc; vm_compute; reflexivity | ].
  rewrite Hk by done. vm_compute; reflexivity.
Defined.

(** ** Merging, names, failures and routes *)


Lemma append_inj_r (s a b : string) : s +:+ a = s +:+ b → a = b.
Proof. induction s as [ | c s IH]; simpl; [done | ]. intros [= Heq]. by apply IH. Qed.

Lemma NoDup_fmap_iff {A B C} (f : A → B) (g : A → C) (l : list A) :
  (∀ x y, x ∈ l → y ∈ l → f x = f y ↔ g x = g y) →
  NoDup (f <$> l) ↔ NoDup (g <$> l).
Proof.
  induction l as [ | a l IH]; intros Hfg; [split; intros _; constructor | ].
  rewrite !fmap_cons, !NoDup_cons, !list_elem_of_fmap.
  rewrite IH by (intros x y Hx Hy; apply Hfg; by right).
  assert ((∃ y, f a = f y ∧ y ∈ l) ↔ (∃ y, g a = g y ∧ y ∈ l)) as Hex.
  { split; intros (y & Heq & Hy); exists y; (split; [ | done]);
      (apply (Hfg a y); [by left | by right | done]). }
  by rewrite Hex.
Qed.

Lemma filter_function_ids (svc : string) (dd : gmap string value) (fs : list value) :
  forallb (valid_function dd) fs = true →
  names_of_kind "Function" (concat (function_ids svc dd <$> fs))
  = (λ f, match f with
          | VDict fd => Some (VStr (name_of svc fd))
          | _ => None
          end) <$> fs.
Proof.
  unfold names_of_kind. induction fs as [ | f fs IH]; [done | ].
  cbn [forallb]. intros [Hf Hfs]%andb_prop.
  rewrite fmap_cons. cbn [concat].
  rewrite List.filter_app, fmap_app, (IH Hfs), fmap_cons.
  destruct f as [ | | | | | fd]; try done. cbn [function_ids List.filter of_kind fst is_str].
  rewrite bool_decide_eq_true_2 by done. rewrite fmap_cons. cbn [snd app].
  assert (∀ n, List.filter (of_kind "Function")
                 (replicate n (Some (VStr "HTTPTrigger"), Some (VStr (name_of svc fd)))) = [])
    as ->; [ | done].
  intros n. induction n as [ | n IHn]; [done | ]. cbn [replicate List.filter].
  by rewrite IHn.
Qed.

Lemma named_function (dd : gmap string value) (f : value) :
  valid_function dd f = true → lacks_name f = false →
  ∃ fd n, f = VDict fd ∧ fd !! "name" = Some (VStr n).
Proof.
  destruct f as [ | | | | | fd]; try done. intros Hv Hn.
  destruct (valid_function_inv dd fd Hv) as (Hname & _).
  unfold lacks_name, has_key in Hn. apply negb_false_iff, bool_decide_eq_true in Hn.
  destruct Hn as [v Hv']. rewrite Hv' in Hname. destruct v; try done. eauto.
Qed.

Section Names.
Context `{PyLib}.

(** X10. On a well-formed document that passes the two checks, the
    Function resources [transform] appends have pairwise distinct names
    exactly when the functions have pairwise distinct explicit names: the
    prefix with the service name keeps distinct names apart, and two
    functions of the same name give two Functions of the same name. *)
Theorem function_names_distinct (e : run_env) (krm : value) :
  valid_krm krm = true →
  fails_validation (functions_of (spec_of krm)) = false →
  ∃ krm' rs,
    transform e krm = (Ok krm', krm') ∧ appended krm rs krm' ∧
    (NoDup (names_of_kind "Function" (resource_id <$> rs)) ↔
     NoDup ((λ f, get_path f ["name"]) <$> functions_of (spec_of krm))).
Proof.
  intros Hvalid Hpass.
  destruct (transform_expansion e krm Hvalid Hpass)
    as (d & dd & items & service & package & buildcmd & c & svc & rss &
        -> & Hitems & Hc & Hsvc & Hdd & Hfs & Hb & Hp & Hrss & Hrun).
  eexists _, (package :: concat rss). split; [exact Hrun | ].
  split; [by exists d, items | ].
  rewrite fmap_cons, (functions_resources_ids c svc dd _ rss Hsvc Hdd Hfs Hrss).
  unfold names_of_kind at 1. cbn [List.filter]. unfold of_kind at 1.
  rewrite (generate_package_id _ _ _ _ _ _ _ _ _ Hp). cbn [fst is_str].
  rewrite bool_decide_eq_false_2 by done.
  fold (names_of_kind "Function"
          (concat (function_ids svc dd <$> functions_of (spec_of (VDict d))))).
  rewrite (filter_function_ids svc dd _ Hfs).
  set (fs := functions_of (spec_of (VDict d))) in *. clearbody fs.
  destruct (existsb lacks_name fs) eqn:Hlack.
  - destruct fs as [ | f [ | f' fs]]; [done | | ].
    + split; intros _; apply NoDup_singleton.
    + unfold fails_validation in Hpass. rewrite Hlack in Hpass. done.
  - apply NoDup_fmap_iff. intros x y Hx Hy.
    assert (∀ z, z ∈ fs → ∃ fd n, z = VDict fd ∧ fd !! "name" = Some (VStr n)) as Hnamed.
    { intros z Hz. apply (named_function dd).
      - by apply (forallb_elem_of (valid_function dd) fs).
      - destruct (lacks_name z) eqn:Hz'; [ | done].
        assert (existsb lacks_name fs = true) as Hex; [ | congruence].
        apply existsb_exists. exists z. split; [by apply list_elem_of_In | done]. }
    destruct (Hnamed x Hx) as (fx & nx & -> & Hnx).
    destruct (Hnamed y Hy) as (fy & ny & -> & Hny).
    unfold name_of, short_of. cbn [get_path]. rewrite Hnx, Hny. cbn [mbind option_bind].
    split.
    + intros [= Heq%append_inj_r%append_inj_r]. by subst.
    + intros [= ->]. done.
Qed.

End Names.

Lemma function_names_distinct_witness :
  ∃ krm' rs,
    transform (H := Ref.lib) run_a two_named = (Ok krm', krm') ∧
    appended two_named rs krm' ∧
    NoDup (names_of_kind "Function" (resource_id <$> rs)).
Proof.
  destruct (function_names_distinct (H := Ref.lib) run_a two_named)
    as (krm' & rs & Hrun & Happ & Hiff);
    [vm_compute; reflexivity | vm_compute; reflexivity | ].
  exists krm', rs. split; [exact Hrun | ]. split; [exact Happ | ].
  apply Hiff. vm_compute.
  apply NoDup_cons. split; [ | apply NoDup_singleton].
  rewrite list_elem_of_singleton. discriminate.
Defined.

Lemma shared_context_template (service spec : value) (c : context) :
  shared_context service = Ok (spec, c) →
  py_get spec "functionTemplate" (dict []) = Ok (function_defaults c).
Proof.
  unfold shared_context. intros Hc.
  bind_ok Hc as metadata. bind_ok Hc as spec'. bind_ok Hc as name. bind_ok Hc as ns.
  bind_ok Hc as lbls. bind_ok Hc as pkg. bind_ok Hc as pname. bind_ok Hc as en.
  bind_ok Hc as ename. bind_ok Hc as ens. bind_ok Hc as dflt.
  by injection Hc as <- <-.
Qed.

Lemma merge_into_none (overrides config : value) (ks : list string) :
  fold_each (override_key overrides) VNone ks = Ok config → config = VNone.
Proof.
  induction ks as [ | k ks IH]; cbn [fold_each]; [by intros [= <-] | ].
  intros Hm. bind_ok Hm as cfg. unfold override_key in E.
  bind_ok E as has. destruct has.
  - bind_ok E as v. discriminate E.
  - injection E as <-. by apply IH.
Qed.

Lemma function_resource_null_template (c : context) (f : value) :
  function_defaults c = VNone → ∃ err, function_resource c f = Raise err.
Proof.
  intros Hnull. unfold function_resource. rewrite Hnull.
  destruct (short_name f (service_name c)) as [sn | ]; cbn [mbind outcome_bind]; [ | eauto].
  destruct (func_name f (service_name c) sn) as [fn | ]; cbn [mbind outcome_bind]; [ | eauto].
  destruct (merge_function_config VNone f) as [cfg | ] eqn:Hcfg;
    cbn [mbind outcome_bind]; [ | eauto].
  apply merge_into_none in Hcfg as ->.
  destruct (func_secrets f VNone) as [ss | ]; cbn [mbind outcome_bind]; [ | eauto].
  destruct (normalize_refs ss (namespace c)) as [secrets | ];
    cbn [mbind outcome_bind]; [ | eauto].
  destruct (func_configmaps f VNone) as [cs | ]; cbn [mbind outcome_bind]; [ | eauto].
  destruct (normalize_refs cs (namespace c)) as [configmaps | ];
    cbn [mbind outcome_bind]; [ | eauto].
  destruct (py_get f "description" VNone) as [description | ];
    cbn [mbind outcome_bind]; [ | eauto].
  destruct (py_getitem f "functionName") as [function_name | ];
    cbn [mbind outcome_bind]; [ | eauto].
  unfold generate_function. cbn [py_contains mbind outcome_bind]. eauto.
Qed.

Lemma truthy_iter_nonempty (v : value) (fs : list value) :
  py_truthy v = true → py_iter v = Ok fs → ∃ f fs', fs = f :: fs'.
Proof.
  destruct v as [ | | | s | l | d]; try done; cbn [py_truthy py_iter].
  - intros Hs [= <-]. destruct s as [ | a s]; [done | ]. cbn. eauto.
  - intros Hl [= <-]. destruct l; [done | eauto].
  - intros Hd [= <-]. apply negb_true_iff, bool_decide_eq_false in Hd.
    destruct (map_to_list d) as [ | kv l] eqn:Hl; [ | cbn; eauto].
    by apply map_to_list_empty_iff in Hl.
Qed.

Lemma validated_functions (spec : value) :
  validate_functions spec = Ok () →
  ∃ v f fs, py_getitem spec "functions" = Ok v ∧ py_iter v = Ok (f :: fs).
Proof.
  unfold validate_functions. intros Hv. bind_ok Hv as functions_list.
  destruct (py_truthy functions_list) eqn:Htruthy; [ | discriminate Hv].
  cbn [negb] in Hv. bind_ok Hv as fs.
  destruct (truthy_iter_nonempty _ _ Htruthy E0) as (f & fs' & ->).
  destruct spec as [ | | | | | sp]; try discriminate E. cbn [py_get] in E.
  injection E as <-. cbn [py_getitem].
  destruct (sp !! "functions") as [v | ]; [ | done]. eauto.
Qed.

Section NullTemplate.
Context `{PyLib}.

(** X11. A Service whose [functionTemplate] is null (the key written with
    no value) is never expanded: [transform] raises on every such
    document, and what it leaves behind is the document as it was or the
    document with only the Package appended. *)
Theorem null_template_fails (e : run_env) (krm : value) :
  get_path krm ["functionConfig"; "spec"; "functionTemplate"] = Some VNone →
  ∃ err krm',
    transform e krm = (Raise err, krm') ∧
    (krm' = krm ∨
     ∃ package, resource_kind package = Some (VStr "Package") ∧ appended krm [package] krm').
Proof.
  intros Hnull.
  destruct (transform_cases e krm)
    as [[err Hrun] | (service & spec & c & package & krm1 & Hs & Hc & Hk & Happ & Hrun)].
  - exists err, krm. eauto.
  - assert (function_defaults c = VNone) as Hdd.
    { pose proof (shared_context_template _ _ _ Hc) as Ht.
      pose proof (shared_context_spec _ _ _ Hc) as Hsp.
      destruct krm as [ | | | | | k]; try discriminate Hs. cbn [py_getitem] in Hs.
      cbn [get_path] in Hnull. destruct (k !! "functionConfig") as [s | ]; [ | done].
      injection Hs as ->. cbn [mbind option_bind] in Hnull.
      destruct service as [ | | | | | s]; try discriminate Hsp. cbn [py_getitem] in Hsp.
      destruct (s !! "spec") as [sp | ]; [ | done]. injection Hsp as ->.
      cbn [mbind option_bind] in Hnull.
      destruct spec as [ | | | | | sp]; try discriminate Ht. cbn [py_get] in Ht.
      destruct (sp !! "functionTemplate") as [t | ]; [ | done].
      cbn [mbind option_bind get_path default from_option id] in Hnull, Ht. congruence. }
    rewrite Hrun.
    destruct (validate_functions spec) as [[] | err] eqn:Hv.
    + destruct (validated_functions spec Hv) as (v & f & fs & Hget & Hiter).
      destruct (function_resource_null_template c f Hdd) as [err Hf].
      exists err, krm1. split; [ | right; eauto].
      rewrite (bind_pure_ok _ () _ _ eq_refl).
      rewrite (bind_pure_ok _ v _ _ Hget), (bind_pure_ok _ (f :: fs) _ _ Hiter).
      apply bind_M_raise. cbn [for_each_M]. apply bind_M_raise.
      unfold expand_function. by apply bind_pure_raise.
    + exists err, krm1. split; [ | right; eauto].
      by rewrite (bind_pure_raise _ err _ _ eq_refl).
Qed.

End NullTemplate.

Lemma null_template_fails_witness :
  ∃ err krm',
    transform (H := Ref.lib) run_a null_template_doc = (Raise err, krm') ∧
    (krm' = null_template_doc ∨
     ∃ package, resource_kind package = Some (VStr "Package") ∧
                appended null_template_doc [package] krm').
Proof. apply (null_template_fails (H := Ref.lib)). vm_compute; reflexivity. Defined.

Section Required.
Context `{PyLib}.

Lemma transform_no_context (e : run_env) (krm : value) (err : error) :
  py_getitem krm "functionConfig" ≫= shared_context = Raise err →
  transform e krm = (Raise err, krm).
Proof.
  intros Hc. unfold transform. rewrite (bind_M_ok the_krm krm _ krm krm eq_refl).
  destruct (py_getitem krm "functionConfig") as [service | err'] eqn:Hs.
  - rewrite (bind_pure_ok _ service _ _ eq_refl). cbn [mbind outcome_bind] in Hc.
    by apply bind_pure_raise.
  - cbn [mbind outcome_bind] in Hc. injection Hc as ->. by apply bind_pure_raise.
Qed.

(** X12. The keys [transform] indexes without a default, in the order it
    reads them: when the first one missing is [functionConfig], the
    Service's [metadata], its [spec], the name of the Service, the
    [environment] or the name of the environment, [transform] raises the
    KeyError of that key and leaves the document as it was; so it does
    when the document of a well-formed Service has no [items], which it
    finds out only after generating the Package. *)
Theorem missing_required_key (e : run_env) (k : gmap string value) :
  (k !! "functionConfig" = None →
   transform e (VDict k) = (Raise (KeyError "functionConfig"), VDict k)) ∧
  (∀ s, k !! "functionConfig" = Some (VDict s) → s !! "metadata" = None →
   transform e (VDict k) = (Raise (KeyError "metadata"), VDict k)) ∧
  (∀ s metadata, k !! "functionConfig" = Some (VDict s) →
   s !! "metadata" = Some metadata → s !! "spec" = None →
   transform e (VDict k) = (Raise (KeyError "spec"), VDict k)) ∧
  (∀ s m spec, k !! "functionConfig" = Some (VDict s) →
   s !! "metadata" = Some (VDict m) → s !! "spec" = Some spec → m !! "name" = None →
   transform e (VDict k) = (Raise (KeyError "name"), VDict k)) ∧
  (∀ s m sp, k !! "functionConfig" = Some (VDict s) →
   s !! "metadata" = Some (VDict m) → s !! "spec" = Some (VDict sp) →
   is_Some (m !! "name") → opt_all isinstance_dict (sp !! "package") = true →
   sp !! "environment" = None →
   transform e (VDict k) = (Raise (KeyError "environment"), VDict k)) ∧
  (∀ s m sp en, k !! "functionConfig" = Some (VDict s) →
   s !! "metadata" = Some (VDict m) → s !! "spec" = Some (VDict sp) →
   is_Some (m !! "name") → opt_all isinstance_dict (sp !! "package") = true →
   sp !! "environment" = Some (VDict en) → en !! "name" = None →
   transform e (VDict k) = (Raise (KeyError "name"), VDict k)) ∧
  (∀ service, k !! "functionConfig" = Some service → valid_service service = true →
   k !! "items" = None →
   transform e (VDict k) = (Raise (KeyError "items"), VDict k)).
Proof.
  repeat split.
  - intros Hk. apply transform_no_context. cbn [py_getitem]. by rewrite Hk.
  - intros s Hk Hm. apply transform_no_context. cbn [py_getitem]. rewrite Hk.
    cbn [mbind outcome_bind]. unfold shared_context. cbn [py_getitem]. by rewrite Hm.
  - intros s metadata Hk Hm Hsp. apply transform_no_context. cbn [py_getitem]. rewrite Hk.
    cbn [mbind outcome_bind]. unfold shared_context. cbn [py_getitem]. rewrite Hm.
    cbn [mbind outcome_bind]. by rewrite Hsp.
  - intros s m spec Hk Hm Hsp Hn. apply transform_no_context. cbn [py_getitem]. rewrite Hk.
    cbn [mbind outcome_bind]. unfold shared_context. cbn [py_getitem]. rewrite Hm.
    cbn [mbind outcome_bind]. rewrite Hsp. cbn [mbind outcome_bind py_getitem]. by rewrite Hn.
  - intros s m sp Hk Hm Hsp [n Hn] Hp He. apply transform_no_context.
    cbn [py_getitem]. rewrite Hk.
    cbn [mbind outcome_bind]. unfold shared_context. cbn [py_getitem py_get]. rewrite Hm.
    cbn [mbind outcome_bind]. rewrite Hsp. cbn [mbind outcome_bind py_getitem]. rewrite Hn.
    cbn [mbind outcome_bind py_get].
    destruct (sp !! "package") as [[ | | | | | p] | ]; try done;
      cbn [default from_option id dict py_get mbind outcome_bind]; by rewrite He.
  - intros s m sp en Hk Hm Hsp [n Hn] Hp He Hen. apply transform_no_context.
    cbn [py_getitem]. rewrite Hk.
    cbn [mbind outcome_bind]. unfold shared_context. cbn [py_getitem py_get]. rewrite Hm.
    cbn [mbind outcome_bind]. rewrite Hsp. cbn [mbind outcome_bind py_getitem]. rewrite Hn.
    cbn [mbind outcome_bind py_get].
    destruct (sp !! "package") as [[ | | | | | p] | ]; try done;
      cbn [default from_option id dict py_get mbind outcome_bind]; rewrite He;
      cbn [mbind outcome_bind py_getitem]; by rewrite Hen.
  - intros service Hk Hvalid Hitems.
    destruct (shared_context_ok service Hvalid)
      as (s & m & sp & dd & p & svc & c & -> & Hm & Hsp & Hn & Hc & Hsvc & Hdd & Hp & Hvp
          & _).
    destruct (generate_package_ok e (package_name c) (namespace c) (labels c)
                (env_name c) (env_namespace c) (default VNone (p !! "buildcmd")) p Hvp)
      as [package Hpackage].
    unfold transform. rewrite (bind_M_ok the_krm (VDict k) _ (VDict k) (VDict k) eq_refl).
    rewrite (bind_pure_ok _ (VDict s) _ _); [ | cbn [py_getitem]; by rewrite Hk].
    rewrite (bind_pure_ok _ _ _ _ Hc). rewrite Hp.
    rewrite (bind_pure_ok (py_get (VDict p) "buildcmd" VNone)
               (default VNone (p !! "buildcmd")) _ _ eq_refl).
    rewrite (bind_pure_ok _ _ _ _ Hpackage).
    apply bind_M_raise. unfold items_append. cbn [py_getitem]. by rewrite Hitems.
Qed.

End Required.

Lemma missing_required_key_witness :
  transform (H := Ref.lib) run_a (VDict no_environment_doc)
  = (Raise (KeyError "environment"), VDict no_environment_doc).
Proof.
  destruct (missing_required_key (H := Ref.lib) run_a no_environment_doc)
    as (_ & _ & _ & _ & Henv & _).
  eapply Henv; try (vm_compute; reflexivity). vm_compute. eauto.
Defined.

Lemma for_each_Forall2 {A B} (R : A → B → Prop) (f : A → outcome B) (l : list A) :
  Forall (λ x, ∃ y, f x = Ok y ∧ R x y) l →
  ∃ ys, for_each f l = Ok ys ∧ Forall2 R l ys.
Proof.
  induction 1 as [ | x l (y & Hy & HR) _ (ys & Hys & IH)]; cbn [for_each].
  - exists []. by split.
  - exists (y :: ys). rewrite Hy. cbn [mbind outcome_bind]. rewrite Hys.
    split; [done | by constructor].
Qed.

Lemma trigger_resource_route (c : context) (svc short : string) (fn trigger : value) :
  service_name c = VStr svc → valid_trigger trigger = true →
  ∃ r, trigger_resource c fn (VStr short) trigger = Ok r ∧
       get_path r ["spec"; "relativeurl"] = Some (route_of svc short trigger) ∧
       get_path r ["spec"; "functionref"; "name"] = Some fn.
Proof.
  intros Hsvc Hvalid. destruct trigger as [ | | | | | t]; try done.
  unfold trigger_resource, route_of, default_route. cbn [py_get valid_trigger] in *.
  change (get_path (VDict t) ["http"; "path"]) with (t !! "http" ≫= λ x, get_path x ["path"]).
  rewrite Hsvc.
  assert (∀ ts : gmap string value,
    ∃ r, generate_http_trigger fn (namespace c) (labels c) fn (VStr svc) (VStr short)
           (VDict ts) = Ok r ∧
         get_path r ["spec"; "relativeurl"] =
           Some (default (if bool_decide (short = svc) then VStr ("/" +:+ svc)
                          else VStr ("/" +:+ svc +:+ "/" +:+ short)) (ts !! "path")) ∧
         get_path r ["spec"; "functionref"; "name"] = Some fn) as Hgen.
  { intros ts. unfold generate_http_trigger. rewrite trigger_path_str.
    cbn [py_get mbind outcome_bind]. eexists. split; [reflexivity | ].
    split; [ | reflexivity]. by destruct (ts !! "path"). }
  assert ((t !! "http" ≫= λ x, get_path x ["path"])
          = match t !! "http" with
            | Some (VDict ts) => ts !! "path"
            | _ => None
            end) as ->.
  { destruct (t !! "http") as [[ | | | | | ts] | ]; try done.
    cbn [mbind option_bind get_path]. by destruct (ts !! "path"). }
  destruct (t !! "http") as [[ | | | | | ts] | ]; try done;
    cbn [default from_option id mbind outcome_bind opt_all dict list_to_map foldr].
  - destruct (Hgen ts) as (r & Hr & Hroute & Href). by exists r.
  - destruct (Hgen ∅) as (r & Hr & Hroute & Href). exists r.
    split; [exact Hr | ]. split; [ | exact Href]. by rewrite Hroute, lookup_empty.
Qed.

(** X13. The loop body passes the resource name of the function to its
    triggers as their name and as the function they call, and the short
    name for the route: every HTTPTrigger of a function calls the Function
    generated for it, on the path of its entry or, without one, on
    /<service> when the short name is the service name and on
    /<service>/<name> otherwise.  The two rules differ on a function whose
    explicit name is the service name: its Function is named
    <service>-<service> and its route is /<service>, that of an unnamed
    function. *)
Theorem trigger_routes (c : context) (svc : string) (dd fd : gmap string value) :
  service_name c = VStr svc → function_defaults c = VDict dd →
  valid_function dd (VDict fd) = true →
  ∃ function http_triggers,
    function_resources c (VDict fd) = Ok (function :: http_triggers) ∧
    resource_name function = Some (VStr (name_of svc fd)) ∧
    Forall2 (λ trigger r,
               get_path r ["spec"; "relativeurl"]
                 = Some (route_of svc (short_of svc fd) trigger) ∧
               get_path r ["spec"; "functionref"; "name"] = Some (VStr (name_of svc fd)))
            (triggers_of fd dd) http_triggers ∧
    (fd !! "name" = Some (VStr svc) →
     name_of svc fd = svc +:+ "-" +:+ svc ∧
     default_route svc (short_of svc fd) = VStr ("/" +:+ svc)).
Proof.
  intros Hsvc Hdd Hvalid.
  destruct (function_resource_ok c svc dd fd Hsvc Hdd Hvalid)
    as (function & Hfunction & Hkind & Hname).
  apply valid_function_inv in Hvalid as (_ & _ & _ & _ & Ht).
  unfold triggers_of.
  destruct (pick "triggers" fd dd) as [ | | | | triggers | ] eqn:Hpick; try done.
  cbn [valid_triggers] in Ht.
  destruct (for_each_Forall2
              (λ trigger r,
                 get_path r ["spec"; "relativeurl"]
                   = Some (route_of svc (short_of svc fd) trigger) ∧
                 get_path r ["spec"; "functionref"; "name"] = Some (VStr (name_of svc fd)))
              (trigger_resource c (VStr (name_of svc fd)) (VStr (short_of svc fd))) triggers)
    as (hts & Hhts & Hall).
  { apply Forall_forall. intros t Hin. apply (trigger_resource_route c svc); [done | ].
    by apply (forallb_elem_of _ triggers). }
  exists function, hts. split; [ | split; [exact Hname | split; [exact Hall | ]]].
  - unfold function_resources. rewrite Hfunction. cbn [mbind outcome_bind].
    rewrite Hdd, func_triggers_pick, Hpick. cbn [mbind outcome_bind py_iter].
    by rewrite Hhts.
  - intros Hn. unfold name_of, short_of, default_route. rewrite Hn.
    by rewrite bool_decide_eq_true_2.
Qed.

Lemma trigger_routes_witness :
  ∃ function http_trigger,
    function_resources context_example (VDict named_as_service)
      = Ok [function; http_trigger] ∧
    resource_name function = Some (VStr "api-api") ∧
    get_path http_trigger ["spec"; "relativeurl"] = Some (VStr "/api") ∧
    get_path http_trigger ["spec"; "functionref"; "name"] = Some (VStr "api-api").
Proof.
  destruct (trigger_routes context_example "api" ∅ named_as_service)
    as (function & hts & Hrun & Hname & Hall & _); try (vm_compute; reflexivity).
  assert (triggers_of named_as_service ∅ = [http_entry]) as Ht by (vm_compute; reflexivity).
  rewrite Ht in Hall.
  destruct hts as [ | r [ | r' hts]];
    [exfalso; inversion Hall | | exfalso; inversion Hall as [ | ? ? ? ? _ Hnil]; inversion Hnil].
  exists function, r. split; [exact Hrun | ]. split; [exact Hname | ].
  apply Forall2_cons_1 in Hall as [[Hroute Href] _]. split; [exact Hroute | exact Href].
Defined.

(** ** The Service test and the update publish writes *)

Lemma prefix_app (a b : string) : String.prefix a (a +:+ b) = true.
Proof.
  induction a as [ | c a IH]; simpl; [by destruct b | ].
  destruct (Ascii.ascii_dec c c); [exact IH | done].
Qed.

(** X14. The test [pack] and [publish] make on the document: it passes
    exactly when the kind is the string "Service" and the API version is
    a string that starts with the group name; any continuation of the
    group name passes, a version or not; a missing API version fails the
    test, and one that is not a string raises. *)
Theorem not_a_service_spec (s : gmap string value) :
  (not_a_service (VDict s) = Ok false ↔
   s !! "kind" = Some (VStr "Service") ∧
   ∃ v, s !! "apiVersion" = Some (VStr v) ∧ String.prefix api_group v = true) ∧
  (∀ rest, s !! "kind" = Some (VStr "Service") →
           s !! "apiVersion" = Some (VStr (api_group +:+ rest)) →
           not_a_service (VDict s) = Ok false) ∧
  (s !! "apiVersion" = None → not_a_service (VDict s) = Ok true) ∧
  (is_ok (not_a_service (VDict s)) = false ↔
   s !! "kind" = Some (VStr "Service") ∧
   ∃ v, s !! "apiVersion" = Some v ∧ is_string v = false).
Proof.
  assert (not_a_service (VDict s) =
          if is_str "Service" (default VNone (s !! "kind")) then
            match default (VStr "") (s !! "apiVersion") with
            | VStr v => Ok (negb (String.prefix api_group v))
            | _ => Raise AttributeError
            end
          else Ok true) as Heq.
  { unfold not_a_service. cbn [py_get mbind outcome_bind].
    assert (∀ v, py_eq v (VStr "Service") = Ok (is_str "Service" v)) as -> by (by intros []).
    cbn [mbind outcome_bind]. by destruct (is_str "Service" _). }
  assert (is_str "Service" (default VNone (s !! "kind")) = true ↔
          s !! "kind" = Some (VStr "Service")) as Hkind.
  { destruct (s !! "kind") as [[ | | | k | | ] | ]; cbn; try (split; [done | by intros [=]]).
    rewrite bool_decide_eq_true. split; [by intros -> | by intros [= ->]]. }
  rewrite Heq. split; [ | split; [ | split]].
  - destruct Hkind as [Hk1 Hk2]. destruct (is_str "Service" _).
    + specialize (Hk1 eq_refl).
      destruct (s !! "apiVersion") as [[ | | | v | | ] | ] eqn:Hv;
        cbn [default from_option id];
        try (split; [done | by intros (_ & ? & [=] & _)]).
      * split.
        -- intros [= Hp%negb_false_iff]. eauto.
        -- intros (_ & v' & [= <-] & Hp). by rewrite Hp.
    + split; [done | ]. intros [Hk' _]. by specialize (Hk2 Hk').
  - intros rest Hk Hv. rewrite (proj2 Hkind Hk), Hv. cbn [default from_option id].
    by rewrite prefix_app.
  - intros Hv. rewrite Hv. cbn [default from_option id].
    by destruct (is_str "Service" _).
  - destruct Hkind as [Hk1 Hk2]. destruct (is_str "Service" _).
    + specialize (Hk1 eq_refl).
      destruct (s !! "apiVersion") as [[ | | | v | | ] | ] eqn:Hv;
        cbn [default from_option id is_ok];
        try (split; [intros _; split; [done | eexists; split; [done | done]] | done]).
      * split; [done | ]. by intros (_ & v' & [= <-] & ?).
      * split; [done | ]. by intros (_ & v' & [=] & ?).
    + cbn [is_ok]. split; [done | ]. intros [Hk' _]. by specialize (Hk2 Hk').
Qed.

Ltac lookup_inserts :=
  repeat first [rewrite lookup_insert_eq | rewrite lookup_insert_ne by done].

Lemma contains_key (d : gmap string value) (k : string) (v : value) :
  d !! k = Some v → py_contains k (VDict d) = Ok true.
Proof. intros Hk. cbn [py_contains]. by rewrite Hk. Qed.

Lemma sub_insert (d x : gmap string value) (k : string) :
  sub (<[k := VDict x]> d) k = x.
Proof. unfold sub. by rewrite lookup_insert_eq. Qed.

Lemma sub_insert_ne (d : gmap string value) (k k' : string) (v : value) :
  k ≠ k' → sub (<[k := v]> d) k' = sub d k'.
Proof. intros Hne. unfold sub. by rewrite lookup_insert_ne. Qed.

Lemma ensure_key (d : gmap string value) (k : string) :
  opt_all isinstance_dict (d !! k) = true →
  (has ← py_contains k (VDict d);
   if has : bool then Ok (VDict d) else py_setitem (VDict d) k (dict []))
  = Ok (VDict (<[k := VDict (sub d k)]> d)).
Proof.
  intros Hd. cbn [py_contains mbind outcome_bind]. unfold sub.
  destruct (d !! k) as [[ | | | | | x] | ] eqn:Hk; try done;
    rewrite ?contains_some, ?contains_none; cbn [py_setitem].
  by rewrite insert_id.
Qed.

Lemma publish_update_dict (sp : gmap string value) (url sum : string) :
  opt_all isinstance_dict (sp !! "package") = true →
  opt_all isinstance_dict (sub sp "package" !! "source") = true →
  opt_all isinstance_dict (sub (sub sp "package") "source" !! "checksum") = true →
  publish_update (VDict sp) url sum = Ok (VDict (published sp url sum)).
Proof.
  intros Hp Hs Hck. unfold publish_update.
  pose proof (ensure_key sp "package" Hp) as Hstep. cbn [mbind outcome_bind] in Hstep.
  cbn [py_contains mbind outcome_bind].
  change (py_contains "package" (VDict sp))
    with (Ok (bool_decide (is_Some (sp !! "package")))) in Hstep.
  cbn [mbind outcome_bind] in Hstep. rewrite Hstep. clear Hstep.
  cbn [mbind outcome_bind py_getitem]. rewrite lookup_insert_eq.
  set (p := sub sp "package") in *.
  pose proof (ensure_key p "source" Hs) as Hstep. cbn [py_contains mbind outcome_bind] in Hstep.
  cbn [py_contains mbind outcome_bind]. rewrite Hstep. clear Hstep.
  cbn [mbind outcome_bind py_getitem]. rewrite lookup_insert_eq.
  set (s := sub p "source") in *.
  cbn [mbind outcome_bind py_setitem py_contains].
  assert (<["url" := VStr url]> (<["type" := VStr "url"]> s) !! "checksum" = s !! "checksum")
    as Hlook by (by rewrite !lookup_insert_ne).
  pose proof (ensure_key (<["url" := VStr url]> (<["type" := VStr "url"]> s)) "checksum")
    as Hstep.
  rewrite Hlook in Hstep. specialize (Hstep Hck).
  cbn [py_contains mbind outcome_bind py_setitem] in Hstep. rewrite Hlook in Hstep.
  rewrite Hlook, Hstep. clear Hstep.
  cbn [mbind outcome_bind py_getitem py_setitem]. rewrite lookup_insert_eq.
  cbn [mbind outcome_bind py_getitem py_setitem].
  rewrite !insert_insert_eq.
  unfold published, published_package, published_source, published_checksum.
  fold p. fold s.
  assert (sub (<["url" := VStr url]> (<["type" := VStr "url"]> s)) "checksum"
          = sub s "checksum") as -> by (by rewrite !sub_insert_ne).
  done.
Qed.

Lemma published_source_again (s : gmap string value) (url sum : string) :
  published_source (published_source s url sum) url sum = published_source s url sum.
Proof.
  assert (sub (published_source s url sum) "checksum"
          = published_checksum (sub s "checksum") sum) as Hsub
    by (unfold published_source; apply sub_insert).
  unfold published_source at 1. rewrite Hsub.
  unfold published_source, published_checksum. apply map_eq. intros k.
  destruct (decide (k = "checksum")) as [-> | Hck].
  - rewrite !lookup_insert_eq. do 2 f_equal. apply map_eq. intros k.
    destruct (decide (k = "sum")) as [-> | Hsum]; [by lookup_inserts | ].
    destruct (decide (k = "type")) as [-> | Htype]; by lookup_inserts.
  - destruct (decide (k = "url")) as [-> | Hurl]; [by lookup_inserts | ].
    destruct (decide (k = "type")) as [-> | Htype]; by lookup_inserts.
Qed.

Lemma published_again (sp : gmap string value) (url sum : string) :
  published (published sp url sum) url sum = published sp url sum.
Proof.
  assert (sub (published sp url sum) "package"
          = published_package (sub sp "package") url sum) as Hsub
    by (unfold published; apply sub_insert).
  unfold published at 1. rewrite Hsub.
  unfold published. rewrite insert_insert_eq. do 2 f_equal.
  assert (sub (published_package (sub sp "package") url sum) "source"
          = published_source (sub (sub sp "package") "source") url sum) as Hsub'
    by (unfold published_package; apply sub_insert).
  unfold published_package at 1. rewrite Hsub'.
  unfold published_package. rewrite insert_insert_eq.
  by rewrite published_source_again.
Qed.

(** X15. What [publish] writes back: on a specification whose package,
    source and checksum are mappings where they exist, the update succeeds;
    afterwards the source of the package has type "url", the public URL
    and a checksum of type "sha256" with the digest of the archive; every
    other key of the specification, of the package, of the source and of
    the checksum is as it was; and updating again with the same URL and
    digest changes nothing. *)
Theorem publish_update_spec (sp : gmap string value) (url sum : string) :
  opt_all isinstance_dict (sp !! "package") = true →
  opt_all isinstance_dict (sub sp "package" !! "source") = true →
  opt_all isinstance_dict (sub (sub sp "package") "source" !! "checksum") = true →
  ∃ sp' p' s' ck',
    publish_update (VDict sp) url sum = Ok (VDict sp') ∧
    sp' !! "package" = Some (VDict p') ∧ p' !! "source" = Some (VDict s') ∧
    s' !! "checksum" = Some (VDict ck') ∧
    s' !! "type" = Some (VStr "url") ∧ s' !! "url" = Some (VStr url) ∧
    ck' !! "type" = Some (VStr "sha256") ∧ ck' !! "sum" = Some (VStr sum) ∧
    (∀ k, k ≠ "package" → sp' !! k = sp !! k) ∧
    (∀ k, k ≠ "source" → p' !! k = sub sp "package" !! k) ∧
    (∀ k, k ∉ ["type"; "url"; "checksum"] →
          s' !! k = sub (sub sp "package") "source" !! k) ∧
    (∀ k, k ∉ ["type"; "sum"] →
          ck' !! k = sub (sub (sub sp "package") "source") "checksum" !! k) ∧
    publish_update (VDict sp') url sum = Ok (VDict sp').
Proof.
  intros Hp Hs Hck.
  exists (published sp url sum), (published_package (sub sp "package") url sum),
         (published_source (sub (sub sp "package") "source") url sum),
         (published_checksum (sub (sub (sub sp "package") "source") "checksum") sum).
  split; [by apply publish_update_dict | ].
  unfold published, published_package, published_source, published_checksum.
  split_and!; try (by lookup_inserts).
  - intros k Hk. by lookup_inserts.
  - intros k Hk. by lookup_inserts.
  - intros k Hk. rewrite !not_elem_of_cons in Hk. destruct Hk as (? & ? & ? & _).
    by lookup_inserts.
  - intros k Hk. rewrite !not_elem_of_cons in Hk. destruct Hk as (? & ? & _).
    by lookup_inserts.
  - fold (published_checksum (sub (sub (sub sp "package") "source") "checksum") sum).
    fold (published_source (sub (sub sp "package") "source") url sum).
    fold (published_package (sub sp "package") url sum).
    fold (published sp url sum).
    rewrite publish_update_dict.
    + by rewrite published_again.
    + unfold published. by rewrite lookup_insert_eq.
    + unfold published at 1. rewrite sub_insert. unfold published_package.
      by rewrite lookup_insert_eq.
    + unfold published at 1. rewrite sub_insert. unfold published_package at 1.
      rewrite sub_insert. unfold published_source. by rewrite lookup_insert_eq.
Qed.

Lemma publish_update_spec_witness :
  ∃ sp' s',
    publish_update (VDict literal_spec) "https://storage.googleapis.com/b/hello.zip" "ab12"
      = Ok (VDict sp') ∧
    get_path (VDict sp') ["package"; "source"] = Some (VDict s') ∧
    s' !! "type" = Some (VStr "url") ∧
    s' !! "literal" = Some (VStr "def main(): pass") ∧
    sp' !! "environment" = Some (dict [("name", VStr "python")]).
Proof.
  destruct (publish_update_spec literal_spec
              "https://storage.googleapis.com/b/hello.zip" "ab12")
    as (sp' & p' & s' & ck' & Hrun & Hp & Hs & _ & Ht & _ & _ & _ & Hsp & _ & Hk & _);
    try (vm_compute; reflexivity).
  exists sp', s'. split; [exact Hrun | ].
  split; [cbn [get_path]; rewrite Hp; cbn [mbind option_bind]; rewrite Hs; reflexivity | ].
  split; [exact Ht | ].
  split; [rewrite Hk; [vm_compute; reflexivity | ] | rewrite Hsp; [vm_compute; reflexivity | done]].
  rewrite !not_elem_of_cons. repeat split; try done. apply not_elem_of_nil.
Defined.

Section Published.
Context `{PyLib}.

(** X16. [publish] and [generate_package] agree on what was published:
    from the package of the updated specification the source block of the
    Package is the block [publish] wrote, unchanged, and the literal path
    is not taken even when the specification still carries its literal. *)
Theorem published_source_is_copied (e : run_env) (sp : gmap string value)
    (url sum : string) :
  opt_all isinstance_dict (sp !! "package") = true →
  opt_all isinstance_dict (sub sp "package" !! "source") = true →
  opt_all isinstance_dict (sub (sub sp "package") "source" !! "checksum") = true →
  ∃ sp' package_spec source,
    publish_update (VDict sp) url sum = Ok (VDict sp') ∧
    sp' !! "package" = Some package_spec ∧
    get_path package_spec ["source"] = Some source ∧
    package_source e package_spec = Ok (Some source) ∧
    get_path source ["type"] = Some (VStr "url") ∧
    get_path source ["url"] = Some (VStr url) ∧
    get_path source ["checksum"; "type"] = Some (VStr "sha256") ∧
    get_path source ["checksum"; "sum"] = Some (VStr sum).
Proof.
  intros Hp Hs Hck.
  exists (published sp url sum), (VDict (published_package (sub sp "package") url sum)),
         (VDict (published_source (sub (sub sp "package") "source") url sum)).
  split; [by apply publish_update_dict | ].
  split; [unfold published; by rewrite lookup_insert_eq | ].
  unfold published_package. set (p := sub sp "package"). set (s := sub p "source").
  split; [cbn [get_path]; by rewrite lookup_insert_eq | ].
  assert (published_source s url sum !! "type" = Some (VStr "url")) as Htype
    by (unfold published_source; by lookup_inserts).
  assert (published_source s url sum !! "checksum"
          = Some (VDict (published_checksum (sub s "checksum") sum))) as Hsum
    by (unfold published_source; by rewrite lookup_insert_eq).
  split.
  - unfold package_source.
    cbn [py_contains py_getitem mbind outcome_bind]. rewrite lookup_insert_eq, contains_some.
    cbn [mbind outcome_bind]. unfold inferred_type.
    cbn [py_contains py_getitem mbind outcome_bind]. rewrite Htype, contains_some.
    cbn [mbind outcome_bind py_eq]. rewrite bool_decide_eq_false_2 by done.
    cbn [mbind outcome_bind]. unfold copied_source.
    cbn [py_contains py_getitem mbind outcome_bind]. rewrite Htype, contains_some.
    cbn [mbind outcome_bind py_contains py_getitem]. rewrite Hsum, contains_some.
    cbn [mbind outcome_bind isinstance_dict].
    by rewrite (contains_key _ "type" (VStr "sha256"))
      by (unfold published_checksum; by lookup_inserts).
  - cbn [get_path]. rewrite Htype, Hsum. cbn [mbind option_bind].
    unfold published_source, published_checksum. by lookup_inserts.
Qed.

End Published.

Lemma published_source_is_copied_witness :
  ∃ sp' package_spec source,
    publish_update (VDict literal_spec) "https://storage.googleapis.com/b/hello.zip" "ab12"
      = Ok (VDict sp') ∧
    sp' !! "package" = Some package_spec ∧
    package_source (H := Ref.lib) run_a package_spec = Ok (Some source) ∧
    get_path source ["type"] = Some (VStr "url") ∧
    get_path source ["literal"] = Some (VStr "def main(): pass").
Proof.
  destruct (published_source_is_copied (H := Ref.lib) run_a literal_spec
              "https://storage.googleapis.com/b/hello.zip" "ab12")
    as (sp' & package_spec & source & Hrun & Hp & Hs & Hsrc & Ht & _);
    try (vm_compute; reflexivity).
  exists sp', package_spec, source. split; [exact Hrun | ]. split; [exact Hp | ].
  split; [exact Hsrc | ]. split; [exact Ht | ].
  assert (publish_update (VDict literal_spec) "https://storage.googleapis.com/b/hello.zip"
            "ab12" = Ok (VDict (published literal_spec
                                  "https://storage.googleapis.com/b/hello.zip" "ab12")))
    as Hrun' by (vm_compute; reflexivity).
  rewrite Hrun in Hrun'. injection Hrun' as ->.
  unfold published in Hp. rewrite lookup_insert_eq in Hp. injection Hp as <-.
  unfold published_package in Hs. cbn [get_path] in Hs. rewrite lookup_insert_eq in Hs.
  cbn [mbind option_bind] in Hs. injection Hs as <-. vm_compute. reflexivity.
Defined.

(** ** The files pack collects *)

Section PackProperties.
Context `{Directory}.

Lemma collect_file_wanted (em : gmap string value) (pattern : string)
    (files : list path) (p : path) :
  collect_file em (VStr pattern) files p
  = Ok (if wanted em pattern p && negb (bool_decide (p ∈ files))
        then (files ++ [p])%list else files).
Proof.
  unfold collect_file, wanted. destruct (is_file p); [ | done]. cbn [py_fnmatch andb].
  cbn [mbind outcome_bind].
  destruct (fnmatch (relative_to p) pattern); cbn [mbind outcome_bind orb];
    [ | destruct (fnmatch (path_name p) pattern); cbn [mbind outcome_bind]; [ | done]];
    destruct (bool_decide (is_Some (em !! relative_to p))); cbn [negb andb]; try done;
    by destruct (bool_decide (p ∈ files)).
Qed.

Lemma collect_walk (em : gmap string value) (pattern : string) (l : list path) :
  ∀ files, NoDup files →
    ∃ files', fold_each (collect_file em (VStr pattern)) files l = Ok files' ∧
              NoDup files' ∧
              (∃ more, files' = (files ++ more)%list) ∧
              ∀ p, p ∈ files' ↔ p ∈ files ∨ (p ∈ l ∧ wanted em pattern p = true).
Proof.
  induction l as [ | q l IH]; intros files Hnd; cbn [fold_each].
  - exists files. split; [done | ]. split; [done | ].
    split; [exists []; by rewrite app_nil_r | ].
    intros p. split; [by left | ]. intros [? | [[]%elem_of_nil _]]. done.
  - rewrite collect_file_wanted. cbn [mbind outcome_bind].
    set (files1 := if wanted em pattern q && negb (bool_decide (q ∈ files))
                   then (files ++ [q])%list else files).
    assert (NoDup files1 ∧ (∃ more, files1 = (files ++ more)%list) ∧
            ∀ p, p ∈ files1 ↔ p ∈ files ∨ (p = q ∧ wanted em pattern p = true))
      as (Hnd1 & [more1 Hmore1] & Hin1).
    { unfold files1. destruct (wanted em pattern q) eqn:Hw; cbn [andb].
      - destruct (bool_decide (q ∈ files)) eqn:Hq; cbn [negb].
        + apply bool_decide_eq_true in Hq. split; [done | ].
          split; [exists []; by rewrite app_nil_r | ].
          intros p. split; [by left | ]. intros [? | [-> _]]; done.
        + apply bool_decide_eq_false in Hq. split.
          * apply NoDup_app. split; [done | ]. split; [ | apply NoDup_singleton].
            intros x Hx ->%list_elem_of_singleton. done.
          * split; [by exists [q] | ].
            intros p. rewrite elem_of_app, list_elem_of_singleton.
            split; [intros [? | ->]; [by left | by right] | ].
            intros [? | [-> _]]; [by left | by right].
      - split; [done | ]. split; [exists []; by rewrite app_nil_r | ].
        intros p. split; [by left | ]. intros [? | [-> ?]]; [done | congruence]. }
    destruct (IH files1 Hnd1) as (files' & Hrun & Hnd' & [more Hmore] & Hin').
    exists files'. split; [exact Hrun | ]. split; [exact Hnd' | ].
    split; [exists (more1 ++ more)%list; by rewrite Hmore, Hmore1, app_assoc | ].
    intros p. rewrite Hin', Hin1, elem_of_cons. tauto.
Qed.

Lemma collect_patterns_files (em : gmap string value) (patterns : list string) :
  ∃ files,
    collect_patterns em (VList (VStr <$> patterns)) = Ok files ∧
    NoDup files ∧
    ∀ p, p ∈ files ↔
         ∃ pattern, pattern ∈ patterns ∧ p ∈ rglob ∧ wanted em pattern p = true.
Proof.
  unfold collect_patterns. cbn [py_iter mbind outcome_bind].
  assert (∀ files, NoDup files →
            ∃ files',
              fold_each (λ files_to_pack pattern,
                           fold_each (collect_file em pattern) files_to_pack rglob)
                        files (VStr <$> patterns) = Ok files' ∧
              NoDup files' ∧
              ∀ p, p ∈ files' ↔
                   p ∈ files ∨
                   ∃ pattern, pattern ∈ patterns ∧ p ∈ rglob ∧ wanted em pattern p = true)
    as Hloop.
  { induction patterns as [ | pattern patterns IH]; intros files Hnd;
      [exists files; split; [done | ]; split; [done | ];
       intros p; split; [by left | ]; intros [? | (? & []%elem_of_nil & _)]; done | ].
    rewrite fmap_cons. cbn [fold_each].
    destruct (collect_walk em pattern rglob files Hnd) as (files1 & -> & Hnd1 & _ & Hin1).
    cbn [mbind outcome_bind].
    destruct (IH files1 Hnd1) as (files' & Hrun & Hnd' & Hin').
    exists files'. split; [exact Hrun | ]. split; [exact Hnd' | ].
    intros p. rewrite Hin', Hin1. split.
    - intros [[Hp | [Hr Hw]] | (pat & Hpat & Hr & Hw)]; [by left | | ].
      + right. exists pattern. split; [by left | done].
      + right. exists pat. split; [by right | done].
    - intros [Hp | (pat & [-> | Hpat]%elem_of_cons & Hr & Hw)].
      + left. by left.
      + left. by right.
      + right. by exists pat. }
  destruct (Hloop [] (NoDup_nil_2)) as (files & Hrun & Hnd & Hin).
  exists files. split; [exact Hrun | ]. split; [exact Hnd | ].
  intros p. rewrite Hin. split; [ | by right].
  by intros [[]%elem_of_nil | ?].
Qed.

Lemma wanted_spec (em : gmap string value) (pattern : string) (p : path) :
  wanted em pattern p = true ↔
  is_file p = true ∧
  (fnmatch (relative_to p) pattern = true ∨ fnmatch (path_name p) pattern = true) ∧
  em !! relative_to p = None.
Proof.
  unfold wanted. rewrite !andb_true_iff, orb_true_iff, negb_true_iff, bool_decide_eq_false.
  rewrite eq_None_not_Some. tauto.
Qed.

(** X17. The files the include patterns select: every pattern is matched
    against each regular file of the directory, by its relative path and
    by its name alone; a file is taken when one of the two matches, unless
    an embedded file has its relative path; no file is taken twice,
    however many patterns match it. *)
Theorem collect_patterns_spec (em : gmap string value) (patterns : list string) :
  ∃ files,
    collect_patterns em (VList (VStr <$> patterns)) = Ok files ∧
    NoDup files ∧
    ∀ p, p ∈ files ↔
         p ∈ rglob ∧ is_file p = true ∧
         (∃ pattern, pattern ∈ patterns ∧
                     (fnmatch (relative_to p) pattern = true ∨
                      fnmatch (path_name p) pattern = true)) ∧
         em !! relative_to p = None.
Proof.
  destruct (collect_patterns_files em patterns) as (files & Hrun & Hnd & Hin).
  exists files. split; [exact Hrun | ]. split; [exact Hnd | ].
  intros p. rewrite Hin. split.
  - intros (pattern & Hp & Hr & (Hf & Hm & Hem)%wanted_spec). eauto 10.
  - intros (Hr & Hf & (pattern & Hp & Hm) & Hem). exists pattern.
    split; [done | ]. split; [done | ]. by apply wanted_spec.
Qed.

Lemma add_buildcmd_files (em : gmap string value) (buildcmd : value) (files : list path) :
  (is_string buildcmd || negb (py_truthy buildcmd)) = true →
  NoDup files →
  ∃ files', add_buildcmd em buildcmd files = Ok files' ∧ NoDup files' ∧
            ∀ p, p ∈ files' ↔ p ∈ files ∨ buildcmd_file em buildcmd p.
Proof.
  intros Hb Hnd. unfold add_buildcmd, buildcmd_file.
  destruct (py_truthy buildcmd) eqn:Htruthy.
  - destruct buildcmd as [ | | | b | | ]; try done.
    assert (b ≠ "") as Hne.
    { cbn [py_truthy] in Htruthy. by apply negb_true_iff, bool_decide_eq_false in Htruthy. }
    destruct (path_exists (joinpath b)) eqn:Hex; cbn [andb];
      [destruct (is_file (joinpath b)) eqn:Hfile | ].
    + destruct (bool_decide (joinpath b ∈ files)) eqn:Hin; cbn [negb andb].
      * apply bool_decide_eq_true in Hin. exists files. split; [done | ]. split; [done | ].
        intros p. split; [by left | ]. by intros [? | (b' & [= <-] & _ & -> & _)].
      * apply bool_decide_eq_false in Hin.
        destruct (bool_decide (is_Some (em !! b))) eqn:Hem; cbn [negb].
        -- apply bool_decide_eq_true in Hem. exists files. split; [done | ]. split; [done | ].
           intros p. split; [by left | ].
           intros [? | (b' & [= <-] & _ & _ & _ & _ & Hnone)]; [done | ].
           rewrite Hnone in Hem. by destruct Hem.
        -- apply bool_decide_eq_false in Hem. exists (files ++ [joinpath b])%list.
           split; [done | ]. split.
           ++ apply NoDup_app. split; [done | ]. split; [ | apply NoDup_singleton].
              by intros x Hx ->%list_elem_of_singleton.
           ++ intros p. rewrite elem_of_app, list_elem_of_singleton. split.
              ** intros [? | ->]; [by left | right]. exists b.
                 split_and!; try done. by apply eq_None_not_Some.
              ** intros [? | (b' & [= <-] & _ & -> & _)]; [by left | by right].
    + exists files. split; [done | ]. split; [done | ].
      intros p. split; [by left | ].
      intros [? | (b' & [= <-] & _ & -> & _ & Hf & _)]; [done | congruence].
    + exists files. split; [done | ]. split; [done | ].
      intros p. split; [by left | ].
      intros [? | (b' & [= <-] & _ & -> & He & _)]; [done | congruence].
  - exists files. split; [done | ]. split; [done | ].
    intros p. split; [by left | ]. intros [? | (b & -> & Hne & _)]; [done | ].
    cbn [py_truthy] in Htruthy. apply negb_false_iff, bool_decide_eq_true in Htruthy. done.
Qed.

(** X18. [pack] on a Service whose package has patterns and, possibly, a
    literal and a build command: it exits with status 1 exactly when the
    literal is missing or empty, no file of the directory is selected and
    the build command adds none; otherwise the literal, when it is not
    empty, is embedded as main.py, the files are those the patterns select
    and the file of the build command, each once; and without a build
    command, when the relative paths of the directory are distinct, no two
    members of the archive have the same name. *)
Theorem pack_files_spec (s m sp pk src : gmap string value) (patterns : list string) :
  not_a_service (VDict s) = Ok false →
  s !! "metadata" = Some (VDict m) → is_Some (m !! "name") →
  s !! "spec" = Some (VDict sp) → sp !! "package" = Some (VDict pk) →
  default (VList []) (pk !! "include") = VList (VStr <$> patterns) →
  default (dict []) (pk !! "source") = VDict src →
  (is_string (default VNone (pk !! "buildcmd")) ||
   negb (py_truthy (default VNone (pk !! "buildcmd")))) = true →
  ∃ r, pack_files (VDict s) = Ok r ∧
       let literal := default VNone (src !! "literal") in
       let buildcmd := default VNone (pk !! "buildcmd") in
       let em := embedded_files literal in
       let selected p :=
         (∃ pattern, pattern ∈ patterns ∧ p ∈ rglob ∧ wanted em pattern p = true) ∨
         buildcmd_file em buildcmd p in
       match r with
       | Exit status =>
           status = 1 ∧ py_truthy literal = false ∧ ∀ p, ¬ selected p
       | Return (em', files) =>
           em' = em ∧ NoDup files ∧ (∀ p, p ∈ files ↔ selected p) ∧
           (py_truthy literal = true ∨ ∃ p, selected p) ∧
           (py_truthy buildcmd = false →
            (∀ p q, p ∈ rglob → q ∈ rglob → relative_to p = relative_to q → p = q) →
            NoDup (archive_names em files))
       end.
Proof.
  intros Hservice Hm [svc Hsvc] Hsp Hpk Hinclude Hsrc Hbuildcmd.
  unfold pack_files. rewrite Hservice. cbn [mbind outcome_bind py_get py_getitem].
  rewrite Hsp. cbn [default from_option id mbind outcome_bind py_get].
  rewrite Hpk. cbn [default from_option id mbind outcome_bind py_get].
  rewrite Hinclude, Hm. cbn [mbind outcome_bind py_getitem]. rewrite Hsvc.
  cbn [mbind outcome_bind]. rewrite Hsrc. cbn [mbind outcome_bind py_get].
  set (literal := default VNone (src !! "literal")).
  set (buildcmd := default VNone (pk !! "buildcmd")) in *.
  set (em := embedded_files literal).
  destruct (collect_patterns_files em patterns) as (files0 & -> & Hnd0 & Hin0).
  cbn [mbind outcome_bind].
  destruct (add_buildcmd_files em buildcmd files0 Hbuildcmd Hnd0) as (files & -> & Hnd & Hin).
  cbn [mbind outcome_bind].
  assert (∀ p, p ∈ files ↔
               (∃ pattern, pattern ∈ patterns ∧ p ∈ rglob ∧ wanted em pattern p = true) ∨
               buildcmd_file em buildcmd p) as Hsel.
  { intros p. by rewrite Hin, Hin0. }
  assert (py_truthy (VDict em) = py_truthy literal) as Hem.
  { unfold em, embedded_files. destruct (py_truthy literal); cbn [py_truthy].
    - apply negb_true_iff, bool_decide_eq_false. intros Heq.
      apply (f_equal (λ d : gmap string value, d !! "main.py")) in Heq.
      by rewrite lookup_singleton_eq, lookup_empty in Heq.
    - by apply negb_false_iff, bool_decide_eq_true. }
  rewrite Hem.
  destruct files as [ | f files]; cbn [andb].
  - destruct (py_truthy literal) eqn:Hlit; cbn [negb].
    + eexists. split; [reflexivity | ]. cbv zeta. split; [done | ].
      split; [constructor | ]. split; [exact Hsel | ]. split; [by left | ].
      intros _ _. unfold archive_names, em, embedded_files. rewrite Hlit.
      rewrite map_to_list_singleton. cbn. apply NoDup_singleton.
    + eexists. split; [reflexivity | ]. cbv zeta. split; [done | ]. split; [done | ].
      intros p Hp. apply Hsel in Hp. by apply elem_of_nil in Hp.
  - eexists. split; [reflexivity | ]. cbv zeta. split; [done | ].
    split; [exact Hnd | ]. split; [exact Hsel | ].
    split; [right; exists f; apply Hsel; by left | ].
    intros Hnb Hinj.
    assert (∀ p, p ∈ f :: files → p ∈ rglob ∧ em !! relative_to p = None) as Hfrom.
    { intros p [(pattern & _ & Hr & Hw) | (b & Hb & Hne & _)]%Hsel.
      - apply wanted_spec in Hw as (_ & _ & Hnone). done.
      - rewrite Hb in Hnb. cbn [py_truthy] in Hnb.
        apply negb_false_iff, bool_decide_eq_true in Hnb. done. }
    assert (NoDup (relative_to <$> f :: files)) as Hnames.
    { apply NoDup_fmap_2_strong; [ | exact Hnd].
      intros p q Hp Hq. apply Hinj; [by apply Hfrom | by apply Hfrom]. }
    unfold archive_names. unfold em at 1, embedded_files.
    destruct (py_truthy literal) eqn:Hlit.
    + rewrite map_to_list_singleton. cbn [fmap list_fmap fst app].
      change (NoDup ("main.py" :: (relative_to <$> f :: files))).
      apply NoDup_cons. split; [ | exact Hnames].
      intros (p & Hrel & Hp)%list_elem_of_fmap.
      apply Hfrom in Hp as [_ Hnone]. rewrite <- Hrel in Hnone.
      unfold em, embedded_files in Hnone. rewrite Hlit in Hnone.
      by rewrite lookup_singleton_eq in Hnone.
    + by rewrite map_to_list_empty.
Qed.

End PackProperties.

Lemma pack_files_spec_witness :
  ∃ r, pack_files (H := Tree.dir) (VDict packed_service) = Ok r ∧
       match r with
       | Exit status => status = 1
       | Return (em, files) =>
           em = {["main.py" := VStr "def main(): pass"]} ∧ NoDup files ∧
           NoDup (archive_names (H := Tree.dir) em files)
       end.
Proof.
  destruct (pack_files_spec (H := Tree.dir) packed_service
              (list_to_map [("name", VStr "hello")])
              (list_to_map [("package",
                 dict [("include", VList [VStr "*.py"; VStr "util.py"]);
                       ("source", dict [("literal", VStr "def main(): pass")])])])
              (list_to_map [("include", VList [VStr "*.py"; VStr "util.py"]);
                            ("source", dict [("literal", VStr "def main(): pass")])])
              (list_to_map [("literal", VStr "def main(): pass")])
              ["*.py"; "util.py"]) as (r & Hrun & Hr);
    try (vm_compute; reflexivity).
  { vm_compute. eauto. }
  exists r. split; [exact Hrun | ]. cbv zeta in Hr.
  destruct r as [status | [em files]]; [by destruct Hr | ].
  destruct Hr as (-> & Hnd & _ & _ & Hnames).
  split; [vm_compute; reflexivity | ]. split; [exact Hnd | ].
  apply Hnames; [vm_compute; reflexivity | ].
  intros p q _ _ Heq. exact Heq.
Defined.

(** ** A function end to end, and a second run *)

(** X19. The Function of one function definition, end to end: its entry
    point is the definition's; its invocation strategy and each optional
    field are the definition's when it has the key and the template's
    otherwise (the default strategy when neither has one); its spec has
    no other field than the fixed ones; and its description is the
    definition's alone, a description in the template is not used. *)
Theorem function_of_definition (c : context) (svc : string) (dd fd : gmap string value) :
  service_name c = VStr svc → function_defaults c = VDict dd →
  valid_function dd (VDict fd) = true →
  ∃ function,
    function_resource c (VDict fd)
      = Ok (function, VStr (name_of svc fd), VStr (short_of svc fd)) ∧
    get_path function ["spec"; "package"; "functionName"] = fd !! "functionName" ∧
    get_path function ["spec"; "InvokeStrategy"] =
      Some (default default_invoke_strategy (resolved "invokeStrategy" fd dd)) ∧
    (∀ k, k ∈ optional_fields → get_path function ["spec"; k] = resolved k fd dd) ∧
    (∀ k v, get_path function ["spec"; k] = Some v → k ∈ function_spec_keys) ∧
    get_path function ["metadata"; "annotations"] =
      (if py_truthy (default VNone (fd !! "description"))
       then Some (dict [("kubernetes.io/description", default VNone (fd !! "description"))])
       else None).
Proof.
  intros Hsvc Hdd (Hn & [fname Hf] & Hs & Hc & _)%valid_function_inv.
  destruct (func_name_spec svc fd Hn) as [Hshort Hname].
  destruct (merge_function_config_dict dd fd) as (m & Hm & Hlook).
  destruct (normalize_refs_ok _ (namespace c) Hs) as [secrets Hsecrets].
  destruct (normalize_refs_ok _ (namespace c) Hc) as [configmaps Hconfigmaps].
  destruct (generate_function_lookup (VStr (name_of svc fd)) (namespace c) (labels c)
              (default VNone (fd !! "description")) fname (package_name c) (namespace c)
              (env_name c) (env_namespace c) (VList secrets) (VList configmaps) m)
    as (function & Hfunction & Hstrategy & Hfields & Hkeys & Hdescription).
  assert (∀ k, k ∈ mergeable_keys → m !! k = resolved k fd dd) as Hmerged.
  { intros k Hk. rewrite Hlook, (bool_decide_eq_true_2 _ Hk). unfold resolved.
    by destruct (fd !! k). }
  exists function. split; [ | split; [ | split; [ | split; [ | split]]]].
  - unfold function_resource. rewrite Hsvc, Hdd, Hshort. cbn [mbind outcome_bind].
    rewrite Hname. cbn [mbind outcome_bind]. rewrite Hm. cbn [mbind outcome_bind].
    rewrite func_secrets_pick. cbn [mbind outcome_bind]. rewrite Hsecrets.
    cbn [mbind outcome_bind]. rewrite func_configmaps_pick. cbn [mbind outcome_bind].
    rewrite Hconfigmaps. cbn [mbind outcome_bind py_get py_getitem]. rewrite Hf.
    cbn [mbind outcome_bind]. rewrite Hfunction. reflexivity.
  - apply generate_function_meta in Hfunction as (_ & _ & _ & _ & _ & Hpackage).
    rewrite Hf.
    destruct function as [ | | | | | r]; try done. cbn [get_path] in Hpackage |- *.
    destruct (r !! "spec") as [[ | | | | | sp] | ]; try done.
    cbn [mbind option_bind get_path] in Hpackage |- *.
    destruct (sp !! "package") as [pk | ]; [ | done]. cbn [mbind option_bind] in Hpackage |- *.
    injection Hpackage as ->. reflexivity.
  - rewrite Hstrategy, Hmerged; [done | ]. unfold mergeable_keys. by left.
  - intros k Hk. rewrite (Hfields k Hk). apply Hmerged.
    unfold mergeable_keys. right. exact Hk.
  - exact Hkeys.
  - exact Hdescription.
Qed.

Lemma function_of_definition_witness :
  ∃ function,
    function_resource (mkContext (VStr "api") (VStr "default") (dict []) (dict [])
                         (VStr "api") (VStr "python") (VStr "default")
                         (VDict tuned_template))
      (VDict tuned_function) = Ok (function, VStr "api-get", VStr "get") ∧
    get_path function ["spec"; "concurrency"] = Some (VInt 50) ∧
    get_path function ["spec"; "functionTimeout"] = Some (VInt 30) ∧
    get_path function ["metadata"; "annotations"] = None.
Proof.
  destruct (function_of_definition
              (mkContext (VStr "api") (VStr "default") (dict []) (dict [])
                 (VStr "api") (VStr "python") (VStr "default") (VDict tuned_template))
              "api" tuned_template tuned_function)
    as (function & Hrun & _ & _ & Hfields & _ & Hdescription);
    try (vm_compute; reflexivity).
  exists function. split; [exact Hrun | ].
  split; [rewrite Hfields; [vm_compute; reflexivity | ] | ].
  { unfold optional_fields. rewrite !elem_of_cons. tauto. }
  split; [rewrite Hfields; [vm_compute; reflexivity | ] | exact Hdescription].
  unfold optional_fields. rewrite !elem_of_cons. tauto.
Defined.

Section Again.
Context `{PyLib}.

(** X20. [transform] is not idempotent.  Applied to its own output it
    succeeds again and appends a second Package of the same identity and
    the very same Functions and HTTPTriggers after the first ones: what
    it generates depends on the Service alone, not on the items the
    document already holds. *)
Theorem transform_again (e e' : run_env) (krm : value) :
  valid_krm krm = true →
  fails_validation (functions_of (spec_of krm)) = false →
  ∃ krm1 krm2 package package' rest,
    transform e krm = (Ok krm1, krm1) ∧ appended krm (package :: rest) krm1 ∧
    transform e' krm1 = (Ok krm2, krm2) ∧ appended krm1 (package' :: rest) krm2 ∧
    resource_id package' = resource_id package.
Proof.
  intros Hvalid Hpass.
  destruct (transform_expansion e krm Hvalid Hpass)
    as (d & dd & items & service & package & buildcmd & c & svc & rss &
        -> & Hitems & Hc & Hsvc & Hdd & Hfs & Hb & Hp & Hrss & Hrun).
  set (d1 := <["items" := VList (items ++ package :: concat rss)]> d) in *.
  assert (d !! "functionConfig" = d1 !! "functionConfig") as Hsame
    by (unfold d1; by rewrite lookup_insert_ne).
  assert (valid_krm (VDict d1) = true) as Hvalid1.
  { unfold valid_krm in *. rewrite <- Hsame. unfold d1 at 1. rewrite lookup_insert_eq.
    rewrite Hitems in Hvalid. exact Hvalid. }
  assert (spec_of (VDict d1) = spec_of (VDict d)) as Hspec.
  { unfold spec_of. cbn [get_path]. by rewrite Hsame. }
  assert (context_of (VDict d1) = context_of (VDict d)) as Hctx.
  { unfold context_of. cbn [py_getitem]. by rewrite Hsame. }
  destruct (transform_expansion e' (VDict d1) Hvalid1)
    as (d' & dd' & items' & service' & package' & buildcmd' & c' & svc' & rss' &
        Hd' & Hitems' & Hc' & Hsvc' & Hdd' & Hfs' & Hb' & Hp' & Hrss' & Hrun');
    [by rewrite Hspec | ].
  injection Hd' as <-. rewrite Hctx, Hc in Hc'. injection Hc' as <-.
  rewrite Hspec, Hrss in Hrss'. injection Hrss' as <-.
  unfold d1 at 1 in Hitems'. rewrite lookup_insert_eq in Hitems'. injection Hitems' as <-.
  eexists _, _, package, package', (concat rss).
  split; [exact Hrun | ]. split; [by exists d, items | ].
  split; [exact Hrun' | ].
  split; [exists d1, (items ++ package :: concat rss)%list;
          split; [done | ]; split; [unfold d1; by rewrite lookup_insert_eq | done] | ].
  rewrite (generate_package_id _ _ _ _ _ _ _ _ _ Hp).
  by rewrite (generate_package_id _ _ _ _ _ _ _ _ _ Hp').
Qed.

End Again.

Lemma transform_again_witness :
  ∃ krm1 krm2 package package' rest,
    transform (H := Ref.lib) run_a two_triggers = (Ok krm1, krm1) ∧
    appended two_triggers (package :: rest) krm1 ∧
    transform (H := Ref.lib) run_c krm1 = (Ok krm2, krm2) ∧
    appended krm1 (package' :: rest) krm2 ∧
    resource_id package' = resource_id package.
Proof.
  apply (transform_again (H := Ref.lib) run_a run_c two_triggers);
    vm_compute; reflexivity.
Defined.
